(** * Banking RAG assistant: a shallow embedding of the retrieval-and-grounding
      pipeline (q1_banking_assistant/src) and the properties of its
      specification.

    Conventions of the embedding.
    - Python [str] is [string]; a character is a code point in 0..255.
    - A Python [dict] used as chunk metadata is a [gmap string MVal].
    - The external libraries (Chroma, the embedding model, the Gemini client,
      [json], LangChain's text splitter) are capabilities: functions over an
      abstract world, which may fail with the text of the exception.
    - Python's [try]/[except Exception as e] is [try_catch]; exceptions are
      represented by their [str(e)].
    - A Python [float] is an IEEE 754 binary64 number: a [spec_float] of the
      Standard Library at precision 53, with its round-to-nearest-even
      arithmetic and its comparisons. *)

From Stdlib Require Import String Ascii List ZArith Lia Bool.
From Stdlib Require Import Floats.SpecFloat.
From Stdlib Require Import DecimalString Permutation.
From stdpp Require Import gmap strings.
Import ListNotations.
Local Open Scope string_scope.
Local Open Scope list_scope.
Local Open Scope nat_scope.

(** ** Python string primitives *)

Module PyStr.

(** [str.isspace] on one code point (also the class [\s] of [re] and the
  characters removed by [str.strip()]). *)
Definition is_space (c : ascii) : bool :=
  let n := nat_of_ascii c in
  ((9 <=? n) && (n <=? 13)) || ((28 <=? n) && (n <=? 32))
  || (n =? 133) || (n =? 160).

Definition is_upper_ascii (c : ascii) : bool :=
  let n := nat_of_ascii c in (65 <=? n) && (n <=? 90).

Definition is_digit (c : ascii) : bool :=
  let n := nat_of_ascii c in (48 <=? n) && (n <=? 57).

(** The class [\w] of [re] for [str] patterns: alphanumeric or underscore. *)
Definition is_word (c : ascii) : bool :=
  let n := nat_of_ascii c in
  is_digit c || is_upper_ascii c || ((97 <=? n) && (n <=? 122)) || (n =? 95)
  || (n =? 170) || (n =? 178) || (n =? 179) || (n =? 181)
  || (n =? 185) || (n =? 186) || ((188 <=? n) && (n <=? 190))
  || ((192 <=? n) && (n <=? 214)) || ((216 <=? n) && (n <=? 246))
  || (248 <=? n).

(** [str.lower] on one code point. *)
Definition lower_char (c : ascii) : ascii :=
  let n := nat_of_ascii c in
  if is_upper_ascii c then ascii_of_nat (n + 32)
  else if (192 <=? n) && (n <=? 222) && negb (n =? 215) then ascii_of_nat (n + 32)
  else c.

Fixpoint lower (s : string) : string :=
  match s with
  | EmptyString => EmptyString
  | String c s' => String (lower_char c) (lower s')
  end.

Fixpoint lstrip (s : string) : string :=
  match s with
  | EmptyString => EmptyString
  | String c s' => if is_space c then lstrip s' else s
  end.

(** [rstrip]: a character is kept when it is not a space or when something
  is kept after it. *)
Fixpoint rstrip (s : string) : string :=
  match s with
  | EmptyString => EmptyString
  | String c s' =>
      match rstrip s' with
      | EmptyString => if is_space c then EmptyString else String c EmptyString
      | r => String c r
      end
  end.

Definition strip (s : string) : string := rstrip (lstrip s).

(** Truth value of a string: [if s:] *)
Definition truthy (s : string) : bool :=
  match s with EmptyString => false | _ => true end.

(** [needle in hay] *)
Definition contains (needle hay : string) : bool :=
  match String.index 0 needle hay with Some _ => true | None => false end.

(** [s[a:b]] for [a <= b] *)
Definition slice (s : string) (a b : nat) : string := substring a (b - a) s.

(** [s[a:]] *)
Definition slice_from (s : string) (a : nat) : string :=
  substring a (String.length s - a) s.

(** [s.split(sep)[-1]] for a one-character separator: what follows the last
  occurrence of [sep] (all of [s] when there is none). *)
Fixpoint last_component (sep : ascii) (s : string) : string :=
  match s with
  | EmptyString => EmptyString
  | String c s' =>
      if Ascii.eqb c sep then last_component sep s'
      else if contains (String sep EmptyString) s' then last_component sep s'
      else s
  end.

(** [str(n)] for an [int] *)
Definition str_of_nat (n : nat) : string :=
  NilEmpty.string_of_uint (Nat.to_uint n).

Definition str_of_Z (z : Z) : string :=
  NilZero.string_of_int (Z.to_int z).

(** [sep.join(parts)] *)
Fixpoint join (sep : string) (parts : list string) : string :=
  match parts with
  | [] => EmptyString
  | [p] => p
  | p :: rest => p +:+ sep +:+ join sep rest
  end.

Definition nl : string := String (ascii_of_nat 10) EmptyString.
Definition dquote : string := String (ascii_of_nat 34) EmptyString.

(** The characters of [s] that are not white space, in order. *)
Fixpoint non_whitespace (s : string) : string :=
  match s with
  | EmptyString => EmptyString
  | String c s' =>
      if is_space c then non_whitespace s' else String c (non_whitespace s')
  end.

Fixpoint all_space (s : string) : bool :=
  match s with
  | EmptyString => true
  | String c s' => is_space c && all_space s'
  end.

End PyStr.

(** ** The subset of Python's [re] used by the table patterns

    A backtracking matcher in continuation-passing style: the continuation
    receives the rest of the subject after the part matched so far, and the
    first success (in Python's priority order) wins. *)

Module Re.

Inductive regex : Type :=
| RChar (cls : ascii -> bool)      (* one character of a class *)
| REmpty                           (* the empty pattern *)
| RSeq (r1 r2 : regex)             (* r1 r2 *)
| RAlt (r1 r2 : regex)             (* r1|r2 *)
| RStar (r : regex)                (* r*   greedy *)
| RLazyStar (r : regex)            (* r*?  lazy *)
| RLook (r : regex)                (* (?=r) *)
| REnd.                            (* \Z *)

(** An iteration of a star must consume at least one character, so a star
  on a subject of length [n] iterates at most [n] times. *)
Fixpoint rmatch (r : regex) (s : string) (k : string -> option string)
  {struct r} : option string :=
  match r with
  | RChar cls =>
      match s with
      | String c s' => if cls c then k s' else None
      | EmptyString => None
      end
  | REmpty => k s
  | RSeq r1 r2 => rmatch r1 s (fun s' => rmatch r2 s' k)
  | RAlt r1 r2 =>
      match rmatch r1 s k with
      | Some rest => Some rest
      | None => rmatch r2 s k
      end
  | RStar r1 =>
      (fix loop (n : nat) (s : string) {struct n} : option string :=
         match n with
         | O => k s
         | S n' =>
             match rmatch r1 s (fun s' =>
                     if String.length s' <? String.length s then loop n' s'
                     else None) with
             | Some rest => Some rest
             | None => k s
             end
         end) (String.length s) s
  | RLazyStar r1 =>
      (fix loop (n : nat) (s : string) {struct n} : option string :=
         match n with
         | O => k s
         | S n' =>
             match k s with
             | Some rest => Some rest
             | None =>
                 rmatch r1 s (fun s' =>
                   if String.length s' <? String.length s then loop n' s'
                   else None)
             end
         end) (String.length s) s
  | RLook r1 =>
      match rmatch r1 s Some with
      | Some _ => k s
      | None => None
      end
  | REnd =>
      match s with
      | EmptyString => k s
      | String _ _ => None
      end
  end.

Definition RPlus (r : regex) : regex := RSeq r (RStar r).
Definition ROpt (r : regex) : regex := RAlt r REmpty.
Definition lit (c : ascii) : regex := RChar (Ascii.eqb c).

Fixpoint lits (s : string) : regex :=
  match s with
  | EmptyString => REmpty
  | String c s' => RSeq (lit c) (lits s')
  end.

Fixpoint seqs (rs : list regex) : regex :=
  match rs with
  | [] => REmpty
  | [r] => r
  | r :: rest => RSeq r (seqs rest)
  end.

(** [re.finditer]: leftmost matches, scanned left to right without overlap;
  each match is the pair [(m.start(), m.end())].  After an empty match the
  scan moves one character on. *)
Fixpoint finditer_from (r : regex) (fuel pos : nat) (s : string)
  : list (nat * nat) :=
  match fuel with
  | O => []
  | S fuel' =>
      let skip :=
        match s with
        | String _ s' => finditer_from r fuel' (S pos) s'
        | EmptyString => []
        end in
      match rmatch r s Some with
      | Some rest =>
          let e := pos + (String.length s - String.length rest) in
          (pos, e) :: (if e =? pos then skip else finditer_from r fuel' e rest)
      | None => skip
      end
  end.

Definition finditer (r : regex) (s : string) : list (nat * nat) :=
  finditer_from r (S (String.length s)) 0 s.

End Re.

(** ** Chunk metadata and documents *)

(** A metadata value: Chroma stores strings, integers and booleans. *)
Inductive MVal : Type :=
| MStr (s : string)
| MInt (z : Z)
| MBool (b : bool).

#[global] Instance MVal_eq_dec : EqDecision MVal.
Proof. solve_decision. Defined.

(** [str(v)], as an f-string renders a metadata value *)
Definition str_of_mval (v : MVal) : string :=
  match v with
  | MStr s => s
  | MInt z => PyStr.str_of_Z z
  | MBool true => "True"
  | MBool false => "False"
  end.

(** [langchain.schema.Document] *)
Record Document : Type := mkDocument {
  page_content : string;
  metadata : gmap string MVal
}.

#[global] Instance Document_eq_dec : EqDecision Document.
Proof. solve_decision. Defined.

(** [doc.metadata.get('content_type') == 'table'] *)
Definition is_table_doc (doc : Document) : bool :=
  bool_decide (metadata doc !! "content_type" = Some (MStr "table")).

(** ** document_processor.py *)

Module DocumentProcessor.

Import Re.

(** [pathlib.Path]: [str(file_path)] and [file_path.name] *)
Record Path : Type := mkPath { path_str : string; path_name : string }.

(** An entry of the list built by [_extract_tables] *)
Record Table : Type := mkTable {
  tbl_text : string;
  start_pos : nat;
  end_pos : nat;
  tbl_type : string
}.

Definition not_newline (c : ascii) : bool := negb (Ascii.eqb c (ascii_of_nat 10)).
Definition any_char (c : ascii) : bool := true.
Definition newline : regex := lit (ascii_of_nat 10).

(** [(\|[^\n]*\|[^\n]*\n)+]  -- Markdown tables *)
Definition markdown_table_pattern : regex :=
  RPlus (seqs [lit "|"; RStar (RChar not_newline);
               lit "|"; RStar (RChar not_newline); newline]).

(** [(\s+\w+\s+\w+\s+\w+\s*\n)+]  -- space-separated tables *)
Definition space_table_pattern : regex :=
  RPlus (seqs [RPlus (RChar PyStr.is_space); RPlus (RChar PyStr.is_word);
               RPlus (RChar PyStr.is_space); RPlus (RChar PyStr.is_word);
               RPlus (RChar PyStr.is_space); RPlus (RChar PyStr.is_word);
               RStar (RChar PyStr.is_space); newline]).

(** [(Table\s+\d+\.?\d*[^\n]*\n.*?)(?=\n\n|\n[A-Z]|\Z)]  -- table
  references; under [re.DOTALL] the dot matches every character. *)
Definition table_reference_pattern : regex :=
  seqs [lits "Table"; RPlus (RChar PyStr.is_space); RPlus (RChar PyStr.is_digit);
        ROpt (lit "."); RStar (RChar PyStr.is_digit);
        RStar (RChar not_newline); newline; RLazyStar (RChar any_char);
        RLook (RAlt (RSeq newline newline)
                (RAlt (RSeq newline (RChar PyStr.is_upper_ascii)) REnd))].

Definition table_patterns : list regex :=
  [markdown_table_pattern; space_table_pattern; table_reference_pattern].

(** [_extract_tables]: for each pattern in turn, one entry per match. *)
Definition _extract_tables (content : string) : list Table :=
  flat_map
    (fun pattern =>
       map (fun m : nat * nat =>
              {| tbl_text := PyStr.slice content (fst m) (snd m);
                 start_pos := fst m;
                 end_pos := snd m;
                 tbl_type := "structured_table" |})
           (finditer pattern content))
    table_patterns.

(** [tables.sort(key=lambda x: x['start_pos'])]: a stable sort.  An entry is
    inserted before the entries that come later in the list and do not start
    before it. *)
Fixpoint insert_table (t : Table) (sorted : list Table) : list Table :=
  match sorted with
  | [] => [t]
  | u :: rest =>
      if start_pos t <=? start_pos u then t :: sorted
      else u :: insert_table t rest
  end.

Definition sort_tables (tables : list Table) : list Table :=
  fold_right insert_table [] tables.

Section Chunker.

(** [self.text_splitter.split_text], LangChain's recursive splitter
    configured with CHUNK_SIZE and CHUNK_OVERLAP. *)
Variable split_text : string -> list string.

Variable file_path : Path.
Variable upload_timestamp : string.

(** The metadata literal of a text chunk inside [_chunk_with_tables]. *)
Definition text_chunk (doc : Document) (chunk_id : nat) (chunk : string)
  : Document :=
  {| page_content := chunk;
     metadata :=
       <["upload_date" := MStr upload_timestamp]>
       (<["content_type" := MStr "text"]>
       (<["file_name" := MStr (path_name file_path)]>
       (<["file_path" := MStr (path_str file_path)]>
       (<["chunk_id" := MInt (Z.of_nat chunk_id)]> (metadata doc))))) |}.

(** The metadata literal of a table chunk. *)
Definition table_chunk (doc : Document) (chunk_id : nat) (table : Table)
  : Document :=
  {| page_content := tbl_text table;
     metadata :=
       <["upload_date" := MStr upload_timestamp]>
       (<["table_id" := MStr ("table_" +:+ PyStr.str_of_nat chunk_id)]>
       (<["content_type" := MStr "table"]>
       (<["file_name" := MStr (path_name file_path)]>
       (<["file_path" := MStr (path_str file_path)]>
       (<["chunk_id" := MInt (Z.of_nat chunk_id)]> (metadata doc)))))) |}.

(** [for i, chunk in enumerate(pieces): chunks.append(...)] with
    ['chunk_id': len(chunks)] *)
Definition append_text_chunks (doc : Document) (chunks : list Document)
  (pieces : list string) : list Document :=
  fold_left
    (fun chunks chunk => chunks ++ [text_chunk doc (length chunks) chunk])
    pieces chunks.

(** A stretch of text outside the tables: stripped, and split when
    something is left. *)
Definition append_text (doc : Document) (chunks : list Document)
  (text : string) : list Document :=
  let stripped := PyStr.strip text in
  if PyStr.truthy stripped
  then append_text_chunks doc chunks (split_text stripped)
  else chunks.

(** The body of [for table in tables]; the state is
    [(chunks, current_pos)]. *)
Definition table_step (doc : Document) (st : list Document * nat)
  (table : Table) : list Document * nat :=
  let '(chunks, current_pos) := st in
  let chunks :=
    if current_pos <? start_pos table
    then append_text doc chunks
           (PyStr.slice (page_content doc) current_pos (start_pos table))
    else chunks in
  (chunks ++ [table_chunk doc (length chunks) table], end_pos table).

Definition _chunk_with_tables (doc : Document) (tables : list Table)
  : list Document :=
  let content := page_content doc in
  let '(chunks, current_pos) :=
    fold_left (table_step doc) (sort_tables tables) ([], 0) in
  if current_pos <? String.length content
  then append_text doc chunks (PyStr.slice_from content current_pos)
  else chunks.

(** The chunk of a document without tables. *)
Definition plain_chunk (doc : Document) (total : nat) (i : nat)
  (chunk : string) : Document :=
  {| page_content := chunk;
     metadata :=
       <["total_chunks" := MInt (Z.of_nat total)]>
       (<["upload_date" := MStr upload_timestamp]>
       (<["content_type" := MStr "text"]>
       (<["file_name" := MStr (path_name file_path)]>
       (<["file_path" := MStr (path_str file_path)]>
       (<["chunk_id" := MInt (Z.of_nat i)]> (metadata doc)))))) |}.

Fixpoint enumerate_from {A : Type} (i : nat) (l : list A) : list (nat * A) :=
  match l with
  | [] => []
  | x :: rest => (i, x) :: enumerate_from (S i) rest
  end.

(** The body of [for doc in documents] *)
Definition process_document (doc : Document) : list Document :=
  let table_data := _extract_tables (page_content doc) in
  match table_data with
  | _ :: _ => _chunk_with_tables doc table_data
  | [] =>
      let chunks := split_text (page_content doc) in
      map (fun ic => plain_chunk doc (length chunks) (fst ic) (snd ic))
          (enumerate_from 0 chunks)
  end.

Definition _process_documents (documents : list Document) : list Document :=
  flat_map process_document documents.

End Chunker.

End DocumentProcessor.

(** ** Python floats *)

Module PyFloat.

(** The format of a Python [float]: binary64. *)
Definition prec : Z := 53.
Definition emax : Z := 1024.

Definition float : Type := spec_float.

(** [float(n)] of an integer *)
Definition of_Z (n : Z) : float := binary_normalize prec emax n 0 false.

(** [x + y] and [x / y], rounded to the nearest double, ties to even *)
Definition add (x y : float) : float := SFadd prec emax x y.
Definition div (x y : float) : float := SFdiv prec emax x y.

(** [x > y] and [x <= y]: false when either side is not a number *)
Definition gt (x y : float) : bool := SFltb y x.
Definition le (x y : float) : bool := SFleb x y.

(** The double a decimal literal denotes: [decimal 8 1] is [0.8].  The
    literal [digits / 10^places] is read as the nearest double, which is the
    rounded quotient of the two integers when both are doubles themselves. *)
Definition decimal (digits : Z) (places : nat) : float :=
  div (of_Z digits) (of_Z (10 ^ Z.of_nat places)).

(** [sum(xs)]: the items are added from left to right, starting from the
    integer 0. *)
Definition sum (xs : list float) : float := fold_left add xs (of_Z 0).

End PyFloat.

(** ** The external world: capabilities, exceptions and the call trace *)

(** A JSON-like Python value: what [json.loads] returns and what the
    structured responses are made of. *)
#[warnings="-register-all"]
Inductive PyVal : Type :=
| VNone
| VBool (b : bool)
| VInt (z : Z)
| VStr (s : string)
| VList (items : list PyVal)
| VDict (items : list (string * PyVal)).

(** An operation either returns or raises [Exception(e)]. *)
Inductive Result (A : Type) : Type :=
| Ok (a : A)
| Raise (e : string).
Arguments Ok {A} a.
Arguments Raise {A} e.

(** The calls that leave the process, in the order they are made. *)
Inductive Event : Type :=
| EvSimilaritySearch (query : string) (k : nat) (filter : option (gmap string MVal))
| EvSimilaritySearchWithScore (query : string) (k : nat)
    (filter : option (gmap string MVal))
| EvGet
| EvDelete (documents : list Document)
| EvCount
| EvInvoke (prompt : string)
| EvPrint (text : string).

(** What the pipeline is given: the Chroma collection behind
    [self.vector_store] and [self.client], the chat model [self.llm], and the
    pure library functions [json.loads] and [str] of a format dictionary. *)
Record Capabilities (World : Type) : Type := {
  chroma_similarity_search :
    string -> nat -> option (gmap string MVal) -> World ->
    Result (list Document) * World;
  chroma_similarity_search_with_score :
    string -> nat -> option (gmap string MVal) -> World ->
    Result (list (Document * PyFloat.float)) * World;
  chroma_get : World -> Result (list (string * gmap string MVal)) * World;
  chroma_delete : list Document -> World -> Result unit * World;
  chroma_count : World -> Result nat * World;
  llm_invoke : string -> World -> Result string * World;
  json_loads : string -> Result PyVal;
  py_str : PyVal -> string
}.
Arguments chroma_similarity_search {World} _.
Arguments chroma_similarity_search_with_score {World} _.
Arguments chroma_get {World} _.
Arguments chroma_delete {World} _.
Arguments chroma_count {World} _.
Arguments llm_invoke {World} _.
Arguments json_loads {World} _.
Arguments py_str {World} _.

Record St (World : Type) : Type := mkSt {
  world : World;
  trace : list Event
}.
Arguments mkSt {World}.
Arguments world {World}.
Arguments trace {World}.

(** The state-and-exception monad of the pipeline. *)
Definition M (World A : Type) : Type := St World -> Result A * St World.

Definition ret {World A : Type} (a : A) : M World A := fun st => (Ok a, st).

Definition raise {World A : Type} (e : string) : M World A :=
  fun st => (Raise e, st).

Definition bind {World A B : Type} (m : M World A) (f : A -> M World B)
  : M World B :=
  fun st =>
    match m st with
    | (Ok a, st') => f a st'
    | (Raise e, st') => (Raise e, st')
    end.

(** [try: m  except Exception as e: h e] *)
Definition try_catch {World A : Type} (m : M World A) (h : string -> M World A)
  : M World A :=
  fun st =>
    match m st with
    | (Ok a, st') => (Ok a, st')
    | (Raise e, st') => h e st'
    end.

(** An external call: it is recorded, and it moves the world. *)
Definition call {World A : Type} (ev : Event)
  (op : World -> Result A * World) : M World A :=
  fun st =>
    let '(r, w) := op (world st) in
    (r, {| world := w; trace := trace st ++ [ev] |}).

Definition lift {World A : Type} (r : Result A) : M World A :=
  fun st => (r, st).

Definition print {World : Type} (text : string) : M World unit :=
  fun st => (Ok tt, {| world := world st; trace := trace st ++ [EvPrint text] |}).

Declare Scope py_scope.
Delimit Scope py_scope with py.
Notation "x <- m ;; k" := (bind m (fun x => k))
  (at level 100, m at next level, right associativity) : py_scope.
Notation "m ;;; k" := (bind m (fun _ => k))
  (at level 100, right associativity) : py_scope.
Local Open Scope py_scope.

(** ** config.py *)

Module Settings.
Definition CHROMA_PERSIST_DIRECTORY : string := "./chroma_db".
Definition CHROMA_COLLECTION_NAME : string := "banking_documents".
Definition CHUNK_SIZE : nat := 1000.
Definition CHUNK_OVERLAP : nat := 200.
End Settings.

(** ** vector_store.py *)

Module VectorStore.

Record CollectionStats : Type := {
  collection_name : string;
  document_count : nat;
  persist_directory : string
}.

Section WithCapabilities.
Context {World : Type} (caps : Capabilities World).

Definition similarity_search (query : string) (k : nat)
  (filter_dict : option (gmap string MVal)) : M World (list Document) :=
  try_catch
    (call (EvSimilaritySearch query k filter_dict)
          (chroma_similarity_search caps query k filter_dict))
    (fun e => raise ("Failed to perform similarity search: " +:+ e)).

Definition similarity_search_with_score (query : string) (k : nat)
  (filter_dict : option (gmap string MVal))
  : M World (list (Document * PyFloat.float)) :=
  try_catch
    (call (EvSimilaritySearchWithScore query k filter_dict)
          (chroma_similarity_search_with_score caps query k filter_dict))
    (fun e => raise ("Failed to perform similarity search with score: " +:+ e)).

Definition get_collection_stats : M World CollectionStats :=
  try_catch
    (count <- call EvCount (chroma_count caps) ;;
     ret {| collection_name := Settings.CHROMA_COLLECTION_NAME;
            document_count := count;
            persist_directory := Settings.CHROMA_PERSIST_DIRECTORY |})
    (fun e => raise ("Failed to get collection stats: " +:+ e)).

(** [for i, (content, metadata) in enumerate(zip(...)):
   if i >= limit: break
   documents.append(Document(...))] *)
Fixpoint collect_documents (limit i : nat)
  (entries : list (string * gmap string MVal)) : list Document :=
  match entries with
  | [] => []
  | (content, meta) :: rest =>
    if limit <=? i then []
    else {| page_content := content; metadata := meta |}
         :: collect_documents limit (S i) rest
  end.

Definition get_all_documents (limit : nat) : M World (list Document) :=
  try_catch
    (results <- call EvGet (chroma_get caps) ;;
     ret (collect_documents limit 0 results))
    (fun e => raise ("Failed to get all documents: " +:+ e)).

(** [doc.metadata.get('file_path') == source_path] *)
Definition has_source (source_path : string) (doc : Document) : bool :=
  bool_decide (metadata doc !! "file_path" = Some (MStr source_path)).

(** The function has no [return] statement: its value is [None]. *)
Definition delete_documents_by_source (source_path : string)
  : M World PyVal :=
  try_catch
    (all_docs <- get_all_documents 1000 ;;
     let docs_to_delete := List.filter (has_source source_path) all_docs in
     match docs_to_delete with
     | _ :: _ =>
         call (EvDelete docs_to_delete) (chroma_delete caps docs_to_delete) ;;;
         print ("Deleted " +:+ PyStr.str_of_nat (length docs_to_delete)
                +:+ " chunks from " +:+ source_path) ;;;
         ret VNone
     | [] =>
         print ("No documents found for source: " +:+ source_path) ;;;
         ret VNone
     end)
    (fun e => raise ("Failed to delete documents by source: " +:+ e)).

End WithCapabilities.

End VectorStore.

(** ** llm_manager.py *)

Module LLMManager.

Import PyStr.

Definition banking_prompt (context question : string) : string :=
  "You are a banking assistant that can ONLY provide information from the uploaded banking documents. You MUST NOT use any external knowledge or general banking information.

CRITICAL RULES:
1. ONLY use information that is explicitly stated in the provided context/documents
2. If the information is not in the provided documents, say " +:+ dquote +:+
  "I cannot answer this question based on the uploaded documents" +:+ dquote +:+ "
3. DO NOT use any general banking knowledge, industry standards, or external information
4. Quote specific text from the documents when possible
5. Always cite the source document when providing information
6. If asked about rates, terms, or conditions not in the documents, clearly state they are not available
" +:+ nl +:+ "Context from uploaded banking documents:" +:+ nl +:+ context +:+ "

Question: " +:+ question +:+ "

Remember: You can ONLY use information from the above context. If the information is not there, you cannot provide it.".

Definition table_prompt (table_data question : string) : string :=
  "You are analyzing banking table data from uploaded documents. You can ONLY use information from the provided table.

CRITICAL RULES:
1. ONLY use data that appears in the table below
2. If the question cannot be answered from this table, say " +:+ dquote +:+
  "This information is not available in the uploaded table" +:+ dquote +:+ "
3. DO NOT use any external banking knowledge or industry standards
4. Quote exact values from the table when possible

Table Data from uploaded documents:
" +:+ table_data +:+ "

Question: " +:+ question +:+ "

Remember: You can ONLY use information from the above table. If the information is not there, you cannot provide it.".

Definition compliance_prompt (context question : string) : string :=
  "You are a banking compliance expert analyzing uploaded compliance documents. You can ONLY use information from the provided documents.

CRITICAL RULES:
1. ONLY use compliance information that is explicitly stated in the provided context
2. If compliance requirements are not in the documents, say " +:+ dquote +:+
  "This compliance information is not available in the uploaded documents" +:+ dquote +:+ "
3. DO NOT use any external compliance knowledge or regulatory standards
4. Quote specific text from the documents when possible
5. Always cite the source document

Compliance Context from uploaded documents:
" +:+ context +:+ "

Question: " +:+ question +:+ "

Remember: You can ONLY use information from the above context. If the information is not there, you cannot provide it.".

Definition structured_prompt (context question response_format : string)
  : string :=
  let indent := "            " in
  "Based on the following banking context, answer the question in the specified format."
  +:+ nl +:+ nl +:+ indent +:+ "Context: " +:+ context +:+ nl
  +:+ indent +:+ nl +:+ indent +:+ "Question: " +:+ question +:+ nl
  +:+ indent +:+ nl +:+ indent +:+ "Required Format: " +:+ response_format +:+ nl
  +:+ indent +:+ nl +:+ indent
  +:+ "Please provide your response in the exact format specified above.".

Definition validation_prompt (response context : string) : string :=
  "Please validate the following banking response to ensure it ONLY uses information from the provided context.

Response to validate: " +:+ response +:+ "

Source context: " +:+ context +:+ "

CRITICAL VALIDATION RULES:
1. Check if the response ONLY uses information that appears in the source context
2. Identify any information that seems to come from external knowledge or general banking standards
3. Verify that all specific numbers, rates, and terms mentioned are in the source context
4. Check if the response properly cites sources when providing information

Please provide validation in the following format:
- Uses Only Provided Context: (yes/no)
- External Knowledge Detected: (yes/no - list any external information found)
- Accuracy: (high/medium/low)
- Source Attribution: (proper/improper/missing)
- Issues: (list any issues found)
- Recommendations: (suggestions for improvement)".

(** The dictionaries [validate_banking_response] returns, and the [{}] that
  [result.get("validation", {})] falls back to. *)
Inductive Validation : Type :=
| ValidationReport (validation_response original_response : string)
| ValidationError (error : string)
| ValidationEmpty.

(** The [if]/[elif]/[else] of [generate_response] that formats the prompt. *)
Definition select_prompt (prompt_type context question : string) : string :=
  if String.eqb prompt_type "table" then table_prompt context question
  else if String.eqb prompt_type "compliance"
       then compliance_prompt context question
       else banking_prompt context question.

Section WithCapabilities.
Context {World : Type} (caps : Capabilities World).

(** [self.llm.invoke([HumanMessage(content=prompt)]).content] *)
Definition invoke (prompt : string) : M World string :=
  call (EvInvoke prompt) (llm_invoke caps prompt).

Definition generate_response (question context prompt_type : string)
  : M World string :=
  try_catch
    (let prompt := select_prompt prompt_type context question in
     invoke prompt)
    (fun e => ret ("Error generating response: " +:+ e)).

Definition generate_structured_response (question context : string)
  (response_format : PyVal) : M World PyVal :=
  try_catch
    (content <- invoke (structured_prompt context question
                          (py_str caps response_format)) ;;
     (* try: return json.loads(response.content)
        except: return {"response": ..., "format_error": True} *)
     match json_loads caps content with
     | Ok parsed => ret parsed
     | Raise _ =>
         ret (VDict [("response", VStr content); ("format_error", VBool true)])
     end)
    (fun e => ret (VDict [("error", VStr e)])).

Definition validate_banking_response (response context : string)
  : M World Validation :=
  try_catch
    (validation_response <- invoke (validation_prompt response context) ;;
     ret (ValidationReport validation_response response))
    (fun e => ret (ValidationError ("Validation failed: " +:+ e))).

End WithCapabilities.

End LLMManager.

(** ** retrieval_chain.py *)

Module RetrievalChain.

Import PyStr LLMManager.

(** The dictionary returned by [query]; [context] and [validation] are
    absent from the refusal and from the error dictionaries. *)
Record QueryResult : Type := mkQueryResult {
  answer : string;
  sources : list (gmap string MVal);
  context : option string;
  validation : option Validation;
  confidence : string
}.

(** The dictionary returned by [structured_query]: either
    [{"error": ..., "data": None}] or [{"data": ..., "sources": ...,
    "context": ...}]. *)
Record StructuredResult : Type := mkStructuredResult {
  sq_error : option string;
  sq_data : PyVal;
  sq_sources : option (list (gmap string MVal));
  sq_context : option string
}.

Definition refusal_message : string :=
  "I cannot answer this question based on the uploaded documents. The information you're asking about is not available in the documents that have been loaded into the system.".

Definition context_separator : string := nl +:+ nl +:+ "---" +:+ nl +:+ nl.

(** The source attribution of one document.  ['/' in v] and [v.split] need a
    string: on another metadata value Python raises [TypeError]. *)
Definition source_name (meta : gmap string MVal) : Result string :=
  match meta !! "file_path" with
  | Some (MStr file_path) =>
      Ok (if contains "/" file_path then last_component "/" file_path
          else file_path)
  | Some (MInt _) => Raise "argument of type 'int' is not iterable"
  | Some (MBool _) => Raise "argument of type 'bool' is not iterable"
  | None =>
      match meta !! "source" with
      | Some source => Ok (str_of_mval source)
      | None => Ok "Unknown source"
      end
  end.

Definition page_suffix (meta : gmap string MVal) : string :=
  match meta !! "page" with
  | Some page => " (Page: " +:+ str_of_mval page +:+ ")"
  | None => ""
  end.

(** The body of the loop of [_combine_context] for the [i]-th document. *)
Definition format_document (i : nat) (doc : Document) : Result string :=
  let content := strip (page_content doc) in
  match source_name (metadata doc) with
  | Ok filename =>
      let source_info :=
        "DOCUMENT " +:+ str_of_nat i +:+ ": " +:+ filename
        +:+ page_suffix (metadata doc) in
      Ok (source_info +:+ nl +:+ content)
  | Raise e => Raise e
  end.

(** [for i, doc in enumerate(documents, 1): context_parts.append(...)] *)
Fixpoint context_parts_from (i : nat) (documents : list Document)
  : Result (list string) :=
  match documents with
  | [] => Ok []
  | doc :: rest =>
      match format_document i doc with
      | Ok part =>
          match context_parts_from (S i) rest with
          | Ok parts => Ok (part :: parts)
          | Raise e => Raise e
          end
      | Raise e => Raise e
      end
  end.

Definition _combine_context (documents : list Document) : Result string :=
  match context_parts_from 1 documents with
  | Ok context_parts => Ok (join context_separator context_parts)
  | Raise e => Raise e
  end.

Definition compliance_keywords : list string :=
  ["regulation"; "compliance"; "regulatory"; "requirement";
   "deadline"; "audit"; "policy"; "procedure"].

(** [any(keyword in content_lower for keyword in compliance_keywords)] *)
Definition has_compliance_keyword (doc : Document) : bool :=
  let content_lower := lower (page_content doc) in
  existsb (fun keyword => contains keyword content_lower) compliance_keywords.

Fixpoint _determine_prompt_type (documents : list Document) : string :=
  match documents with
  | [] => "banking"
  | doc :: rest =>
      if is_table_doc doc then "table"
      else if has_compliance_keyword doc then "compliance"
      else _determine_prompt_type rest
  end.

(** [x > y] on scores *)
Definition score_gt (x y : PyFloat.float) : bool := PyFloat.gt x y.

(** [sum(score for _, score in docs_with_scores) / len(docs_with_scores)] *)
Definition avg_score (docs_with_scores : list (Document * PyFloat.float))
  : PyFloat.float :=
  PyFloat.div (PyFloat.sum (map snd docs_with_scores))
    (PyFloat.of_Z (Z.of_nat (length docs_with_scores))).

Section WithCapabilities.
Context {World : Type} (caps : Capabilities World).

Definition _calculate_confidence (documents : list Document) (answer : string)
  : M World string :=
  try_catch
    (docs_with_scores <-
       VectorStore.similarity_search_with_score caps answer (length documents) None ;;
     match docs_with_scores with
     | _ :: _ =>
         let avg := avg_score docs_with_scores in
         if score_gt avg (PyFloat.decimal 8 1) then ret "high"
         else if score_gt avg (PyFloat.decimal 6 1) then ret "medium"
         else ret "low"
     | [] => ret "medium"
     end)
    (fun _ => ret "medium").

Definition query (question : string) (filter_dict : option (gmap string MVal))
  (k : nat) : M World QueryResult :=
  try_catch
    (relevant_docs <- VectorStore.similarity_search caps question k filter_dict ;;
     match relevant_docs with
     | [] =>
         ret {| answer := refusal_message; sources := [];
                context := None; validation := None; confidence := "low" |}
     | _ :: _ =>
         context <- lift (_combine_context relevant_docs) ;;
         let prompt_type := _determine_prompt_type relevant_docs in
         answer <- generate_response caps question context prompt_type ;;
         validation <- validate_banking_response caps answer context ;;
         confidence <- _calculate_confidence relevant_docs answer ;;
         ret {| answer := answer;
                sources := map metadata relevant_docs;
                context := Some context;
                validation := Some validation;
                confidence := confidence |}
     end)
    (fun e =>
       ret {| answer := "Error processing query: " +:+ e; sources := [];
              context := None; validation := None; confidence := "error" |}).

Definition structured_query (question : string) (response_format : PyVal)
  (filter_dict : option (gmap string MVal)) : M World StructuredResult :=
  try_catch
    (relevant_docs <- VectorStore.similarity_search caps question 4 filter_dict ;;
     match relevant_docs with
     | [] =>
         ret {| sq_error := Some "No relevant documents found"; sq_data := VNone;
                sq_sources := None; sq_context := None |}
     | _ :: _ =>
         context <- lift (_combine_context relevant_docs) ;;
         structured_response <-
           generate_structured_response caps question context response_format ;;
         ret {| sq_error := None; sq_data := structured_response;
                sq_sources := Some (map metadata relevant_docs);
                sq_context := Some context |}
     end)
    (fun e =>
       ret {| sq_error := Some ("Structured query failed: " +:+ e);
              sq_data := VNone; sq_sources := None; sq_context := None |}).

End WithCapabilities.

End RetrievalChain.

(** ** banking_assistant.py *)

Module BankingAssistant.

Import PyStr LLMManager RetrievalChain.

(** The dictionary returned by [ask_question]; the key [validation] is absent
    from the two dictionaries with [success = False]. *)
Record AskResult : Type := mkAskResult {
  ask_success : bool;
  ask_answer : string;
  ask_sources : list (gmap string MVal);
  ask_confidence : string;
  ask_validation : option Validation
}.

Section WithCapabilities.
Context {World : Type} (caps : Capabilities World).

Definition ask_question (question : string) : M World AskResult :=
  try_catch
    (if negb (truthy (strip question))
     then ret {| ask_success := false;
                 ask_answer := "Please provide a valid question.";
                 ask_sources := [];
                 ask_confidence := "low";
                 ask_validation := None |}
     else
       result <- query caps question None 4 ;;
       ret {| ask_success := true;
              ask_answer := answer result;
              ask_sources := sources result;
              ask_confidence := confidence result;
              (* result.get("validation", {}) *)
              ask_validation :=
                Some (match validation result with
                      | Some v => v
                      | None => ValidationEmpty
                      end) |})
    (fun e =>
       ret {| ask_success := false;
              ask_answer := "Error processing question: " +:+ e;
              ask_sources := [];
              ask_confidence := "error";
              ask_validation := None |}).

End WithCapabilities.

End BankingAssistant.

(** ** Vocabulary of the specification *)


(** The source label of a chunk, by cases on its metadata: the last
    component of [file_path]; without [file_path], the [source] entry;
    without both, "Unknown source". *)
Definition is_source_label (meta : gmap string MVal) (label : string) : Prop :=
  (forall p, meta !! "file_path" = Some (MStr p) ->
     label = PyStr.last_component "/" p)
  /\ (meta !! "file_path" = None ->
      forall v, meta !! "source" = Some v -> label = str_of_mval v)
  /\ (meta !! "file_path" = None -> meta !! "source" = None ->
      label = "Unknown source").

(** The page note of a chunk: " (Page: n)" when the metadata has a page. *)
Definition is_page_note (meta : gmap string MVal) (note : string) : Prop :=
  (forall v, meta !! "page" = Some v ->
     note = " (Page: " +:+ str_of_mval v +:+ ")")
  /\ (meta !! "page" = None -> note = "").

(** The table chunks of a chunk list, as texts. *)
Definition table_texts (chunks : list Document) : list string :=
  map page_content (List.filter is_table_doc chunks).

(** The entry of a stored chunk as [get()] lists it. *)
Definition entry_of (doc : Document) : string * gmap string MVal :=
  (page_content doc, metadata doc).

(** A collection after the removal of the documents handed to [delete]. *)
Definition remove_documents (documents stored : list Document) : list Document :=
  List.filter (fun doc => negb (bool_decide (doc ∈ documents))) stored.

(** ** A reference instance of the capabilities

    The collection is the list of its entries in insertion order.  Similarity
    search ranks by insertion order and scores every hit by the query alone;
    [delete] of [caps] removes the entries it is handed, [delete] of
    [chroma] rejects the call as Chroma does.  The chat model and
    [json.loads] are given as functions. *)

Module ListStore.

Definition caps (score : string -> PyFloat.float)
  (llm : string -> Result string) (loads : string -> Result PyVal)
  : Capabilities (list Document) :=
  {| chroma_similarity_search := fun _ k _ w => (Ok (firstn k w), w);
     chroma_similarity_search_with_score :=
       fun query k _ w =>
         (Ok (map (fun doc => (doc, score query)) (firstn k w)), w);
     chroma_get := fun w => (Ok (map entry_of w), w);
     chroma_delete := fun documents w => (Ok tt, remove_documents documents w);
     chroma_count := fun w => (Ok (length w), w);
     llm_invoke := fun prompt w => (llm prompt, w);
     json_loads := loads;
     py_str := fun _ => "{}" |}.

(** A collection whose every call fails. *)
Definition unreachable (e : string) : Capabilities unit :=
  {| chroma_similarity_search := fun _ _ _ w => (Raise e, w);
     chroma_similarity_search_with_score := fun _ _ _ w => (Raise e, w);
     chroma_get := fun w => (Raise e, w);
     chroma_delete := fun _ w => (Raise e, w);
     chroma_count := fun w => (Raise e, w);
     llm_invoke := fun _ w => (Raise e, w);
     json_loads := fun _ => Raise e;
     py_str := fun _ => "{}" |}.

Definition start {World : Type} (w : World) : St World :=
  {| world := w; trace := [] |}.

(** Every hit scores 0.9, except for the query "weak", whose hits score 0.5. *)
Definition score_of (query : string) : PyFloat.float :=
  if String.eqb query "weak" then PyFloat.decimal 5 1 else PyFloat.decimal 9 1.

Definition llm_down (_ : string) : Result string := Raise "503 model unavailable".
Definition llm_echo (_ : string) : Result string := Ok "Personal Loan APR is 8.5%".
Definition loads_fail (_ : string) : Result PyVal := Raise "Expecting value".

Definition rates_chunk : Document :=
  {| page_content := "Personal Loan APR: 8.5% - 12.5%";
     metadata := {[ "file_path" := MStr "docs/rates.txt" ]} |}.

Definition audit_chunk : Document :=
  {| page_content := "The annual audit follows the policy below.";
     metadata := <["content_type" := MStr "text"]>
                 {[ "file_path" := MStr "docs/audit.txt" ]} |}.

Definition fees_table_chunk : Document :=
  {| page_content := "| Fee | Amount |";
     metadata := <["content_type" := MStr "table"]>
                 {[ "file_path" := MStr "docs/fees.txt" ]} |}.

Definition named_only_chunk : Document :=
  {| page_content := "APR 8.5%";
     metadata := {[ "file_name" := MStr "rates.txt" ]} |}.

(** The collection as langchain's [Chroma] answers the call
    [self.vector_store.delete(documents=docs_to_delete)]:
    [Chroma.delete(ids=None, **kwargs)] hands its keywords to chromadb's
    [Collection.delete(ids, where, where_document)], which has no parameter
    [documents] and raises [TypeError]; nothing is removed. *)
Definition delete_type_error : string :=
  "Collection.delete() got an unexpected keyword argument 'documents'".

Definition chroma (score : string -> PyFloat.float)
  (llm : string -> Result string) (loads : string -> Result PyVal)
  : Capabilities (list Document) :=
  let base := caps score llm loads in
  {| chroma_similarity_search := chroma_similarity_search base;
     chroma_similarity_search_with_score :=
       chroma_similarity_search_with_score base;
     chroma_get := chroma_get base;
     chroma_delete := fun _ w => (Raise delete_type_error, w);
     chroma_count := chroma_count base;
     llm_invoke := llm_invoke base;
     json_loads := loads;
     py_str := py_str base |}.

(** A chat model that answers with the JSON text of an empty array, and a
    [json.loads] that reads that text. *)
Definition llm_array (_ : string) : Result string := Ok "[]".
Definition loads_array (text : string) : Result PyVal :=
  if String.eqb text "[]" then Ok (VList []) else Raise "Expecting value".

End ListStore.

(** * Further operations of the core *)

(** ** More collaborators: index writes and the conversation memory *)

(** [langchain]'s [HumanMessage] and [AIMessage], as the conversation memory
    lists them. *)
Inductive Message : Type :=
| HumanMessage (content : string)
| AIMessage (content : string).

(** What the remaining operations are given besides [Capabilities]:
    [self.vector_store.add_documents] and [persist] of Chroma, and
    [save_context], [chat_memory.messages] and [clear] of the
    [ConversationBufferMemory]. *)
Record Collaborators (World : Type) : Type := {
  chroma_add_documents : list Document -> World -> Result unit * World;
  chroma_persist : World -> Result unit * World;
  memory_save_context : string -> string -> World -> Result unit * World;
  memory_messages : World -> Result (list Message) * World;
  memory_clear : World -> Result unit * World
}.
Arguments chroma_add_documents {World} _.
Arguments chroma_persist {World} _.
Arguments memory_save_context {World} _.
Arguments memory_messages {World} _.
Arguments memory_clear {World} _.

(** A call to one of these collaborators: it moves the world and leaves the
    retrieval trace alone. *)
Definition call_quiet {World A : Type} (op : World -> Result A * World)
  : M World A :=
  fun st =>
    let '(r, w) := op (world st) in
    (r, {| world := w; trace := trace st |}).

(** [==] of Python on metadata values: [True == 1] and [False == 0]. *)
Definition py_eqb (a b : MVal) : bool :=
  match a, b with
  | MStr s, MStr s' => String.eqb s s'
  | MInt z, MInt z' => Z.eqb z z'
  | MBool x, MBool y => Bool.eqb x y
  | MBool x, MInt z | MInt z, MBool x => Z.eqb z (if x then 1 else 0)
  | _, _ => false
  end.

(** ** vector_store.py, continued *)

Module VectorStoreWrites.

Section WithCollaborators.
Context {World : Type} (ext : Collaborators World).

Definition add_documents (documents : list Document) : M World unit :=
  match documents with
  | [] => ret tt
  | _ :: _ =>
      try_catch
        (call_quiet (chroma_add_documents ext documents) ;;;
         call_quiet (chroma_persist ext) ;;;
         print ("Successfully added " +:+ PyStr.str_of_nat (length documents)
                +:+ " documents to vector store"))
        (fun e => raise ("Failed to add documents to vector store: " +:+ e))
  end.

End WithCollaborators.

End VectorStoreWrites.

(** ** llm_manager.py, continued *)

Module LLMExtraction.

Import PyStr.

Definition extraction_prompt (text : string) : string :=
  let indent := "            " in
  "Extract key banking information from the following text:"
  +:+ nl +:+ nl +:+ indent +:+ "Text: " +:+ text +:+ nl
  +:+ indent +:+ nl +:+ indent
  +:+ "Please extract and organize the following information:" +:+ nl
  +:+ indent +:+ "- Loan terms and conditions" +:+ nl
  +:+ indent +:+ "- Interest rates and fees" +:+ nl
  +:+ indent +:+ "- Regulatory requirements" +:+ nl
  +:+ indent +:+ "- Compliance deadlines" +:+ nl
  +:+ indent +:+ "- Contact information" +:+ nl
  +:+ indent +:+ "- Important dates" +:+ nl
  +:+ indent +:+ nl +:+ indent +:+ "Format as a structured response.".

Section WithCapabilities.
Context {World : Type} (caps : Capabilities World).

Definition extract_key_information (text : string) : M World PyVal :=
  try_catch
    (content <- LLMManager.invoke caps (extraction_prompt text) ;;
     match json_loads caps content with
     | Ok parsed => ret parsed
     | Raise _ =>
         ret (VDict [("extracted_info", VStr content); ("format_error", VBool true)])
     end)
    (fun e => ret (VDict [("error", VStr ("Extraction failed: " +:+ e))])).

End WithCapabilities.

End LLMExtraction.

(** ** retrieval_chain.py, continued *)

Module Conversation.

Import RetrievalChain.

(** [turn.get(key, "")] *)
Definition turn_field (turn : gmap string string) (key : string) : string :=
  match turn !! key with
  | Some text => text
  | None => ""
  end.

Section WithCapabilities.
Context {World : Type} (caps : Capabilities World) (ext : Collaborators World).

(** [self.memory.save_context({"input": q}, {"output": a})] *)
Definition save_context (question answer : string) : M World unit :=
  call_quiet (memory_save_context ext question answer).

(** [for turn in conversation_history: self.memory.save_context(...)] *)
Fixpoint save_history (conversation_history : list (gmap string string))
  : M World unit :=
  match conversation_history with
  | [] => ret tt
  | turn :: rest =>
      save_context (turn_field turn "question") (turn_field turn "answer") ;;;
      save_history rest
  end.

Definition conversational_query (question : string)
  (conversation_history : option (list (gmap string string)))
  : M World QueryResult :=
  try_catch
    ((match conversation_history with
      | Some (turn :: rest) => save_history (turn :: rest)
      | Some [] | None => ret tt
      end) ;;;
     result <- query caps question None 4 ;;
     save_context question (answer result) ;;;
     ret result)
    (fun e =>
       ret {| answer := "Error in conversational query: " +:+ e; sources := [];
              context := None; validation := None; confidence := "error" |}).

Definition get_conversation_history : M World (list Message) :=
  try_catch (call_quiet (memory_messages ext)) (fun _ => ret []).

Definition clear_memory : M World unit :=
  try_catch
    (call_quiet (memory_clear ext))
    (fun e => print ("Error clearing memory: " +:+ e)).

End WithCapabilities.

End Conversation.

(** ** banking_assistant.py, continued *)

Module AssistantOperations.

Import PyStr LLMManager RetrievalChain BankingAssistant.

(** The dictionaries of [get_loan_information] and
    [get_compliance_requirements]: [{"success": True, "data": ...,
    "sources": ...}] or [{"success": False, "error": ...}]. *)
Record StructuredInfo : Type := mkStructuredInfo {
  info_success : bool;
  info_data : option PyVal;
  info_sources : option (list (gmap string MVal));
  info_error : option string
}.



(** An entry of [documents_by_source].  [content_types] is a Python [set]:
    it is kept here in the order of first insertion, and [list(...)] of it
    may enumerate it in any order. *)
Record DocumentInfo : Type := mkDocumentInfo {
  info_file_path : MVal;
  chunk_count : nat;
  content_types : list MVal;
  info_upload_date : MVal
}.

Record DocumentsList : Type := mkDocumentsList {
  list_success : bool;
  list_documents : list DocumentInfo;
  total_documents : nat;
  total_chunks : nat;
  list_error : option string
}.

(** The dictionaries with a [message] or an [error]. *)
Record Outcome : Type := mkOutcome {
  outcome_success : bool;
  outcome_message : option string;
  outcome_error : option string
}.

Definition loan_response_format : PyVal :=
  VDict
    [("loan_products",
      VList [VDict [("name", VStr "string");
                    ("interest_rate", VStr "string");
                    ("term_length", VStr "string");
                    ("minimum_amount", VStr "string");
                    ("requirements", VList [VStr "string"])]]);
     ("fees",
      VList [VDict [("fee_type", VStr "string");
                    ("amount", VStr "string");
                    ("description", VStr "string")]])].

Definition compliance_response_format : PyVal :=
  VDict
    [("regulations",
      VList [VDict [("name", VStr "string");
                    ("requirements", VList [VStr "string"]);
                    ("deadlines", VList [VStr "string"]);
                    ("penalties", VList [VStr "string"])]]);
     ("procedures",
      VList [VDict [("procedure_name", VStr "string");
                    ("steps", VList [VStr "string"]);
                    ("responsible_party", VStr "string")]])].

(** [f"..." if loan_type else "..."]: [None] and the empty string are false. *)
Definition loan_question (loan_type : option string) : string :=
  match loan_type with
  | Some (String c rest) =>
      "What are the terms and conditions for " +:+ String c rest +:+ " loans?"
  | Some EmptyString | None => "What loan products are available?"
  end.

Definition compliance_question (regulation_type : option string) : string :=
  match regulation_type with
  | Some (String c rest) =>
      "What are the compliance requirements for " +:+ String c rest +:+ "?"
  | Some EmptyString | None => "What are the main compliance requirements?"
  end.

(** [result["sources"]]: a missing key raises [KeyError('sources')], whose
    [str] is the quoted key. *)
Definition sources_of (result : StructuredResult)
  : Result (list (gmap string MVal)) :=
  match sq_sources result with
  | Some sources => Ok sources
  | None => Raise "'sources'"
  end.


(** [set.add] *)
Definition set_add (v : MVal) (s : list MVal) : list MVal :=
  if existsb (py_eqb v) s then s else s ++ [v].

(** [d.get(key, 'Unknown')] *)
Definition get_or_unknown (meta : gmap string MVal) (key : string) : MVal :=
  match meta !! key with
  | Some v => v
  | None => MStr "Unknown"
  end.

(** The body of [for doc in all_docs] in [get_documents_list]. *)
Definition group_step (documents_by_source : list DocumentInfo) (doc : Document)
  : list DocumentInfo :=
  let source := get_or_unknown (metadata doc) "file_path" in
  let with_entry :=
    if existsb (fun info => py_eqb (info_file_path info) source) documents_by_source
    then documents_by_source
    else documents_by_source
         ++ [ {| info_file_path := source;
                 chunk_count := 0;
                 content_types := [];
                 info_upload_date := get_or_unknown (metadata doc) "upload_date" |} ] in
  map (fun info =>
         if py_eqb (info_file_path info) source
         then {| info_file_path := info_file_path info;
                 chunk_count := chunk_count info + 1;
                 content_types :=
                   match metadata doc !! "content_type" with
                   | Some content_type => set_add content_type (content_types info)
                   | None => content_types info
                   end;
                 info_upload_date := info_upload_date info |}
         else info)
      with_entry.

Definition group_by_source (all_docs : list Document) : list DocumentInfo :=
  fold_left group_step all_docs [].

Section WithCapabilities.
Context {World : Type} (caps : Capabilities World) (ext : Collaborators World).

Definition conversational_ask (question : string)
  (conversation_history : option (list (gmap string string)))
  : M World AskResult :=
  try_catch
    (result <- Conversation.conversational_query caps ext question
                 conversation_history ;;
     ret {| ask_success := true;
            ask_answer := answer result;
            ask_sources := sources result;
            ask_confidence := confidence result;
            ask_validation :=
              Some (match validation result with
                    | Some v => v
                    | None => ValidationEmpty
                    end) |})
    (fun e =>
       ret {| ask_success := false;
              ask_answer := "Error in conversational query: " +:+ e;
              ask_sources := [];
              ask_confidence := "error";
              ask_validation := None |}).

(** The common body of [get_loan_information] and
    [get_compliance_requirements]. *)
Definition structured_info (question : string) (response_format : PyVal)
  (error_prefix : string) : M World StructuredInfo :=
  try_catch
    (result <- structured_query caps question response_format None ;;
     let data := sq_data result in
     sources <- lift (sources_of result) ;;
     ret {| info_success := true; info_data := Some data;
            info_sources := Some sources; info_error := None |})
    (fun e =>
       ret {| info_success := false; info_data := None; info_sources := None;
              info_error := Some (error_prefix +:+ e) |}).

Definition get_loan_information (loan_type : option string)
  : M World StructuredInfo :=
  structured_info (loan_question loan_type) loan_response_format
    "Error getting loan information: ".

Definition get_compliance_requirements (regulation_type : option string)
  : M World StructuredInfo :=
  structured_info (compliance_question regulation_type)
    compliance_response_format "Error getting compliance requirements: ".


Definition get_documents_list : M World DocumentsList :=
  try_catch
    (all_docs <- VectorStore.get_all_documents caps 1000 ;;
     let documents_by_source := group_by_source all_docs in
     ret {| list_success := true;
            list_documents := documents_by_source;
            total_documents := length documents_by_source;
            total_chunks := length all_docs;
            list_error := None |})
    (fun e =>
       ret {| list_success := false; list_documents := [];
              total_documents := 0; total_chunks := 0;
              list_error := Some ("Error getting documents list: " +:+ e) |}).

Definition delete_document (document_id : string) : M World Outcome :=
  try_catch
    (VectorStore.delete_documents_by_source caps document_id ;;;
     ret {| outcome_success := true;
            outcome_message :=
              Some ("Document " +:+ document_id +:+ " deleted successfully");
            outcome_error := None |})
    (fun e =>
       ret {| outcome_success := false; outcome_message := None;
              outcome_error := Some ("Error deleting document: " +:+ e) |}).

Definition clear_conversation_history : M World Outcome :=
  try_catch
    (Conversation.clear_memory ext ;;;
     ret {| outcome_success := true;
            outcome_message := Some "Conversation history cleared successfully";
            outcome_error := None |})
    (fun e =>
       ret {| outcome_success := false; outcome_message := None;
              outcome_error :=
                Some ("Error clearing conversation history: " +:+ e) |}).

End WithCapabilities.

End AssistantOperations.

(** ** document_processor.py and banking_assistant.py: loading documents *)

Module Loading.

Import PyStr DocumentProcessor.

(** The document loaders of [langchain_community]. *)
Inductive LoaderKind : Type :=
| PyPDFLoader
| Docx2txtLoader
| CSVLoader
| UnstructuredFileLoader.

(** What loading is given: [pathlib] ([str(Path(p))], [Path(p).name],
    [Path(p).suffix]), the file system ([exists], [is_file], [is_dir],
    [rglob('*')], listed when the walk starts), the loaders, the clock
    [datetime.now().isoformat()] and the text splitter. *)
Record FileSystem (World : Type) : Type := {
  path_normal : string -> string;
  path_file_name : string -> string;
  path_suffix : string -> string;
  fs_exists : string -> World -> bool;
  fs_is_file : string -> World -> bool;
  fs_is_dir : string -> World -> bool;
  fs_rglob : string -> World -> list string;
  loader_load : LoaderKind -> string -> World -> Result (list Document) * World;
  clock_now : World -> string * World;
  split_text : string -> list string
}.
Arguments path_normal {World} _.
Arguments path_file_name {World} _.
Arguments path_suffix {World} _.
Arguments fs_exists {World} _.
Arguments fs_is_file {World} _.
Arguments fs_is_dir {World} _.
Arguments fs_rglob {World} _.
Arguments loader_load {World} _.
Arguments clock_now {World} _.
Arguments split_text {World} _.

(** The dictionary returned by [load_documents] and
    [load_sample_documents]. *)
Record LoadResult : Type := mkLoadResult {
  load_success : bool;
  load_message : option string;
  load_document_count : option nat;
  load_documents_metadata : option (list (gmap string MVal));
  load_error : option string
}.

(** The [if]/[elif] chain on the lower-cased suffix: every suffix other than
    .pdf, .docx and .csv gets the unstructured loader. *)
Definition loader_for (file_extension : string) : LoaderKind :=
  if String.eqb file_extension ".pdf" then PyPDFLoader
  else if String.eqb file_extension ".docx" then Docx2txtLoader
  else if String.eqb file_extension ".csv" then CSVLoader
  else UnstructuredFileLoader.

Definition supported_extensions : list string :=
  [".pdf"; ".docx"; ".csv"; ".txt"; ".md"].

Definition is_supported (file_extension : string) : bool :=
  existsb (String.eqb file_extension) supported_extensions.

(** Reading the world without changing it. *)
Definition observe {World A : Type} (f : World -> A) : M World A :=
  fun st => (Ok (f (world st)), st).

Section WithFileSystem.
Context {World : Type} (fs : FileSystem World) (ext : Collaborators World).

Definition now : M World string :=
  fun st =>
    let '(text, w) := clock_now fs (world st) in
    (Ok text, {| world := w; trace := trace st |}).

(** [_process_documents(documents, file_path)], with its time stamp. *)
Definition process_loaded (documents : list Document) (file_path : string)
  : M World (list Document) :=
  upload_timestamp <- now ;;
  ret (_process_documents (split_text fs)
         {| path_str := file_path; path_name := path_file_name fs file_path |}
         upload_timestamp documents).

Definition load_document (file_path : string) : M World (list Document) :=
  let file_path := path_normal fs file_path in
  found <- observe (fs_exists fs file_path) ;;
  if negb found then raise ("Document not found: " +:+ file_path)
  else
    let file_extension := lower (path_suffix fs file_path) in
    try_catch
      (documents <- call_quiet (loader_load fs (loader_for file_extension) file_path) ;;
       process_loaded documents file_path)
      (fun e => raise ("Error loading document " +:+ file_path +:+ ": " +:+ e)).

(** [for file_path in directory.rglob('*')]: the state is [all_documents]. *)
Fixpoint load_files (files : list string) (all_documents : list Document)
  : M World (list Document) :=
  match files with
  | [] => ret all_documents
  | file_path :: rest =>
      regular <- observe (fs_is_file fs file_path) ;;
      if regular && is_supported (lower (path_suffix fs file_path))
      then
        extended <-
          try_catch
            (documents <- load_document file_path ;;
             ret (all_documents ++ documents))
            (fun e =>
               print ("Warning: Could not load " +:+ file_path +:+ ": " +:+ e) ;;;
               ret all_documents) ;;
        load_files rest extended
      else load_files rest all_documents
  end.

Definition load_documents_from_directory (directory_path : string)
  : M World (list Document) :=
  let directory := path_normal fs directory_path in
  found <- observe (fs_exists fs directory) ;;
  if negb found then raise ("Directory not found: " +:+ directory_path)
  else
    files <- observe (fs_rglob fs directory) ;;
    load_files files [].

Definition load_failure (message : string) : LoadResult :=
  {| load_success := false; load_message := Some message;
     load_document_count := Some 0; load_documents_metadata := None;
     load_error := None |}.

(** [BankingAssistant.load_documents] *)
Definition load_documents (document_path : string) : M World LoadResult :=
  try_catch
    (let document_path := path_normal fs document_path in
     regular <- observe (fs_is_file fs document_path) ;;
     documents <-
       (if regular then load_document document_path
        else
          directory <- observe (fs_is_dir fs document_path) ;;
          if directory then load_documents_from_directory document_path
          else raise ("Path not found: " +:+ document_path)) ;;
     match documents with
     | [] => ret (load_failure "No documents found or processed")
     | _ :: _ =>
         VectorStoreWrites.add_documents ext documents ;;;
         ret {| load_success := true;
                load_message :=
                  Some ("Successfully loaded " +:+ str_of_nat (length documents)
                        +:+ " document chunks");
                load_document_count := Some (length documents);
                load_documents_metadata := Some (map metadata documents);
                load_error := None |}
     end)
    (fun e => ret (load_failure ("Error loading documents: " +:+ e))).

(** [BankingAssistant.load_sample_documents]; [result['message']] and
    [result['document_count']] are keys of every dictionary that
    [load_documents] returns. *)
Definition load_sample_documents : M World LoadResult :=
  try_catch
    (let sample_dir := path_normal fs "sample_documents" in
     found <- observe (fs_exists fs sample_dir) ;;
     if negb found
     then ret (load_failure "Sample documents directory not found")
     else
       result <- load_documents sample_dir ;;
       match load_message result, load_document_count result with
       | Some message, Some document_count =>
           ret {| load_success := true;
                  load_message := Some ("Sample documents loaded: " +:+ message);
                  load_document_count := Some document_count;
                  load_documents_metadata := None;
                  load_error := None |}
       | None, _ => raise "'message'"
       | _, None => raise "'document_count'"
       end)
    (fun e =>
       ret {| load_success := false; load_message := None;
              load_document_count := None; load_documents_metadata := None;
              load_error := Some ("Error loading sample documents: " +:+ e) |}).

End WithFileSystem.

End Loading.

(** ** A reference instance with a conversation memory

    The world is a collection together with the messages of the memory. *)

Module ListMemory.

Definition on_store {A : Type}
  (op : list Document -> Result A * list Document)
  (w : list Document * list Message) : Result A * (list Document * list Message) :=
  let '(r, stored) := op (fst w) in (r, (stored, snd w)).

Definition caps (score : string -> PyFloat.float)
  (llm : string -> Result string) (loads : string -> Result PyVal)
  : Capabilities (list Document * list Message) :=
  let base := ListStore.caps score llm loads in
  {| chroma_similarity_search :=
       fun query k f => on_store (chroma_similarity_search base query k f);
     chroma_similarity_search_with_score :=
       fun query k f => on_store (chroma_similarity_search_with_score base query k f);
     chroma_get := on_store (chroma_get base);
     chroma_delete := fun documents => on_store (chroma_delete base documents);
     chroma_count := on_store (chroma_count base);
     llm_invoke := fun prompt => on_store (llm_invoke base prompt);
     json_loads := loads;
     py_str := py_str base |}.

Definition ext : Collaborators (list Document * list Message) :=
  {| chroma_add_documents := fun documents w => (Ok tt, (fst w ++ documents, snd w));
     chroma_persist := fun w => (Ok tt, w);
     memory_save_context :=
       fun question answer w =>
         (Ok tt, (fst w, snd w ++ [HumanMessage question; AIMessage answer]));
     memory_messages := fun w => (Ok (snd w), w);
     memory_clear := fun w => (Ok tt, (fst w, [])) |}.

(** Collaborators that fail at every call. *)
Definition ext_down (e : string) : Collaborators (list Document * list Message) :=
  {| chroma_add_documents := fun _ w => (Raise e, w);
     chroma_persist := fun w => (Raise e, w);
     memory_save_context := fun _ _ w => (Raise e, w);
     memory_messages := fun w => (Raise e, w);
     memory_clear := fun w => (Raise e, w) |}.

End ListMemory.

(** ** A reference file system: one directory of named files *)

Module ListFiles.

Import Loading.

(** The suffix of a file name: from its last dot on. *)
Fixpoint suffix_of (name : string) : string :=
  match name with
  | EmptyString => EmptyString
  | String c rest =>
      match suffix_of rest with
      | EmptyString => if Ascii.eqb c "."%char then name else EmptyString
      | later => later
      end
  end.

Definition read (files : list (string * Result (list Document))) (p : string)
  : option (Result (list Document)) :=
  option_map snd (List.find (fun file => String.eqb (fst file) p) files).

(** The files of [directory], each with what its loader gives; the clock
    stands still and the splitter keeps a text whole. *)
Definition fs (directory : string)
  (files : list (string * Result (list Document)))
  : FileSystem (list Document * list Message) :=
  {| path_normal := fun p => p;
     path_file_name := PyStr.last_component "/"%char;
     path_suffix := fun p => suffix_of (PyStr.last_component "/"%char p);
     fs_exists := fun p _ =>
       String.eqb p directory || match read files p with Some _ => true | None => false end;
     fs_is_file := fun p _ =>
       match read files p with Some _ => true | None => false end;
     fs_is_dir := fun p _ => String.eqb p directory;
     fs_rglob := fun p _ => if String.eqb p directory then map fst files else [];
     loader_load := fun _ p w =>
       (match read files p with
        | Some loaded => loaded
        | None => Raise "No such file"
        end, w);
     clock_now := fun w => ("2024-01-01T00:00:00", w);
     split_text := fun text => [text] |}.

End ListFiles.

(** ** Vocabulary of the further properties *)

(** What every chunk of a document carries, at position [i] of the chunk
    list. *)
Definition well_labelled (file_path : DocumentProcessor.Path)
  (upload_timestamp : string) (doc : Document) (i : nat) (chunk : Document)
  : Prop :=
  metadata chunk !! "chunk_id" = Some (MInt (Z.of_nat i))
  /\ metadata chunk !! "file_path"
     = Some (MStr (DocumentProcessor.path_str file_path))
  /\ metadata chunk !! "file_name"
     = Some (MStr (DocumentProcessor.path_name file_path))
  /\ metadata chunk !! "upload_date" = Some (MStr upload_timestamp)
  /\ (metadata chunk !! "content_type" = Some (MStr "text")
      \/ (metadata chunk !! "content_type" = Some (MStr "table")
          /\ metadata chunk !! "table_id"
             = Some (MStr ("table_" +:+ PyStr.str_of_nat i))))
  /\ (forall key,
        ~ In key ["chunk_id"; "file_path"; "file_name"; "upload_date";
                  "content_type"; "table_id"; "total_chunks"] ->
        metadata chunk !! key = metadata doc !! key).

Definition all_well_labelled (file_path : DocumentProcessor.Path)
  (upload_timestamp : string) (doc : Document) (chunks : list Document) : Prop :=
  forall i chunk,
    nth_error chunks i = Some chunk ->
    well_labelled file_path upload_timestamp doc i chunk.

(** A pattern that cannot match the empty string: every match consumes a
    character. *)
Fixpoint consumes (r : Re.regex) : bool :=
  match r with
  | Re.RChar _ => true
  | Re.RSeq r1 r2 => consumes r1 || consumes r2
  | Re.RAlt r1 r2 => consumes r1 && consumes r2
  | _ => false
  end.

(** Spans listed from left to right, none starting before [from] or before
    the end of the one before it. *)
Fixpoint ordered_spans (from : nat) (spans : list (nat * nat)) : Prop :=
  match spans with
  | [] => True
  | span :: rest =>
      from <= fst span /\ fst span <= snd span /\ ordered_spans (snd span) rest
  end.

(** Table regions listed from left to right without overlap, from the offset
    [from] on. *)
Fixpoint ordered_tables (from : nat) (tables : list DocumentProcessor.Table)
  : Prop :=
  match tables with
  | [] => True
  | table :: rest =>
      from <= DocumentProcessor.start_pos table
      /\ DocumentProcessor.start_pos table <= DocumentProcessor.end_pos table
      /\ ordered_tables (DocumentProcessor.end_pos table) rest
  end.

(** The entries that [_extract_tables] builds from the matches of one
    pattern, in the order [re.finditer] yields them. *)
Definition regions_of (pattern : Re.regex) (content : string)
  : list DocumentProcessor.Table :=
  map (fun m : nat * nat =>
         {| DocumentProcessor.tbl_text := PyStr.slice content (fst m) (snd m);
            DocumentProcessor.start_pos := fst m;
            DocumentProcessor.end_pos := snd m;
            DocumentProcessor.tbl_type := "structured_table" |})
      (Re.finditer pattern content).

(** The [Document] built from an entry that [get()] lists. *)
Definition document_of_entry (entry : string * gmap string MVal) : Document :=
  {| page_content := fst entry; metadata := snd entry |}.

(** The value a metadata value counts as when used as a dictionary key or a
    set element: [True] is the key [1] and [False] the key [0]. *)
Definition py_key (v : MVal) : MVal :=
  match v with
  | MBool b => MInt (if b then 1 else 0)
  | _ => v
  end.

(** The error dictionary of [conversational_query]. *)
Definition conversation_error (e : string) : RetrievalChain.QueryResult :=
  {| RetrievalChain.answer := "Error in conversational query: " +:+ e;
     RetrievalChain.sources := [];
     RetrievalChain.context := None;
     RetrievalChain.validation := None;
     RetrievalChain.confidence := "error" |}.

(** The dictionary [ask_question] and [conversational_ask] build from the
    result of a query. *)
Definition ask_result_of (result : RetrievalChain.QueryResult)
  : BankingAssistant.AskResult :=
  {| BankingAssistant.ask_success := true;
     BankingAssistant.ask_answer := RetrievalChain.answer result;
     BankingAssistant.ask_sources := RetrievalChain.sources result;
     BankingAssistant.ask_confidence := RetrievalChain.confidence result;
     BankingAssistant.ask_validation :=
       Some match RetrievalChain.validation result with
            | Some v => v
            | None => LLMManager.ValidationEmpty
            end |}.

(** The update of one step of [get_documents_list]: an entry of the chunk's
    source gets one more chunk. *)
Definition bump (doc : Document) (info : AssistantOperations.DocumentInfo)
  : AssistantOperations.DocumentInfo :=
  if py_eqb (AssistantOperations.info_file_path info)
       (AssistantOperations.get_or_unknown (metadata doc) "file_path")
  then {| AssistantOperations.info_file_path :=
            AssistantOperations.info_file_path info;
          AssistantOperations.chunk_count :=
            AssistantOperations.chunk_count info + 1;
          AssistantOperations.content_types :=
            match metadata doc !! "content_type" with
            | Some content_type =>
                AssistantOperations.set_add content_type
                  (AssistantOperations.content_types info)
            | None => AssistantOperations.content_types info
            end;
          AssistantOperations.info_upload_date :=
            AssistantOperations.info_upload_date info |}
  else info.

(** * Properties *)

(** ** Strings *)

Lemma lstrip_all_space (s : string) :
  PyStr.all_space s = true -> PyStr.lstrip s = EmptyString.
Proof.
  induction s as [|c s IH]; simpl; [reflexivity|].
  intros H. apply andb_prop in H as [Hc Hs]. rewrite Hc. auto.
Qed.

Lemma strip_all_space (s : string) :
  PyStr.all_space s = true -> PyStr.strip s = EmptyString.
Proof.
  intros H. unfold PyStr.strip. rewrite (lstrip_all_space s H). reflexivity.
Qed.

(** ** Grounded Answerer: retrieval without evidence *)

Section AnswererProperties.
Context {World : Type} (caps : Capabilities World).

Import RetrievalChain LLMManager BankingAssistant.

Lemma similarity_search_ok question k filter_dict (st : St World) docs w :
  chroma_similarity_search caps question k filter_dict (world st) = (Ok docs, w) ->
  VectorStore.similarity_search caps question k filter_dict st =
  (Ok docs, {| world := w;
               trace := trace st ++ [EvSimilaritySearch question k filter_dict] |}).
Proof.
  intros H. unfold VectorStore.similarity_search, try_catch, call.
  rewrite H. reflexivity.
Qed.

Lemma similarity_search_raise question k filter_dict (st : St World) e w :
  chroma_similarity_search caps question k filter_dict (world st) = (Raise e, w) ->
  VectorStore.similarity_search caps question k filter_dict st =
  (Raise ("Failed to perform similarity search: " +:+ e),
   {| world := w;
      trace := trace st ++ [EvSimilaritySearch question k filter_dict] |}).
Proof.
  intros H. unfold VectorStore.similarity_search, try_catch, call, raise.
  rewrite H. reflexivity.
Qed.

(** C1.  When the similarity retrieval returns no chunk, [query] returns the
    fixed refusal message, no sources and confidence "low"; the only external
    call it has made is the retrieval itself, so the language model was not
    invoked. *)
Theorem query_no_evidence question filter_dict k (st : St World) w :
  chroma_similarity_search caps question k filter_dict (world st) = (Ok [], w) ->
  query caps question filter_dict k st =
  (Ok {| answer := refusal_message; sources := []; context := None;
         validation := None; confidence := "low" |},
   {| world := w;
      trace := trace st ++ [EvSimilaritySearch question k filter_dict] |}).
Proof.
  intros H. unfold query, try_catch, bind.
  rewrite (similarity_search_ok _ _ _ _ _ _ H). reflexivity.
Qed.

(** C10.  A question that is empty or made of white space only is answered
    without any retrieval: [success] is false, the answer is the fixed
    request for a valid question, there are no sources, the confidence is
    "low", and neither the world nor the call trace has changed. *)
Theorem ask_question_blank question (st : St World) :
  PyStr.all_space question = true ->
  ask_question caps question st =
  (Ok {| ask_success := false;
         ask_answer := "Please provide a valid question.";
         ask_sources := [];
         ask_confidence := "low";
         ask_validation := None |},
   st).
Proof.
  intros H. unfold ask_question, try_catch.
  rewrite (strip_all_space question H). reflexivity.
Qed.

End AnswererProperties.

Lemma query_no_evidence_witness :
  RetrievalChain.query (ListStore.caps ListStore.score_of ListStore.llm_echo ListStore.loads_fail)
    "What is the capital of France?" None 4 (ListStore.start []) =
  (Ok {| RetrievalChain.answer := RetrievalChain.refusal_message;
         RetrievalChain.sources := [];
         RetrievalChain.context := None;
         RetrievalChain.validation := None;
         RetrievalChain.confidence := "low" |},
   {| world := [];
      trace := [] ++ [EvSimilaritySearch "What is the capital of France?" 4 None] |}).
Proof.
  apply (query_no_evidence
           (ListStore.caps ListStore.score_of ListStore.llm_echo ListStore.loads_fail)
           "What is the capital of France?" None 4 (ListStore.start []) []).
  reflexivity.
Defined.

Lemma ask_question_blank_witness :
  BankingAssistant.ask_question
    (ListStore.caps ListStore.score_of ListStore.llm_echo ListStore.loads_fail)
    "   " (ListStore.start [ListStore.rates_chunk]) =
  (Ok {| BankingAssistant.ask_success := false;
         BankingAssistant.ask_answer := "Please provide a valid question.";
         BankingAssistant.ask_sources := [];
         BankingAssistant.ask_confidence := "low";
         BankingAssistant.ask_validation := None |},
   ListStore.start [ListStore.rates_chunk]).
Proof.
  apply (ask_question_blank
           (ListStore.caps ListStore.score_of ListStore.llm_echo ListStore.loads_fail)
           "   " (ListStore.start [ListStore.rates_chunk])).
  reflexivity.
Defined.

(** ** Grounded Answerer: confidence *)

(** The order of the doubles, as far as the thresholds need it. *)
Lemma float_gt_le_trans (t a b : PyFloat.float) :
  PyFloat.gt a t = true -> PyFloat.le a b = true -> PyFloat.gt b t = true.
Proof.
  unfold PyFloat.gt, PyFloat.le, SFltb, SFleb.
  destruct t as [[]|[]| |[] mt et], a as [[]|[]| |[] ma ea],
           b as [[]|[]| |[] mb eb];
    cbn [SFcompare]; try discriminate; try reflexivity;
    repeat match goal with
           | |- context [Z.compare ?x ?y] => destruct (Z.compare_spec x y)
           end;
    try discriminate; try reflexivity; try lia; subst;
    change (Pos.compare_cont Eq) with Pos.compare;
    repeat match goal with
           | |- context [Pos.compare ?x ?y] => destruct (Pos.compare_spec x y)
           end;
    cbn [CompOpp]; try discriminate; try reflexivity; try lia.
Qed.

Lemma float_le_not_gt (a t : PyFloat.float) :
  PyFloat.le a t = true -> PyFloat.gt a t = false.
Proof.
  unfold PyFloat.gt, PyFloat.le, SFltb, SFleb.
  destruct t as [[]|[]| |[] mt et], a as [[]|[]| |[] ma ea];
    cbn [SFcompare]; try discriminate; try reflexivity;
    repeat match goal with
           | |- context [Z.compare ?x ?y] => destruct (Z.compare_spec x y)
           end;
    try discriminate; try reflexivity; try lia; subst;
    change (Pos.compare_cont Eq) with Pos.compare;
    repeat match goal with
           | |- context [Pos.compare ?x ?y] => destruct (Pos.compare_spec x y)
           end;
    cbn [CompOpp]; try discriminate; try reflexivity; try lia.
Qed.

Lemma float_gt_le (a b : PyFloat.float) :
  PyFloat.gt b a = true -> PyFloat.le a b = true.
Proof.
  unfold PyFloat.gt, PyFloat.le, SFltb, SFleb.
  destruct (SFcompare a b) as [[]|]; intros H; try discriminate; reflexivity.
Qed.

Lemma float_nan_not_gt (t : PyFloat.float) : PyFloat.gt S754_nan t = false.
Proof. destruct t as [[]|[]| |[] mt et]; reflexivity. Qed.

(** The thresholds are the doubles nearest to 0.8 and 0.6. *)
Example thresholds_as_doubles :
  PyFloat.decimal 8 1 = S754_finite false 7205759403792794 (-53)
  /\ PyFloat.decimal 6 1 = S754_finite false 5404319552844595 (-53).
Proof. split; vm_compute; reflexivity. Qed.

Section ConfidenceProperties.
Context {World : Type} (caps : Capabilities World).

Import RetrievalChain.

Lemma search_with_score_ok query k filter_dict (st : St World) hits w :
  chroma_similarity_search_with_score caps query k filter_dict (world st)
  = (Ok hits, w) ->
  VectorStore.similarity_search_with_score caps query k filter_dict st =
  (Ok hits,
   {| world := w;
      trace := trace st ++ [EvSimilaritySearchWithScore query k filter_dict] |}).
Proof.
  intros H. unfold VectorStore.similarity_search_with_score, try_catch, call.
  rewrite H. reflexivity.
Qed.

Lemma search_with_score_raise query k filter_dict (st : St World) e w :
  chroma_similarity_search_with_score caps query k filter_dict (world st)
  = (Raise e, w) ->
  VectorStore.similarity_search_with_score caps query k filter_dict st =
  (Raise ("Failed to perform similarity search with score: " +:+ e),
   {| world := w;
      trace := trace st ++ [EvSimilaritySearchWithScore query k filter_dict] |}).
Proof.
  intros H. unfold VectorStore.similarity_search_with_score, try_catch, call, raise.
  rewrite H. reflexivity.
Qed.

(** The label the thresholds give to an average score. *)
Lemma calculate_confidence_scored documents answer (st : St World) d ds w :
  chroma_similarity_search_with_score caps answer (length documents) None (world st)
  = (Ok (d :: ds), w) ->
  let avg := avg_score (d :: ds) in
  exists label,
    _calculate_confidence caps documents answer st =
    (Ok label,
     {| world := w;
        trace := trace st
                 ++ [EvSimilaritySearchWithScore answer (length documents) None] |})
    /\ (PyFloat.gt avg (PyFloat.decimal 8 1) = true -> label = "high")
    /\ (PyFloat.gt avg (PyFloat.decimal 6 1) = true ->
        PyFloat.le avg (PyFloat.decimal 8 1) = true -> label = "medium")
    /\ (PyFloat.le avg (PyFloat.decimal 6 1) = true -> label = "low")
    /\ (avg = S754_nan -> label = "low")
    /\ (label = "high" -> PyFloat.gt avg (PyFloat.decimal 8 1) = true)
    /\ (label = "medium" -> PyFloat.gt avg (PyFloat.decimal 6 1) = true)
    /\ (label = "low" -> PyFloat.gt avg (PyFloat.decimal 6 1) = false)
    /\ (label = "high" \/ label = "medium" \/ label = "low").
Proof.
  intros H avg.
  unfold _calculate_confidence, try_catch, bind.
  rewrite (search_with_score_ok _ _ _ _ _ _ H).
  fold avg. unfold score_gt.
  assert (H68 : PyFloat.gt (PyFloat.decimal 8 1) (PyFloat.decimal 6 1) = true)
    by (vm_compute; reflexivity).
  destruct (PyFloat.gt avg (PyFloat.decimal 8 1)) eqn:E8.
  - assert (E6 : PyFloat.gt avg (PyFloat.decimal 6 1) = true)
      by exact (float_gt_le_trans _ _ _ H68 (float_gt_le _ _ E8)).
    exists "high". repeat split; auto; try discriminate.
    + intros _ Hle. apply float_le_not_gt in Hle. congruence.
    + intros Hle. apply float_le_not_gt in Hle. congruence.
    + intros Hnan. rewrite Hnan, float_nan_not_gt in E8. discriminate.
  - destruct (PyFloat.gt avg (PyFloat.decimal 6 1)) eqn:E6.
    + exists "medium". repeat split; auto; try discriminate.
      * intros Hle. apply float_le_not_gt in Hle. congruence.
      * intros Hnan. rewrite Hnan, float_nan_not_gt in E6. discriminate.
    + exists "low". repeat split; auto; discriminate.
Qed.

Lemma calculate_confidence_unscored documents answer (st : St World) w :
  chroma_similarity_search_with_score caps answer (length documents) None (world st)
  = (Ok [], w) ->
  _calculate_confidence caps documents answer st =
  (Ok "medium",
   {| world := w;
      trace := trace st
               ++ [EvSimilaritySearchWithScore answer (length documents) None] |}).
Proof.
  intros H.
  unfold _calculate_confidence, try_catch, bind.
  rewrite (search_with_score_ok _ _ _ _ _ _ H). reflexivity.
Qed.

Lemma calculate_confidence_failure documents answer (st : St World) e w :
  chroma_similarity_search_with_score caps answer (length documents) None (world st)
  = (Raise e, w) ->
  _calculate_confidence caps documents answer st =
  (Ok "medium",
   {| world := w;
      trace := trace st
               ++ [EvSimilaritySearchWithScore answer (length documents) None] |}).
Proof.
  intros H.
  unfold _calculate_confidence, try_catch, bind.
  rewrite (search_with_score_raise _ _ _ _ _ _ H). reflexivity.
Qed.

(** The confidence step always returns one of the three labels. *)
Lemma calculate_confidence_total documents answer (st : St World) :
  exists label st',
    _calculate_confidence caps documents answer st = (Ok label, st')
    /\ (label = "high" \/ label = "medium" \/ label = "low").
Proof.
  destruct (chroma_similarity_search_with_score caps answer (length documents)
              None (world st)) as [[[|d ds]|e] w] eqn:H.
  - eexists _, _. split; [apply (calculate_confidence_unscored _ _ _ _ H)|auto].
  - destruct (calculate_confidence_scored _ _ _ _ _ _ H) as (l & Hl & Hrest).
    exists l. eexists. split; [exact Hl|]. tauto.
  - eexists _, _. split; [apply (calculate_confidence_failure _ _ _ _ _ H)|auto].
Qed.


End ConfidenceProperties.


(** The average is rounded as the code rounds it: one score equal to the
    threshold 0.8 is not above it (medium), while three of them add up to a
    double whose third is the next double above 0.8 (high), and ten scores of
    0.1 add up to less than 1. *)
Example average_is_rounded :
  let caps score :=
    ListStore.caps (fun _ => score) ListStore.llm_echo ListStore.loads_fail in
  let at_threshold := PyFloat.decimal 8 1 in
  let one := [ListStore.rates_chunk] in
  let three := [ListStore.rates_chunk; ListStore.rates_chunk; ListStore.rates_chunk] in
  fst (RetrievalChain._calculate_confidence (caps at_threshold) one "answer"
         (ListStore.start one)) = Ok "medium"
  /\ RetrievalChain.avg_score (map (fun doc => (doc, at_threshold)) three)
     = S754_finite false 7205759403792795 (-53)
  /\ fst (RetrievalChain._calculate_confidence (caps at_threshold) three "answer"
            (ListStore.start three)) = Ok "high"
  /\ PyFloat.sum (repeat (PyFloat.decimal 1 1) 10)
     = S754_finite false 9007199254740991 (-53).
Proof. repeat split; vm_compute; reflexivity. Qed.

(** ** Grounded Answerer: policy classification *)

Section ClassifierProperties.

Import RetrievalChain.

Lemma determine_prompt_type_skip (pre rest : list Document) :
  (forall d, In d pre -> is_table_doc d = false /\ has_compliance_keyword d = false) ->
  _determine_prompt_type (pre ++ rest) = _determine_prompt_type rest.
Proof.
  induction pre as [|d pre IH]; intros H; simpl; [reflexivity|].
  destruct (H d (or_introl eq_refl)) as [Ht Hk]. rewrite Ht, Hk.
  apply IH. intros d' Hd'. apply H. right. exact Hd'.
Qed.

(** C5, as the code has it.  The classifier walks the chunks in retrieval
    order and stops at the first chunk that is a table or contains a
    compliance keyword: a table chunk gives "table" (also when it contains a
    keyword itself), a keyword chunk that is not a table gives "compliance",
    and when no chunk is either the general policy "banking" is chosen. *)
Theorem determine_prompt_type_first_match (pre : list Document) (doc : Document)
  (post : list Document) :
  (forall d, In d pre -> is_table_doc d = false /\ has_compliance_keyword d = false) ->
  (is_table_doc doc = true -> _determine_prompt_type (pre ++ doc :: post) = "table")
  /\ (is_table_doc doc = false -> has_compliance_keyword doc = true ->
      _determine_prompt_type (pre ++ doc :: post) = "compliance")
  /\ _determine_prompt_type pre = "banking".
Proof.
  intros H. repeat split.
  - intros Ht. rewrite (determine_prompt_type_skip _ _ H). simpl. rewrite Ht.
    reflexivity.
  - intros Ht Hk. rewrite (determine_prompt_type_skip _ _ H). simpl.
    rewrite Ht, Hk. reflexivity.
  - rewrite <- (app_nil_r pre) at 1.
    rewrite (determine_prompt_type_skip _ _ H). reflexivity.
Qed.

End ClassifierProperties.

(** C5, as stated, fails: a keyword chunk retrieved before a table chunk
    decides for "compliance" although the set contains a table. *)
Lemma determine_prompt_type_table_not_first :
  existsb is_table_doc [ListStore.audit_chunk; ListStore.fees_table_chunk] = true
  /\ RetrievalChain._determine_prompt_type
       [ListStore.audit_chunk; ListStore.fees_table_chunk] = "compliance"
  /\ RetrievalChain._determine_prompt_type
       [ListStore.audit_chunk; ListStore.fees_table_chunk] <> "table".
Proof.
  repeat split; try (vm_compute; reflexivity).
  vm_compute. discriminate.
Qed.

Lemma determine_prompt_type_first_match_witness :
  (forall d, In d [ListStore.rates_chunk] ->
     is_table_doc d = false /\ RetrievalChain.has_compliance_keyword d = false)
  /\ RetrievalChain._determine_prompt_type
       ([ListStore.rates_chunk] ++ ListStore.fees_table_chunk :: [ListStore.audit_chunk])
     = "table"
  /\ RetrievalChain._determine_prompt_type
       ([ListStore.rates_chunk] ++ ListStore.audit_chunk :: [ListStore.fees_table_chunk])
     = "compliance".
Proof.
  assert (H : forall d, In d [ListStore.rates_chunk] ->
            is_table_doc d = false /\ RetrievalChain.has_compliance_keyword d = false).
  { intros d [<- | []]. split; vm_compute; reflexivity. }
  split; [exact H|]. split.
  - apply (proj1 (determine_prompt_type_first_match
                    [ListStore.rates_chunk] ListStore.fees_table_chunk
                    [ListStore.audit_chunk] H)).
    vm_compute. reflexivity.
  - apply (proj1 (proj2 (determine_prompt_type_first_match
                    [ListStore.rates_chunk] ListStore.audit_chunk
                    [ListStore.fees_table_chunk] H)));
      vm_compute; reflexivity.
Defined.

(** ** Grounded Answerer: failures of the capabilities *)

Section FailureProperties.
Context {World : Type} (caps : Capabilities World).

Import RetrievalChain LLMManager.

Lemma generate_response_ok question context prompt_type (st : St World) text w :
  llm_invoke caps (select_prompt prompt_type context question) (world st)
  = (Ok text, w) ->
  generate_response caps question context prompt_type st =
  (Ok text,
   {| world := w;
      trace := trace st
               ++ [EvInvoke (select_prompt prompt_type context question)] |}).
Proof.
  intros H. unfold generate_response, try_catch, invoke, call.
  rewrite H. reflexivity.
Qed.

Lemma generate_response_failure question context prompt_type (st : St World) e w :
  llm_invoke caps (select_prompt prompt_type context question) (world st)
  = (Raise e, w) ->
  generate_response caps question context prompt_type st =
  (Ok ("Error generating response: " +:+ e),
   {| world := w;
      trace := trace st
               ++ [EvInvoke (select_prompt prompt_type context question)] |}).
Proof.
  intros H. unfold generate_response, try_catch, invoke, call, ret.
  rewrite H. reflexivity.
Qed.

Lemma generate_response_total question context prompt_type (st : St World) :
  exists text st',
    generate_response caps question context prompt_type st = (Ok text, st').
Proof.
  destruct (llm_invoke caps (select_prompt prompt_type context question) (world st))
    as [[text|e] w] eqn:H.
  - eexists _, _. apply (generate_response_ok _ _ _ _ _ _ H).
  - eexists _, _. apply (generate_response_failure _ _ _ _ _ _ H).
Qed.

Lemma validate_banking_response_total response context (st : St World) :
  exists v st', validate_banking_response caps response context st = (Ok v, st').
Proof.
  unfold validate_banking_response, try_catch, bind, invoke, call, ret.
  destruct (llm_invoke caps (validation_prompt response context) (world st))
    as [[text|e] w]; eexists _, _; reflexivity.
Qed.

(** What [query] returns once the retrieval has found chunks and the context
    is composed: the answer is whatever [generate_response] returned, the
    sources are the chunks' metadata, the confidence is one of the three
    labels. *)
Lemma query_with_evidence question filter_dict k (st : St World) d ds w context
  text st1 :
  chroma_similarity_search caps question k filter_dict (world st) = (Ok (d :: ds), w) ->
  _combine_context (d :: ds) = Ok context ->
  generate_response caps question context (_determine_prompt_type (d :: ds))
    {| world := w;
       trace := trace st ++ [EvSimilaritySearch question k filter_dict] |}
  = (Ok text, st1) ->
  exists result st',
    query caps question filter_dict k st = (Ok result, st')
    /\ answer result = text
    /\ sources result = map metadata (d :: ds)
    /\ (confidence result = "high" \/ confidence result = "medium"
        \/ confidence result = "low").
Proof.
  intros Hs Hc Hg.
  destruct (validate_banking_response_total text context st1) as (v & st2 & Hv).
  destruct (calculate_confidence_total caps (d :: ds) text st2)
    as (label & st3 & Hl & Hlabel).
  eexists _, st3.
  unfold query, try_catch, bind.
  rewrite (similarity_search_ok _ _ _ _ _ _ _ Hs).
  unfold lift. rewrite Hc, Hg, Hv, Hl. unfold ret.
  split; [reflexivity|]. simpl. auto.
Qed.

(** C6, as the code has it.  [query] never raises.  A failure of the
    retrieval (the embedding capability) is reported as the answer text
    "Error processing query: ..." with confidence "error" and no sources.  A
    failure of the language model is absorbed by [generate_response]: its
    text "Error generating response: ..." becomes the answer of an ordinary
    result, whose sources are the retrieved chunks' metadata and whose
    confidence is one of high, medium and low. *)
Theorem query_failure_outcomes question filter_dict k (st : St World) :
  (exists result st', query caps question filter_dict k st = (Ok result, st'))
  /\ (forall e w,
        chroma_similarity_search caps question k filter_dict (world st)
        = (Raise e, w) ->
        fst (query caps question filter_dict k st) =
        Ok {| answer := "Error processing query: "
                        +:+ ("Failed to perform similarity search: " +:+ e);
              sources := []; context := None; validation := None;
              confidence := "error" |})
  /\ (forall d ds w context e w',
        chroma_similarity_search caps question k filter_dict (world st)
        = (Ok (d :: ds), w) ->
        _combine_context (d :: ds) = Ok context ->
        llm_invoke caps
          (select_prompt (_determine_prompt_type (d :: ds)) context question) w
        = (Raise e, w') ->
        exists result,
          fst (query caps question filter_dict k st) = Ok result
          /\ answer result = "Error generating response: " +:+ e
          /\ sources result = map metadata (d :: ds)
          /\ (confidence result = "high" \/ confidence result = "medium"
              \/ confidence result = "low")).
Proof.
  repeat split.
  - destruct (chroma_similarity_search caps question k filter_dict (world st))
      as [[[|d ds]|e] w] eqn:Hs.
    + eexists _, _. unfold query, try_catch, bind.
      rewrite (similarity_search_ok _ _ _ _ _ _ _ Hs). reflexivity.
    + destruct (_combine_context (d :: ds)) as [context|e] eqn:Hc.
      * destruct (generate_response_total question context
                    (_determine_prompt_type (d :: ds))
                    {| world := w;
                       trace := trace st
                                ++ [EvSimilaritySearch question k filter_dict] |})
          as (text & st1 & Hg).
        destruct (query_with_evidence _ _ _ _ _ _ _ _ _ _ Hs Hc Hg)
          as (result & st' & Hq & _).
        eexists _, _. exact Hq.
      * eexists _, _. unfold query, try_catch, bind.
        rewrite (similarity_search_ok _ _ _ _ _ _ _ Hs).
        unfold lift. rewrite Hc. reflexivity.
    + eexists _, _. unfold query, try_catch, bind.
      rewrite (similarity_search_raise _ _ _ _ _ _ _ Hs). reflexivity.
  - intros e w Hs. unfold query, try_catch, bind.
    rewrite (similarity_search_raise _ _ _ _ _ _ _ Hs). reflexivity.
  - intros d ds w context e w' Hs Hc Hi.
    assert (Hg := generate_response_failure question context
                    (_determine_prompt_type (d :: ds))
                    {| world := w;
                       trace := trace st
                                ++ [EvSimilaritySearch question k filter_dict] |}
                    e w' Hi).
    destruct (query_with_evidence _ _ _ _ _ _ _ _ _ _ Hs Hc Hg)
      as (result & st' & Hq & Ha & Hsrc & Hconf).
    exists result. rewrite Hq. auto.
Qed.

(** ** Structured Extractor *)

(** C9.  When chunks were retrieved, the context was composed and the language
    model answered: if [json.loads] rejects the answer, [structured_query]
    returns (without raising and without an error entry) the raw text under
    "response" together with the marker "format_error": True as its data; if
    [json.loads] accepts the answer, the parsed value is the data as it is,
    without a marker, whatever the requested format. *)
Theorem structured_query_parse_outcomes question response_format filter_dict
  (st : St World) d ds w context raw w' :
  chroma_similarity_search caps question 4 filter_dict (world st)
  = (Ok (d :: ds), w) ->
  _combine_context (d :: ds) = Ok context ->
  llm_invoke caps
    (structured_prompt context question (py_str caps response_format)) w
  = (Ok raw, w') ->
  let asked :=
    {| world := w;
       trace := trace st ++ [EvSimilaritySearch question 4 filter_dict] |} in
  let answered :=
    {| world := w';
       trace := (trace st ++ [EvSimilaritySearch question 4 filter_dict])
                ++ [EvInvoke (structured_prompt context question
                                (py_str caps response_format))] |} in
  let marked := VDict [("response", VStr raw); ("format_error", VBool true)] in
  (forall e,
     json_loads caps raw = Raise e ->
     generate_structured_response caps question context response_format asked
     = (Ok marked, answered)
     /\ structured_query caps question response_format filter_dict st =
        (Ok {| sq_error := None;
               sq_data := marked;
               sq_sources := Some (map metadata (d :: ds));
               sq_context := Some context |}, answered))
  /\ (forall parsed,
        json_loads caps raw = Ok parsed ->
        generate_structured_response caps question context response_format asked
        = (Ok parsed, answered)
        /\ structured_query caps question response_format filter_dict st =
           (Ok {| sq_error := None;
                  sq_data := parsed;
                  sq_sources := Some (map metadata (d :: ds));
                  sq_context := Some context |}, answered)).
Proof.
  intros Hs Hc Hi asked answered marked.
  assert (Hg : forall loaded data,
            json_loads caps raw = loaded ->
            data = match loaded with Ok parsed => parsed | Raise _ => marked end ->
            generate_structured_response caps question context response_format
              asked = (Ok data, answered)
            /\ structured_query caps question response_format filter_dict st =
               (Ok {| sq_error := None;
                      sq_data := data;
                      sq_sources := Some (map metadata (d :: ds));
                      sq_context := Some context |}, answered)).
  { intros loaded data Hj ->.
    assert (Hrun : generate_structured_response caps question context
                     response_format asked
                   = (Ok match loaded with
                         | Ok parsed => parsed
                         | Raise _ => marked
                         end, answered)).
    { unfold generate_structured_response, try_catch, bind, invoke, call.
      subst asked. cbn [world trace]. rewrite Hi, Hj.
      destruct loaded; reflexivity. }
    split; [exact Hrun|].
    unfold structured_query, try_catch, bind.
    rewrite (similarity_search_ok _ _ _ _ _ _ _ Hs).
    unfold lift. rewrite Hc. fold asked. rewrite Hrun. reflexivity. }
  split.
  - intros e Hj. exact (Hg (Raise e) marked Hj eq_refl).
  - intros parsed Hj. exact (Hg (Ok parsed) parsed Hj eq_refl).
Qed.

End FailureProperties.

(** C6, as stated, fails when the language model is the capability that
    fails: with a model that raises at every call and one retrieved chunk,
    [query] returns the model's error text as an ordinary answer with
    confidence "high" and one source. *)
Lemma query_generation_failure_not_error :
  let caps := ListStore.caps ListStore.score_of ListStore.llm_down
                ListStore.loads_fail in
  (forall prompt w, llm_invoke caps prompt w = (Raise "503 model unavailable", w))
  /\ exists result st',
       RetrievalChain.query caps "What is the personal loan APR?" None 4
         (ListStore.start [ListStore.rates_chunk]) = (Ok result, st')
       /\ RetrievalChain.answer result
          = "Error generating response: 503 model unavailable"
       /\ RetrievalChain.confidence result = "high"
       /\ RetrievalChain.confidence result <> "error"
       /\ RetrievalChain.sources result = [metadata ListStore.rates_chunk]
       /\ RetrievalChain.sources result <> [].
Proof.
  intros caps. split; [reflexivity|].
  eexists _, _. split; [vm_compute; reflexivity|].
  simpl. repeat split; discriminate.
Qed.

Lemma query_failure_outcomes_witness :
  let down := ListStore.unreachable "connection refused" in
  let caps := ListStore.caps ListStore.score_of ListStore.llm_down
                ListStore.loads_fail in
  fst (RetrievalChain.query down "What is the APR?" None 4 (ListStore.start tt)) =
  Ok {| RetrievalChain.answer :=
          "Error processing query: "
          +:+ ("Failed to perform similarity search: " +:+ "connection refused");
        RetrievalChain.sources := [];
        RetrievalChain.context := None;
        RetrievalChain.validation := None;
        RetrievalChain.confidence := "error" |}
  /\ exists result,
       fst (RetrievalChain.query caps "What is the APR?" None 4
              (ListStore.start [ListStore.rates_chunk])) = Ok result
       /\ RetrievalChain.answer result
          = "Error generating response: " +:+ "503 model unavailable"
       /\ RetrievalChain.sources result = map metadata [ListStore.rates_chunk]
       /\ (RetrievalChain.confidence result = "high"
           \/ RetrievalChain.confidence result = "medium"
           \/ RetrievalChain.confidence result = "low").
Proof.
  intros down caps. split.
  - apply (proj1 (proj2 (query_failure_outcomes down "What is the APR?" None 4
                           (ListStore.start tt)))
             "connection refused" tt).
    reflexivity.
  - apply (proj2 (proj2 (query_failure_outcomes caps "What is the APR?" None 4
                           (ListStore.start [ListStore.rates_chunk])))
             ListStore.rates_chunk [] [ListStore.rates_chunk]
             ("DOCUMENT 1: rates.txt" +:+ PyStr.nl
              +:+ "Personal Loan APR: 8.5% - 12.5%")
             "503 model unavailable" [ListStore.rates_chunk]);
      vm_compute; reflexivity.
Defined.

Lemma structured_query_parse_outcomes_witness :
  let context := "DOCUMENT 1: rates.txt" +:+ PyStr.nl
                 +:+ "Personal Loan APR: 8.5% - 12.5%" in
  let st := ListStore.start [ListStore.rates_chunk] in
  let answered caps :=
    {| world := [ListStore.rates_chunk];
       trace := (trace st ++ [EvSimilaritySearch "What is the APR?" 4 None])
                ++ [EvInvoke (LLMManager.structured_prompt context
                                "What is the APR?" (py_str caps VNone))] |} in
  let prose := ListStore.caps ListStore.score_of ListStore.llm_echo
                 ListStore.loads_fail in
  let array := ListStore.caps ListStore.score_of ListStore.llm_array
                 ListStore.loads_array in
  json_loads prose "Personal Loan APR is 8.5%" = Raise "Expecting value"
  /\ RetrievalChain.structured_query prose "What is the APR?" VNone None st =
     (Ok {| RetrievalChain.sq_error := None;
            RetrievalChain.sq_data :=
              VDict [("response", VStr "Personal Loan APR is 8.5%");
                     ("format_error", VBool true)];
            RetrievalChain.sq_sources := Some (map metadata [ListStore.rates_chunk]);
            RetrievalChain.sq_context := Some context |}, answered prose)
  /\ json_loads array "[]" = Ok (VList [])
  /\ RetrievalChain.structured_query array "What is the APR?" VNone None st =
     (Ok {| RetrievalChain.sq_error := None;
            RetrievalChain.sq_data := VList [];
            RetrievalChain.sq_sources := Some (map metadata [ListStore.rates_chunk]);
            RetrievalChain.sq_context := Some context |}, answered array).
Proof.
  intros context st answered prose array.
  assert (Hcontext : RetrievalChain._combine_context [ListStore.rates_chunk]
                     = Ok context) by (vm_compute; reflexivity).
  split; [reflexivity|]. split; [|split; [reflexivity|]].
  - exact (proj2 (proj1 (structured_query_parse_outcomes prose "What is the APR?"
                           VNone None st ListStore.rates_chunk []
                           [ListStore.rates_chunk] context
                           "Personal Loan APR is 8.5%" [ListStore.rates_chunk]
                           eq_refl Hcontext eq_refl)
                    "Expecting value" eq_refl)).
  - exact (proj2 (proj2 (structured_query_parse_outcomes array "What is the APR?"
                           VNone None st ListStore.rates_chunk []
                           [ListStore.rates_chunk] context
                           "[]" [ListStore.rates_chunk]
                           eq_refl Hcontext eq_refl)
                    (VList []) eq_refl)).
Defined.

(** C9, as stated, fails for an answer that is JSON but not of the requested
    form: asked for the loan format (a dictionary of loan products and
    fees), a model that answers "[]" gets the empty list back as data, with
    no marker and no error. *)
Lemma structured_query_wrong_shape_unmarked :
  let caps := ListStore.caps ListStore.score_of ListStore.llm_array
                ListStore.loads_array in
  exists result st',
    RetrievalChain.structured_query caps "What loan products are available?"
      AssistantOperations.loan_response_format None
      (ListStore.start [ListStore.rates_chunk]) = (Ok result, st')
    /\ RetrievalChain.sq_error result = None
    /\ RetrievalChain.sq_data result = VList []
    /\ RetrievalChain.sq_data result
       <> VDict [("response", VStr "[]"); ("format_error", VBool true)].
Proof.
  intros caps. eexists _, _. split; [vm_compute; reflexivity|].
  split; [reflexivity|]. split; [reflexivity|]. discriminate.
Qed.

(** ** Grounded Answerer: context composition *)

Lemma contains_char_cons (sep c : ascii) (s : string) :
  PyStr.contains (String sep EmptyString) (String c s)
  = Ascii.eqb c sep || PyStr.contains (String sep EmptyString) s.
Proof.
  unfold PyStr.contains. simpl.
  destruct (ascii_dec sep c) as [->|Hne].
  - rewrite Ascii.eqb_refl. destruct s; reflexivity.
  - assert (E : Ascii.eqb c sep = false).
    { apply Ascii.eqb_neq. intros ->. apply Hne. reflexivity. }
    rewrite E. simpl.
    destruct (String.index 0 (String sep EmptyString) s); reflexivity.
Qed.

(** Without a separator the last component is the whole path. *)
Lemma last_component_no_sep (sep : ascii) (s : string) :
  PyStr.contains (String sep EmptyString) s = false ->
  PyStr.last_component sep s = s.
Proof.
  destruct s as [|c s]; [reflexivity|].
  rewrite contains_char_cons. intros H.
  apply orb_false_elim in H as [Hc Hs]. simpl. rewrite Hc, Hs. reflexivity.
Qed.

(** The last component is a suffix of the path and holds no separator. *)
Lemma last_component_suffix (sep : ascii) (s : string) :
  (exists pre, s = pre +:+ PyStr.last_component sep s)
  /\ PyStr.contains (String sep EmptyString) (PyStr.last_component sep s) = false.
Proof.
  induction s as [|c s [[pre IHp] IHc]].
  - split; [exists EmptyString; reflexivity|reflexivity].
  - simpl. destruct (Ascii.eqb c sep) eqn:Ec.
    + split; [|exact IHc]. exists (String c pre).
      exact (f_equal (String c) IHp).
    + destruct (PyStr.contains (String sep EmptyString) s) eqn:Es.
      * split; [|exact IHc]. exists (String c pre).
        exact (f_equal (String c) IHp).
      * split; [exists EmptyString; reflexivity|].
        rewrite contains_char_cons, Ec, Es. reflexivity.
Qed.

Section ContextProperties.

Import PyStr RetrievalChain.

Lemma source_name_label (meta : gmap string MVal) :
  (forall v, meta !! "file_path" = Some v -> exists p, v = MStr p) ->
  exists label, source_name meta = Ok label /\ is_source_label meta label.
Proof.
  intros Hstr. unfold source_name, is_source_label.
  destruct (meta !! "file_path") as [v|] eqn:Ep.
  - destruct (Hstr v eq_refl) as [p ->].
    destruct (contains "/" p) eqn:Ec.
    + exists (last_component "/" p). repeat split; try discriminate.
      intros p' [= ->]. reflexivity.
    + exists p. repeat split; try discriminate.
      intros p' [= ->]. symmetry. apply last_component_no_sep. exact Ec.
  - destruct (meta !! "source") as [v|] eqn:Es.
    + exists (str_of_mval v). repeat split; try discriminate.
      intros _ v' [= ->]. reflexivity.
    + exists "Unknown source". repeat split; discriminate.
Qed.

Lemma page_suffix_note (meta : gmap string MVal) :
  is_page_note meta (page_suffix meta).
Proof.
  unfold is_page_note, page_suffix.
  destruct (meta !! "page") as [v|]; split; try discriminate; auto.
  intros v' [= ->]. reflexivity.
Qed.

Lemma context_parts_from_attribution (documents : list Document) (i : nat) :
  (forall doc v, In doc documents -> metadata doc !! "file_path" = Some v ->
     exists p, v = MStr p) ->
  exists parts,
    context_parts_from i documents = Ok parts
    /\ length parts = length documents
    /\ forall j doc, nth_error documents j = Some doc ->
         exists label note,
           nth_error parts j
           = Some (("DOCUMENT " +:+ str_of_nat (i + j) +:+ ": " +:+ label +:+ note)
                   +:+ nl +:+ strip (page_content doc))
           /\ is_source_label (metadata doc) label
           /\ is_page_note (metadata doc) note.
Proof.
  revert i. induction documents as [|doc rest IH]; intros i Hstr.
  - exists []. repeat split. intros [|j] d; discriminate.
  - destruct (source_name_label (metadata doc)) as (label & Hl & Hlabel).
    { intros v. apply Hstr. left. reflexivity. }
    destruct (IH (S i)) as (parts & Hp & Hlen & Hnth).
    { intros d v Hd. apply Hstr. right. exact Hd. }
    simpl. unfold format_document. rewrite Hl, Hp.
    eexists. split; [reflexivity|]. split; [simpl; congruence|].
    intros [|j] d Hd; simpl in Hd.
    + injection Hd as <-. exists label, (page_suffix (metadata doc)).
      simpl. rewrite Nat.add_0_r.
      split; [reflexivity|]. split; [exact Hlabel|apply page_suffix_note].
    + destruct (Hnth j d Hd) as (l & n & Hj & Hsl & Hpn).
      exists l, n. simpl. rewrite Nat.add_succ_r. auto.
Qed.

(** C8, as the code has it.  For retrieved chunks whose [file_path], when
    present, is a string, the composed context is the parts of the chunks, in
    retrieval order, joined by the delimiter of a rule between blank lines.
    The part of the i-th chunk (counting from 1) is "DOCUMENT i: ", its source
    label, its page note, a line break and the chunk's stripped text.  The
    label is the last component of [file_path], else the [source] entry, else
    "Unknown source"; the [file_name] entry is not consulted. *)
Theorem combine_context_attribution (documents : list Document) :
  (forall doc v, In doc documents -> metadata doc !! "file_path" = Some v ->
     exists p, v = MStr p) ->
  exists parts,
    _combine_context documents
    = Ok (join (nl +:+ nl +:+ "---" +:+ nl +:+ nl) parts)
    /\ length parts = length documents
    /\ forall i doc, nth_error documents i = Some doc ->
         exists label note,
           nth_error parts i
           = Some (("DOCUMENT " +:+ str_of_nat (S i) +:+ ": " +:+ label +:+ note)
                   +:+ nl +:+ strip (page_content doc))
           /\ is_source_label (metadata doc) label
           /\ is_page_note (metadata doc) note.
Proof.
  intros Hstr.
  destruct (context_parts_from_attribution documents 1 Hstr)
    as (parts & Hp & Hlen & Hnth).
  exists parts. unfold _combine_context. rewrite Hp.
  split; [reflexivity|]. split; [exact Hlen|]. exact Hnth.
Qed.

End ContextProperties.

(** C8, as stated, fails: a chunk whose metadata holds [file_name] but no
    [file_path] is labelled "Unknown source", and its file name does not
    occur in the composed context. *)
Lemma combine_context_ignores_file_name :
  metadata ListStore.named_only_chunk !! "file_name" = Some (MStr "rates.txt")
  /\ RetrievalChain._combine_context [ListStore.named_only_chunk]
     = Ok ("DOCUMENT 1: Unknown source" +:+ PyStr.nl +:+ "APR 8.5%")
  /\ RetrievalChain._combine_context [ListStore.named_only_chunk]
     <> Ok ("DOCUMENT 1: rates.txt" +:+ PyStr.nl +:+ "APR 8.5%")
  /\ PyStr.contains "rates.txt"
       ("DOCUMENT 1: Unknown source" +:+ PyStr.nl +:+ "APR 8.5%") = false.
Proof.
  repeat split; try (vm_compute; reflexivity).
  vm_compute. discriminate.
Qed.

Lemma combine_context_attribution_witness :
  let documents := [ListStore.rates_chunk; ListStore.named_only_chunk] in
  (forall doc v, In doc documents -> metadata doc !! "file_path" = Some v ->
     exists p, v = MStr p)
  /\ exists parts,
       RetrievalChain._combine_context documents
       = Ok (PyStr.join (PyStr.nl +:+ PyStr.nl +:+ "---" +:+ PyStr.nl +:+ PyStr.nl)
               parts)
       /\ length parts = length documents.
Proof.
  intros documents.
  assert (H : forall doc v, In doc documents ->
                metadata doc !! "file_path" = Some v -> exists p, v = MStr p).
  { intros doc v [<- | [<- | []]] Hv; vm_compute in Hv.
    - injection Hv as <-. eexists. reflexivity.
    - discriminate. }
  split; [exact H|].
  destruct (combine_context_attribution documents H) as (parts & Hc & Hlen & _).
  exists parts. split; [exact Hc|exact Hlen].
Defined.

(** ** Checks of the string primitives and of the pattern matcher *)

Example strip_example :
  PyStr.strip ("  " +:+ PyStr.nl +:+ "Loan  terms " +:+ PyStr.nl) = "Loan  terms".
Proof. reflexivity. Qed.

Example lower_example : PyStr.lower "Audit POLICY 2024" = "audit policy 2024".
Proof. reflexivity. Qed.

Example last_component_example :
  PyStr.last_component "/" "docs/2024/rates.txt" = "rates.txt"
  /\ PyStr.last_component "/" "rates.txt" = "rates.txt"
  /\ PyStr.last_component "/" "docs/" = "".
Proof. repeat split; reflexivity. Qed.

(** A Markdown grid of two rows, a paragraph, an aligned block of two lines
    and a table reference: one region per pattern. *)
Example finditer_example :
  let content :=
    "| a | b |" +:+ PyStr.nl +:+ "| c | d |" +:+ PyStr.nl +:+ "Text after"
    +:+ PyStr.nl +:+ PyStr.nl +:+ "  x y z" +:+ PyStr.nl +:+ "  1 2 3" +:+ PyStr.nl
    +:+ "Table 9" +:+ PyStr.nl +:+ "foo" in
  map (fun pattern => Re.finditer pattern content) DocumentProcessor.table_patterns
  = [[(0, 20)]; [(30, 48)]; [(48, 59)]].
Proof. vm_compute. reflexivity. Qed.

(** The lazy tail of a table reference stops at the first blank line or
    capitalised line. *)
Example finditer_reference_example :
  let content :=
    "see Table 2.5 rates" +:+ PyStr.nl +:+ "a 1" +:+ PyStr.nl +:+ "b 2"
    +:+ PyStr.nl +:+ PyStr.nl +:+ "rest Table 3" +:+ PyStr.nl +:+ "q"
    +:+ PyStr.nl +:+ "Next" in
  Re.finditer DocumentProcessor.table_reference_pattern content
  = [(4, 27); (34, 43)].
Proof. vm_compute. reflexivity. Qed.

(** A stable sort: entries with the same start keep their order. *)
Example sort_tables_stable :
  map DocumentProcessor.tbl_text
    (DocumentProcessor.sort_tables
       [DocumentProcessor.mkTable "c" 5 9 "t"; DocumentProcessor.mkTable "a" 0 4 "t";
        DocumentProcessor.mkTable "b" 0 2 "t"])
  = ["a"; "b"; "c"].
Proof. reflexivity. Qed.

(** ** Chunker *)

Section ChunkerProperties.

Import DocumentProcessor.

Variable split_text : string -> list string.
Variable file_path : Path.
Variable upload_timestamp : string.

Lemma text_chunk_not_table doc i chunk :
  is_table_doc (text_chunk file_path upload_timestamp doc i chunk) = false.
Proof.
  unfold is_table_doc, text_chunk. simpl.
  rewrite lookup_insert_ne by discriminate.
  rewrite lookup_insert_eq.
  apply bool_decide_eq_false. discriminate.
Qed.

Lemma table_chunk_is_table doc i table :
  is_table_doc (table_chunk file_path upload_timestamp doc i table) = true.
Proof.
  unfold is_table_doc, table_chunk. simpl.
  rewrite lookup_insert_ne by discriminate.
  rewrite lookup_insert_ne by discriminate.
  rewrite lookup_insert_eq.
  apply bool_decide_eq_true. reflexivity.
Qed.

Lemma plain_chunk_not_table doc total i chunk :
  is_table_doc (plain_chunk file_path upload_timestamp doc total i chunk) = false.
Proof.
  unfold is_table_doc, plain_chunk. simpl.
  rewrite lookup_insert_ne by discriminate.
  rewrite lookup_insert_ne by discriminate.
  rewrite lookup_insert_eq.
  apply bool_decide_eq_false. discriminate.
Qed.

Lemma table_texts_app chunks1 chunks2 :
  table_texts (chunks1 ++ chunks2) = table_texts chunks1 ++ table_texts chunks2.
Proof.
  unfold table_texts. rewrite List.filter_app, map_app. reflexivity.
Qed.

Lemma append_text_chunks_tables doc pieces chunks :
  table_texts (append_text_chunks file_path upload_timestamp doc chunks pieces)
  = table_texts chunks.
Proof.
  unfold append_text_chunks. revert chunks.
  induction pieces as [|piece pieces IH]; intros chunks; simpl; [reflexivity|].
  rewrite IH, table_texts_app. unfold table_texts at 2. simpl.
  rewrite text_chunk_not_table. simpl. apply app_nil_r.
Qed.

Lemma append_text_tables doc chunks text :
  table_texts (append_text split_text file_path upload_timestamp doc chunks text)
  = table_texts chunks.
Proof.
  unfold append_text. destruct (PyStr.truthy (PyStr.strip text)).
  - apply append_text_chunks_tables.
  - reflexivity.
Qed.

Lemma table_step_tables doc chunks pos table :
  table_texts
    (fst (table_step split_text file_path upload_timestamp doc (chunks, pos) table))
  = table_texts chunks ++ [tbl_text table].
Proof.
  unfold table_step. simpl. rewrite table_texts_app.
  unfold table_texts at 2. simpl. rewrite table_chunk_is_table. simpl.
  f_equal.
  destruct (pos <? start_pos table); [apply append_text_tables|reflexivity].
Qed.

Lemma fold_table_step_tables doc tables chunks pos :
  table_texts
    (fst (fold_left (table_step split_text file_path upload_timestamp doc)
            tables (chunks, pos)))
  = table_texts chunks ++ map tbl_text tables.
Proof.
  revert chunks pos.
  induction tables as [|table tables IH]; intros chunks pos; cbn [fold_left map].
  - symmetry. apply app_nil_r.
  - pose proof (table_step_tables doc chunks pos table) as H.
    destruct (table_step split_text file_path upload_timestamp doc (chunks, pos) table)
      as [chunks' pos'].
    simpl in H. rewrite IH, H, <- app_assoc. reflexivity.
Qed.

Lemma chunk_with_tables_tables doc tables :
  table_texts (_chunk_with_tables split_text file_path upload_timestamp doc tables)
  = map tbl_text (sort_tables tables).
Proof.
  unfold _chunk_with_tables.
  pose proof (fold_table_step_tables doc (sort_tables tables) [] 0) as H.
  destruct (fold_left (table_step split_text file_path upload_timestamp doc)
              (sort_tables tables) ([], 0)) as [chunks pos].
  simpl in H.
  destruct (pos <? String.length (page_content doc)).
  - rewrite append_text_tables. exact H.
  - exact H.
Qed.

Lemma insert_table_permutation t sorted :
  Permutation (insert_table t sorted) (t :: sorted).
Proof.
  induction sorted as [|u rest IH]; simpl; [reflexivity|].
  destruct (start_pos t <=? start_pos u); [reflexivity|].
  rewrite IH. apply perm_swap.
Qed.

Lemma sort_tables_permutation tables : Permutation (sort_tables tables) tables.
Proof.
  induction tables as [|t tables IH]; simpl; [reflexivity|].
  rewrite insert_table_permutation. apply perm_skip. exact IH.
Qed.

Lemma extract_tables_verbatim content t :
  In t (_extract_tables content) ->
  tbl_text t = PyStr.slice content (start_pos t) (end_pos t).
Proof.
  unfold _extract_tables. intros H.
  apply in_flat_map in H as (pattern & _ & H).
  apply in_map_iff in H as (m & <- & _). reflexivity.
Qed.

Lemma plain_chunks_tables doc total i pieces :
  table_texts
    (map (fun ic => plain_chunk file_path upload_timestamp doc total (fst ic) (snd ic))
       (enumerate_from i pieces))
  = [].
Proof.
  revert i. induction pieces as [|piece pieces IH]; intros i; [reflexivity|].
  simpl. unfold table_texts. simpl. rewrite plain_chunk_not_table.
  apply IH.
Qed.

Lemma process_documents_single doc :
  _process_documents split_text file_path upload_timestamp [doc]
  = process_document split_text file_path upload_timestamp doc.
Proof. unfold _process_documents. cbn [flat_map]. apply app_nil_r. Qed.

(** C2.  The chunks of a document that carry content_type "table" are, in
    order, the detected table regions sorted by start offset: every region is
    emitted as exactly one table chunk, whose text is the region's slice of
    the document, whatever the text splitter (and so whatever the chunk size)
    is.  No other chunk is a table chunk. *)
Theorem table_regions_atomic (doc : Document) :
  let regions := _extract_tables (page_content doc) in
  let chunks := _process_documents split_text file_path upload_timestamp [doc] in
  map page_content (List.filter is_table_doc chunks)
  = map tbl_text (sort_tables regions)
  /\ Permutation (map page_content (List.filter is_table_doc chunks))
       (map tbl_text regions)
  /\ (forall t, In t regions ->
        tbl_text t = PyStr.slice (page_content doc) (start_pos t) (end_pos t)).
Proof.
  intros regions chunks.
  assert (H : map page_content (List.filter is_table_doc chunks)
              = map tbl_text (sort_tables regions)).
  { subst chunks. rewrite process_documents_single.
    unfold process_document. fold regions.
    destruct regions as [|t rest] eqn:E.
    - apply plain_chunks_tables.
    - apply chunk_with_tables_tables. }
  split; [exact H|]. split.
  - rewrite H. apply Permutation_map. apply sort_tables_permutation.
  - intros t Ht. apply extract_tables_verbatim. exact Ht.
Qed.

(** A grid of twenty characters under a splitter that cuts a text into single
    characters is still one chunk. *)
Example table_longer_than_chunk_size :
  let grid := "| a | b |" +:+ PyStr.nl +:+ "| c | d |" +:+ PyStr.nl in
  let one_char_splitter :=
    fun s => map (fun c => String c EmptyString) (list_ascii_of_string s) in
  map page_content
    (_process_documents one_char_splitter file_path upload_timestamp
       [ {| page_content := grid +:+ "ok"; metadata := ∅ |} ])
  = [grid; "o"; "k"].
Proof.
  intros grid one_char_splitter.
  unfold _process_documents. cbn [flat_map]. rewrite app_nil_r.
  unfold process_document. cbn [page_content].
  replace (_extract_tables (grid +:+ "ok"))
    with [ {| tbl_text := grid; start_pos := 0; end_pos := 20;
              tbl_type := "structured_table" |} ]
    by (vm_compute; reflexivity).
  reflexivity.
Qed.

(** The regions detected in a labelled Markdown table: the Markdown pattern
    finds the grid, the reference pattern finds the label with the grid. *)
Lemma extract_tables_labelled_grid :
  _extract_tables ("Table 1" +:+ PyStr.nl +:+ "| a | b |" +:+ PyStr.nl)
  = [ {| tbl_text := "| a | b |" +:+ PyStr.nl;
         start_pos := 8; end_pos := 18; tbl_type := "structured_table" |};
      {| tbl_text := "Table 1" +:+ PyStr.nl +:+ "| a | b |" +:+ PyStr.nl;
         start_pos := 0; end_pos := 18; tbl_type := "structured_table" |} ].
Proof. vm_compute. reflexivity. Qed.

(** C3 at the failing input.  For the document "Table 1", line break,
    "| a | b |", line break, the chunker emits two table chunks, the label
    with the grid and the grid again: the grid is in the output twice, and
    the non-white-space content of the chunks is not that of the document. *)
Theorem overlapping_regions_duplicated (meta : gmap string MVal) :
  let content := "Table 1" +:+ PyStr.nl +:+ "| a | b |" +:+ PyStr.nl in
  let chunks :=
    _process_documents split_text file_path upload_timestamp
      [ {| page_content := content; metadata := meta |} ] in
  map page_content chunks
  = [ "Table 1" +:+ PyStr.nl +:+ "| a | b |" +:+ PyStr.nl;
      "| a | b |" +:+ PyStr.nl ]
  /\ PyStr.non_whitespace (String.concat "" (map page_content chunks))
     = "Table1|a|b||a|b|"
  /\ PyStr.non_whitespace content = "Table1|a|b|".
Proof.
  intros content chunks.
  assert (H : map page_content chunks
              = [ "Table 1" +:+ PyStr.nl +:+ "| a | b |" +:+ PyStr.nl;
                  "| a | b |" +:+ PyStr.nl ]).
  { subst chunks content. rewrite process_documents_single.
    unfold process_document.
    cbn [page_content]. rewrite extract_tables_labelled_grid.
    reflexivity. }
  split; [exact H|]. split.
  - rewrite H. reflexivity.
  - reflexivity.
Qed.

End ChunkerProperties.

(** ** Index: deletion by source *)

Lemma collect_documents_all (limit i : nat) (stored : list Document) :
  i + length stored <= limit ->
  VectorStore.collect_documents limit i (map entry_of stored) = stored.
Proof.
  revert i. induction stored as [|[content meta] stored IH]; intros i Hle;
    simpl in *; [reflexivity|].
  destruct (limit <=? i) eqn:E.
  - apply Nat.leb_le in E. lia.
  - f_equal. apply IH. lia.
Qed.

Lemma remove_selected {A : Type} `{EqDecision A} (f : A -> bool) (l : list A) :
  List.filter (fun x => negb (bool_decide (x ∈ List.filter f l))) l
  = List.filter (fun x => negb (f x)) l.
Proof.
  apply List.filter_ext_in. intros x Hx. f_equal.
  destruct (f x) eqn:Ef.
  - apply bool_decide_eq_true. apply list_elem_of_In.
    apply List.filter_In. split; assumption.
  - apply bool_decide_eq_false. intros Hin. apply list_elem_of_In in Hin.
    apply List.filter_In in Hin as [_ Hf]. congruence.
Qed.

Lemma filter_none_selected {A : Type} (f : A -> bool) (l : list A) :
  List.filter f l = [] -> List.filter (fun x => negb (f x)) l = l.
Proof.
  induction l as [|x l IH]; simpl; [reflexivity|].
  destruct (f x); [discriminate|]. intros H. simpl. f_equal. auto.
Qed.

Section StoreProperties.
Context {World : Type} (caps : Capabilities World).

Import VectorStore.

(** The collection behind the capabilities: [contents w] is what is stored in
    the world [w], in the order [get()] lists it. *)
Variable contents : World -> list Document.

Hypothesis get_lists_contents :
  forall w, chroma_get caps w = (Ok (map entry_of (contents w)), w).

Hypothesis delete_removes :
  forall documents w,
    exists w', chroma_delete caps documents w = (Ok tt, w')
               /\ contents w' = remove_documents documents (contents w).

Hypothesis count_is_length :
  forall w, chroma_count caps w = (Ok (length (contents w)), w).

Hypothesis search_finds_stored :
  forall query k filter_dict w hits w',
    chroma_similarity_search caps query k filter_dict w = (Ok hits, w') ->
    forall doc, In doc hits -> In doc (contents w).

Lemma get_all_documents_small (st : St World) :
  length (contents (world st)) <= 1000 ->
  get_all_documents caps 1000 st =
  (Ok (contents (world st)),
   {| world := world st; trace := trace st ++ [EvGet] |}).
Proof.
  intros Hle. unfold get_all_documents, try_catch, bind, call, ret.
  rewrite get_lists_contents, collect_documents_all by (simpl; lia).
  reflexivity.
Qed.

Lemma get_collection_stats_count (st : St World) :
  exists stats st',
    get_collection_stats caps st = (Ok stats, st')
    /\ document_count stats = length (contents (world st)).
Proof.
  unfold get_collection_stats, try_catch, bind, call, ret.
  rewrite count_is_length. eexists _, _. split; reflexivity.
Qed.

(** What the selection would achieve with a [delete] that removed the
    documents it is handed (Chroma's does not, see
    [delete_documents_by_source_rejected]).  On a collection of at
    most 1000 entries with such a [delete], [delete_documents_by_source p]
    returns [None] (not a count); afterwards the collection holds exactly the
    former entries whose [file_path] is not [p], the entry count reported by
    the statistics has gone down by the number of entries that had
    [file_path] equal to [p], and no similarity search returns a chunk with
    that [file_path]. *)
Theorem delete_documents_by_source_complete (source_path : string) (st : St World) :
  length (contents (world st)) <= 1000 ->
  exists st',
    delete_documents_by_source caps source_path st = (Ok VNone, st')
    /\ contents (world st')
       = List.filter (fun doc => negb (has_source source_path doc))
           (contents (world st))
    /\ (exists before after s1 s2,
          get_collection_stats caps st = (Ok before, s1)
          /\ get_collection_stats caps st' = (Ok after, s2)
          /\ document_count after
             + length (List.filter (has_source source_path) (contents (world st)))
             = document_count before)
    /\ (forall query k filter_dict hits st'',
          similarity_search caps query k filter_dict st' = (Ok hits, st'') ->
          forall doc, In doc hits -> has_source source_path doc = false).
Proof.
  intros Hle.
  assert (Hrun : exists st',
            delete_documents_by_source caps source_path st = (Ok VNone, st')
            /\ contents (world st')
               = List.filter (fun doc => negb (has_source source_path doc))
                   (contents (world st))).
  { unfold delete_documents_by_source, try_catch, bind.
    rewrite (get_all_documents_small st Hle).
    destruct (List.filter (has_source source_path) (contents (world st)))
      as [|d ds] eqn:Esel.
    - eexists. split; [reflexivity|]. simpl.
      symmetry. apply filter_none_selected. exact Esel.
    - destruct (delete_removes (d :: ds) (world st)) as (w' & Hdel & Hcontents).
      unfold call, print, ret. simpl. rewrite Hdel.
      eexists. split; [reflexivity|]. simpl.
      rewrite Hcontents, <- Esel. apply remove_selected. }
  destruct Hrun as (st' & Hdel & Hcontents).
  exists st'. split; [exact Hdel|]. split; [exact Hcontents|]. split.
  - destruct (get_collection_stats_count st) as (before & s1 & Hb & Hnb).
    destruct (get_collection_stats_count st') as (after & s2 & Ha & Hna).
    exists before, after, s1, s2. split; [exact Hb|]. split; [exact Ha|].
    rewrite Hnb, Hna, Hcontents.
    rewrite Nat.add_comm. apply List.filter_length.
  - intros query k filter_dict hits st'' Hsearch doc Hdoc.
    unfold similarity_search, try_catch, call, raise in Hsearch.
    destruct (chroma_similarity_search caps query k filter_dict (world st'))
      as [[found|e] w''] eqn:Eq; [|discriminate].
    injection Hsearch as <- _.
    pose proof (search_finds_stored _ _ _ _ _ _ Eq doc Hdoc) as Hin.
    rewrite Hcontents in Hin. apply List.filter_In in Hin as [_ Hneg].
    apply negb_true_iff in Hneg. exact Hneg.
Qed.

End StoreProperties.

(** Even with such a [delete] no count is returned: with two stored chunks
    of the source, the deletion removes both and returns [None], not the
    count 2. *)
Lemma delete_documents_by_source_returns_none :
  let caps := ListStore.caps ListStore.score_of ListStore.llm_echo
                ListStore.loads_fail in
  let stored := [ListStore.rates_chunk; ListStore.audit_chunk; ListStore.rates_chunk] in
  exists st',
    VectorStore.delete_documents_by_source caps "docs/rates.txt"
      (ListStore.start stored) = (Ok VNone, st')
    /\ world st' = [ListStore.audit_chunk]
    /\ length stored - length (world st') = 2
    /\ fst (VectorStore.delete_documents_by_source caps "docs/rates.txt"
              (ListStore.start stored)) <> Ok (VInt 2).
Proof.
  intros caps stored. eexists. split; [vm_compute; reflexivity|].
  split; [reflexivity|]. split; [reflexivity|].
  vm_compute. discriminate.
Qed.

Lemma list_store_delete_removes score llm loads documents (w : list Document) :
  exists w',
    chroma_delete (ListStore.caps score llm loads) documents w = (Ok tt, w')
    /\ w' = remove_documents documents w.
Proof. eexists. split; reflexivity. Defined.

Lemma list_store_search_finds_stored score llm loads query k
  (filter_dict : option (gmap string MVal)) (w : list Document) hits w' :
  chroma_similarity_search (ListStore.caps score llm loads) query k filter_dict w
  = (Ok hits, w') ->
  forall doc, In doc hits -> In doc w.
Proof.
  simpl. intros [= <- _] doc Hdoc.
  rewrite <- (firstn_skipn k w). apply in_or_app. left. exact Hdoc.
Defined.

Lemma delete_documents_by_source_complete_witness :
  let caps := ListStore.caps ListStore.score_of ListStore.llm_echo
                ListStore.loads_fail in
  let stored := [ListStore.rates_chunk; ListStore.audit_chunk; ListStore.rates_chunk] in
  length stored <= 1000
  /\ exists st',
       VectorStore.delete_documents_by_source caps "docs/rates.txt"
         (ListStore.start stored) = (Ok VNone, st')
       /\ world st'
          = List.filter
              (fun doc => negb (VectorStore.has_source "docs/rates.txt" doc)) stored.
Proof.
  intros caps stored.
  assert (Hle : length stored <= 1000) by (vm_compute; lia).
  split; [exact Hle|].
  destruct (delete_documents_by_source_complete caps (fun w => w)
              (fun w => eq_refl)
              (list_store_delete_removes _ _ _)
              (fun w => eq_refl)
              (list_store_search_finds_stored _ _ _)
              "docs/rates.txt" (ListStore.start stored) Hle)
    as (st' & Hrun & Hcontents & _).
  exists st'. split; [exact Hrun|exact Hcontents].
Defined.

(** * Further properties *)

(** ** Strings, continued *)

Lemma string_app_cons (x : ascii) (a b : string) :
  String x a +:+ b = String x (a +:+ b).
Proof. reflexivity. Qed.

Lemma string_app_assoc (a b c : string) : (a +:+ b) +:+ c = a +:+ (b +:+ c).
Proof.
  induction a as [|x a IH]; [reflexivity|].
  rewrite !string_app_cons. f_equal. exact IH.
Qed.

Lemma string_app_empty_r (a : string) : a +:+ "" = a.
Proof.
  induction a as [|x a IH]; [reflexivity|].
  rewrite string_app_cons. f_equal. exact IH.
Qed.


Lemma substring_whole (s : string) : substring 0 (String.length s) s = s.
Proof. induction s as [|c s IH]; simpl; [reflexivity|]. f_equal. exact IH. Qed.

Lemma substring_zero_length (a : nat) (s : string) : substring a 0 s = "".
Proof.
  revert a. induction s as [|c s IH]; intros [|a]; simpl; try reflexivity.
  apply IH.
Qed.

(** Two adjacent slices make one slice. *)
Lemma substring_adjacent (s : string) (a n m : nat) :
  substring a n s +:+ substring (a + n) m s = substring a (n + m) s.
Proof.
  revert a n m. induction s as [|c s IH]; intros a n m.
  - destruct a, n, m; reflexivity.
  - destruct a as [|a].
    + destruct n as [|n].
      * destruct m; reflexivity.
      * cbn [substring Nat.add]. rewrite string_app_cons. f_equal.
        apply (IH 0 n m).
    + cbn [substring Nat.add]. apply IH.
Qed.

Lemma substring_length (s : string) (a n : nat) :
  a + n <= String.length s -> String.length (substring a n s) = n.
Proof.
  revert a n. induction s as [|c s IH]; intros a n H; simpl in H.
  - assert (a = 0) by lia. assert (n = 0) by lia. subst. reflexivity.
  - destruct a as [|a].
    + destruct n as [|n]; simpl; [reflexivity|]. f_equal. apply IH. simpl. lia.
    + simpl. apply IH. lia.
Qed.

Lemma slice_adjacent (s : string) (a b c : nat) :
  a <= b -> b <= c ->
  PyStr.slice s a b +:+ PyStr.slice s b c = PyStr.slice s a c.
Proof.
  intros Hab Hbc. unfold PyStr.slice.
  replace b with (a + (b - a)) at 2 by lia.
  rewrite substring_adjacent. f_equal. lia.
Qed.

Lemma non_whitespace_app (a b : string) :
  PyStr.non_whitespace (a +:+ b)
  = PyStr.non_whitespace a +:+ PyStr.non_whitespace b.
Proof.
  induction a as [|c a IH]; [reflexivity|].
  rewrite string_app_cons. simpl.
  destruct (PyStr.is_space c); rewrite IH; reflexivity.
Qed.

Lemma non_whitespace_lstrip (s : string) :
  PyStr.non_whitespace (PyStr.lstrip s) = PyStr.non_whitespace s.
Proof.
  induction s as [|c s IH]; simpl; [reflexivity|].
  destruct (PyStr.is_space c) eqn:E; [exact IH|]. simpl. rewrite E. reflexivity.
Qed.

Lemma non_whitespace_rstrip (s : string) :
  PyStr.non_whitespace (PyStr.rstrip s) = PyStr.non_whitespace s.
Proof.
  induction s as [|c s IH]; simpl; [reflexivity|].
  destruct (PyStr.rstrip s) as [|d r] eqn:E.
  - simpl in IH. rewrite <- IH.
    destruct (PyStr.is_space c) eqn:Ec; simpl; [reflexivity|].
    rewrite Ec. reflexivity.
  - change (PyStr.non_whitespace (String c (String d r)))
      with (if PyStr.is_space c then PyStr.non_whitespace (String d r)
            else String c (PyStr.non_whitespace (String d r))).
    rewrite IH. reflexivity.
Qed.

(** Stripping removes white space only. *)
Lemma non_whitespace_strip (s : string) :
  PyStr.non_whitespace (PyStr.strip s) = PyStr.non_whitespace s.
Proof.
  unfold PyStr.strip. rewrite non_whitespace_rstrip. apply non_whitespace_lstrip.
Qed.

(** ** Chunker: identifiers and provenance *)

Section ChunkMetadataProperties.

Import DocumentProcessor.

Variable split_text : string -> list string.
Variable file_path : Path.
Variable upload_timestamp : string.

Abbreviation well_labelled := (well_labelled file_path upload_timestamp).
Abbreviation all_well_labelled := (all_well_labelled file_path upload_timestamp).

Lemma text_chunk_well_labelled doc i piece :
  well_labelled doc i (text_chunk file_path upload_timestamp doc i piece).
Proof.
  unfold well_labelled, text_chunk. simpl.
  repeat split;
    try (repeat (rewrite lookup_insert_ne by discriminate);
         rewrite ?lookup_insert_eq; reflexivity).
  - left. repeat (rewrite lookup_insert_ne by discriminate).
    rewrite lookup_insert_eq. reflexivity.
  - intros key Hkey. simpl in Hkey.
    repeat (rewrite lookup_insert_ne by (intros <-; tauto)). reflexivity.
Qed.

Lemma table_chunk_well_labelled doc i table :
  well_labelled doc i (table_chunk file_path upload_timestamp doc i table).
Proof.
  unfold well_labelled, table_chunk. simpl.
  repeat split;
    try (repeat (rewrite lookup_insert_ne by discriminate);
         rewrite ?lookup_insert_eq; reflexivity).
  - right. split;
      repeat (rewrite lookup_insert_ne by discriminate);
      rewrite lookup_insert_eq; reflexivity.
  - intros key Hkey. simpl in Hkey.
    repeat (rewrite lookup_insert_ne by (intros <-; tauto)). reflexivity.
Qed.

Lemma plain_chunk_well_labelled doc total i piece :
  well_labelled doc i (plain_chunk file_path upload_timestamp doc total i piece).
Proof.
  unfold well_labelled, plain_chunk. simpl.
  repeat split;
    try (repeat (rewrite lookup_insert_ne by discriminate);
         rewrite ?lookup_insert_eq; reflexivity).
  - left. repeat (rewrite lookup_insert_ne by discriminate).
    rewrite lookup_insert_eq. reflexivity.
  - intros key Hkey. simpl in Hkey.
    repeat (rewrite lookup_insert_ne by (intros <-; tauto)). reflexivity.
Qed.

Lemma all_well_labelled_snoc doc chunks chunk :
  all_well_labelled doc chunks ->
  well_labelled doc (length chunks) chunk ->
  all_well_labelled doc (chunks ++ [chunk]).
Proof.
  intros Hall Hnew i c Hi.
  destruct (Nat.lt_ge_cases i (length chunks)) as [Hlt|Hge].
  - rewrite nth_error_app1 in Hi by exact Hlt. apply Hall. exact Hi.
  - rewrite nth_error_app2 in Hi by exact Hge.
    destruct (i - length chunks) as [|j] eqn:E; simpl in Hi.
    + injection Hi as <-. replace i with (length chunks) by lia. exact Hnew.
    + destruct j; discriminate.
Qed.

Lemma append_text_chunks_well_labelled doc pieces chunks :
  all_well_labelled doc chunks ->
  all_well_labelled doc
    (append_text_chunks file_path upload_timestamp doc chunks pieces).
Proof.
  unfold append_text_chunks. revert chunks.
  induction pieces as [|piece pieces IH]; intros chunks H; simpl; [exact H|].
  apply IH. apply all_well_labelled_snoc; [exact H|].
  apply text_chunk_well_labelled.
Qed.

Lemma append_text_well_labelled doc chunks text :
  all_well_labelled doc chunks ->
  all_well_labelled doc
    (append_text split_text file_path upload_timestamp doc chunks text).
Proof.
  intros H. unfold append_text. destruct (PyStr.truthy (PyStr.strip text)).
  - apply append_text_chunks_well_labelled. exact H.
  - exact H.
Qed.

Lemma fold_table_step_well_labelled doc tables chunks pos :
  all_well_labelled doc chunks ->
  all_well_labelled doc
    (fst (fold_left (table_step split_text file_path upload_timestamp doc)
            tables (chunks, pos))).
Proof.
  revert chunks pos.
  induction tables as [|table tables IH]; intros chunks pos H;
    cbn [fold_left]; [exact H|].
  unfold table_step at 2. cbn [fst snd]. apply IH.
  apply all_well_labelled_snoc.
  - destruct (pos <? start_pos table); [|exact H].
    apply append_text_well_labelled. exact H.
  - apply table_chunk_well_labelled.
Qed.

Lemma chunk_with_tables_well_labelled doc tables :
  all_well_labelled doc
    (_chunk_with_tables split_text file_path upload_timestamp doc tables).
Proof.
  unfold _chunk_with_tables.
  pose proof (fold_table_step_well_labelled doc (sort_tables tables) [] 0) as H.
  destruct (fold_left (table_step split_text file_path upload_timestamp doc)
              (sort_tables tables) ([], 0)) as [chunks pos].
  simpl in H.
  assert (Hc : all_well_labelled doc chunks).
  { apply H. intros [|i] c; discriminate. }
  destruct (pos <? String.length (page_content doc)); [|exact Hc].
  apply append_text_well_labelled. exact Hc.
Qed.

Lemma plain_chunks_nth doc total pieces i j chunk :
  nth_error
    (map (fun ic => plain_chunk file_path upload_timestamp doc total (fst ic) (snd ic))
       (enumerate_from i pieces)) j = Some chunk ->
  exists piece,
    nth_error pieces j = Some piece
    /\ chunk = plain_chunk file_path upload_timestamp doc total (i + j) piece.
Proof.
  revert i j. induction pieces as [|p pieces IH]; intros i j H.
  - destruct j; discriminate.
  - destruct j as [|j]; simpl in H.
    + injection H as <-. exists p. rewrite Nat.add_0_r. split; reflexivity.
    + destruct (IH (S i) j H) as (piece & Hp & ->).
      exists piece. split; [exact Hp|]. f_equal. lia.
Qed.

(** X1.  In the chunk list of a document every chunk carries its own position
    as [chunk_id] (counting from 0 across text and table chunks), the
    document's path, file name and upload time, and content_type "text" or
    "table"; a table chunk at position i has table_id "table_i"; every other
    metadata key of the loaded document (page, source, ...) is passed on
    unchanged. *)
Theorem chunks_well_labelled (doc : Document) :
  all_well_labelled doc
    (_process_documents split_text file_path upload_timestamp [doc]).
Proof.
  unfold _process_documents. cbn [flat_map]. rewrite app_nil_r.
  unfold process_document.
  destruct (_extract_tables (page_content doc)) as [|t rest].
  - intros i chunk Hi.
    destruct (plain_chunks_nth _ _ _ _ _ _ Hi) as (piece & _ & ->).
    apply plain_chunk_well_labelled.
  - apply chunk_with_tables_well_labelled.
Qed.

(** X2.  A document in which no table region is detected goes to the splitter
    whole: there is one chunk per piece the splitter returns, in the same
    order, with the piece as text and the number of pieces as
    [total_chunks]; when the splitter returns nothing there is no chunk. *)
Theorem plain_document_chunks (doc : Document) :
  _extract_tables (page_content doc) = [] ->
  let chunks := _process_documents split_text file_path upload_timestamp [doc] in
  let pieces := split_text (page_content doc) in
  map page_content chunks = pieces
  /\ (forall chunk, In chunk chunks ->
        metadata chunk !! "total_chunks" = Some (MInt (Z.of_nat (length pieces)))
        /\ metadata chunk !! "content_type" = Some (MStr "text")).
Proof.
  intros Hno chunks pieces. subst chunks.
  unfold _process_documents. cbn [flat_map]. rewrite app_nil_r.
  unfold process_document. rewrite Hno. fold pieces. split.
  - generalize (length pieces) as total. generalize 0 as i.
    induction pieces as [|p ps IH]; intros i total; simpl; [reflexivity|].
    f_equal. apply IH.
  - intros chunk Hin. apply In_nth_error in Hin as [j Hj].
    destruct (plain_chunks_nth _ _ _ _ _ _ Hj) as (piece & _ & ->).
    unfold plain_chunk. simpl. split.
    + rewrite lookup_insert_eq. reflexivity.
    + repeat (rewrite lookup_insert_ne by discriminate).
      rewrite lookup_insert_eq. reflexivity.
Qed.

Lemma append_text_chunks_total doc key pieces chunks :
  (forall chunk, In chunk chunks -> metadata chunk !! key = metadata doc !! key) ->
  key = "total_chunks" ->
  forall chunk,
    In chunk (append_text_chunks file_path upload_timestamp doc chunks pieces) ->
    metadata chunk !! key = metadata doc !! key.
Proof.
  intros H ->. unfold append_text_chunks. revert chunks H.
  induction pieces as [|piece pieces IH]; intros chunks H; simpl; [exact H|].
  apply IH. intros chunk Hin. apply in_app_or in Hin as [Hin|[<-|[]]].
  - apply H. exact Hin.
  - unfold text_chunk. simpl.
    repeat (rewrite lookup_insert_ne by discriminate). reflexivity.
Qed.

(** X3.  When table regions are detected, the chunker does not set
    [total_chunks]: every chunk has the value of the loaded document's
    metadata for that key (none, when the loader gave none). *)
Theorem table_document_total_chunks (doc : Document) :
  _extract_tables (page_content doc) <> [] ->
  forall chunk,
    In chunk (_process_documents split_text file_path upload_timestamp [doc]) ->
    metadata chunk !! "total_chunks" = metadata doc !! "total_chunks".
Proof.
  intros Hsome chunk.
  unfold _process_documents. cbn [flat_map]. rewrite app_nil_r.
  unfold process_document.
  destruct (_extract_tables (page_content doc)) as [|t rest] eqn:E;
    [congruence|].
  unfold _chunk_with_tables.
  assert (Hfold : forall tables chunks pos,
            (forall c, In c chunks ->
               metadata c !! "total_chunks" = metadata doc !! "total_chunks") ->
            forall c,
              In c (fst (fold_left
                           (table_step split_text file_path upload_timestamp doc)
                           tables (chunks, pos))) ->
              metadata c !! "total_chunks" = metadata doc !! "total_chunks").
  { induction tables as [|table tables IH]; intros chunks pos H;
      cbn [fold_left]; [exact H|].
    unfold table_step at 2. cbn [fst snd]. apply IH.
    intros c Hin. apply in_app_or in Hin as [Hin|[<-|[]]].
    - destruct (pos <? start_pos table); [|apply H; exact Hin].
      unfold append_text in Hin.
      destruct (PyStr.truthy _); [|apply H; exact Hin].
      apply (append_text_chunks_total doc "total_chunks" _ chunks H eq_refl c Hin).
    - unfold table_chunk. simpl.
      repeat (rewrite lookup_insert_ne by discriminate). reflexivity. }
  pose proof (Hfold (sort_tables (t :: rest)) [] 0) as H.
  destruct (fold_left (table_step split_text file_path upload_timestamp doc)
              (sort_tables (t :: rest)) ([], 0)) as [chunks pos].
  simpl in H.
  assert (Hc : forall c, In c chunks ->
                 metadata c !! "total_chunks" = metadata doc !! "total_chunks").
  { apply H. intros c []. }
  destruct (pos <? String.length (page_content doc)); [|apply Hc].
  unfold append_text. destruct (PyStr.truthy _); [|apply Hc].
  apply (append_text_chunks_total doc "total_chunks" _ chunks Hc eq_refl).
Qed.

End ChunkMetadataProperties.

(** ** Chunker: the detected regions *)

(** A successful match hands to its continuation a rest that is not longer
    than the subject, and shorter when the pattern consumes. *)
Lemma rmatch_consumed (r : Re.regex) :
  forall s k x,
    Re.rmatch r s k = Some x ->
    exists rest,
      k rest = Some x
      /\ String.length rest <= String.length s
      /\ (consumes r = true -> String.length rest < String.length s).
Proof.
  induction r as [cls| |r1 IH1 r2 IH2|r1 IH1 r2 IH2|r1 IH1|r1 IH1|r1 IH1|];
    intros s k x H; cbn [Re.rmatch] in H.
  - destruct s as [|c s]; [discriminate|].
    destruct (cls c); [|discriminate].
    exists s. simpl. split; [exact H|]. split; lia.
  - exists s. simpl. split; [exact H|]. split; [lia|discriminate].
  - destruct (IH1 _ _ _ H) as (s1 & H1 & L1 & C1).
    destruct (IH2 _ _ _ H1) as (s2 & H2 & L2 & C2).
    exists s2. split; [exact H2|]. split; [lia|].
    simpl. intros Hc. apply orb_prop in Hc as [Hc|Hc].
    + specialize (C1 Hc). lia.
    + specialize (C2 Hc). lia.
  - destruct (Re.rmatch r1 s k) as [y|] eqn:E.
    + injection H as <-.
      destruct (IH1 _ _ _ E) as (s1 & H1 & L1 & C1).
      exists s1. split; [exact H1|]. split; [exact L1|].
      simpl. intros Hc. apply andb_prop in Hc as [Hc _]. auto.
    + destruct (IH2 _ _ _ H) as (s2 & H2 & L2 & C2).
      exists s2. split; [exact H2|]. split; [exact L2|].
      simpl. intros Hc. apply andb_prop in Hc as [_ Hc]. auto.
  - revert H. generalize (String.length s) at 1. intros n. revert s x.
    induction n as [|n IHn]; intros s x H.
    + exists s. split; [exact H|]. split; [lia|discriminate].
    + destruct (Re.rmatch r1 s _) as [y|] eqn:E in H.
      * injection H as <-.
        destruct (IH1 _ _ _ E) as (s1 & H1 & L1 & _).
        destruct (String.length s1 <? String.length s); [|discriminate].
        destruct (IHn _ _ H1) as (s2 & H2 & L2 & _).
        exists s2. split; [exact H2|]. split; [lia|discriminate].
      * exists s. split; [exact H|]. split; [lia|discriminate].
  - revert H. generalize (String.length s) at 1. intros n. revert s x.
    induction n as [|n IHn]; intros s x H.
    + exists s. split; [exact H|]. split; [lia|discriminate].
    + destruct (k s) as [y|] eqn:Ek.
      * injection H as <-. exists s. split; [exact Ek|].
        split; [lia|discriminate].
      * destruct (IH1 _ _ _ H) as (s1 & H1 & L1 & _).
        destruct (String.length s1 <? String.length s); [|discriminate].
        destruct (IHn _ _ H1) as (s2 & H2 & L2 & _).
        exists s2. split; [exact H2|]. split; [lia|discriminate].
  - destruct (Re.rmatch r1 s Some); [|discriminate].
    exists s. split; [exact H|]. split; [lia|discriminate].
  - destruct s; [|discriminate].
    exists "". split; [exact H|]. split; [simpl; lia|discriminate].
Qed.

Lemma ordered_spans_weaken (from from' : nat) (spans : list (nat * nat)) :
  from' <= from -> ordered_spans from spans -> ordered_spans from' spans.
Proof.
  destruct spans as [|span rest]; simpl; [auto|].
  intros Hle (H1 & H2 & H3). repeat split; [lia|exact H2|exact H3].
Qed.

(** The matches of one pattern: in order, without overlap, inside the
    subject, and not empty when the pattern consumes. *)
Lemma finditer_from_ordered (r : Re.regex) (fuel : nat) :
  forall pos s,
    ordered_spans pos (Re.finditer_from r fuel pos s)
    /\ Forall (fun span => snd span <= pos + String.length s)
         (Re.finditer_from r fuel pos s)
    /\ (consumes r = true ->
        Forall (fun span => fst span < snd span) (Re.finditer_from r fuel pos s)).
Proof.
  induction fuel as [|fuel IH]; intros pos s; cbn [Re.finditer_from].
  - repeat split; constructor.
  - assert (Hskip :
      let skip := match s with
                  | EmptyString => []
                  | String _ s' => Re.finditer_from r fuel (S pos) s'
                  end in
      ordered_spans pos skip
      /\ Forall (fun span => snd span <= pos + String.length s) skip
      /\ (consumes r = true -> Forall (fun span => fst span < snd span) skip)).
    { destruct s as [|c s']; cbn zeta.
      - repeat split; constructor.
      - destruct (IH (S pos) s') as (H1 & H2 & H3).
        split; [apply (ordered_spans_weaken (S pos)); [lia|exact H1]|].
        split; [|exact H3].
        eapply List.Forall_impl; [|exact H2]. simpl. intros span Hs. lia. }
    cbn zeta in Hskip.
    destruct (Re.rmatch r s Some) as [rest|] eqn:E; [|exact Hskip].
    destruct (rmatch_consumed r s Some rest E) as (rest' & Hr & Hlen & Hcons).
    injection Hr as ->.
    destruct (pos + (String.length s - String.length rest) =? pos) eqn:Ee.
    + apply Nat.eqb_eq in Ee.
      destruct Hskip as (H1 & H2 & H3).
      split; [|split].
      * cbn [ordered_spans fst snd]. split; [lia|]. split; [lia|].
        rewrite Ee. exact H1.
      * constructor; [simpl; lia|exact H2].
      * intros Hc. specialize (Hcons Hc). lia.
    + destruct (IH (pos + (String.length s - String.length rest)) rest)
        as (H1 & H2 & H3).
      split; [|split].
      * cbn [ordered_spans fst snd]. split; [lia|]. split; [lia|exact H1].
      * constructor; [simpl; lia|].
        eapply List.Forall_impl; [|exact H2]. simpl. intros span Hs. lia.
      * intros Hc. constructor; [simpl; specialize (Hcons Hc); lia|auto].
Qed.

Section RegionProperties.

Import DocumentProcessor.

Lemma table_patterns_consume :
  forall pattern, In pattern table_patterns -> consumes pattern = true.
Proof. intros pattern [<-|[<-|[<-|[]]]]; reflexivity. Qed.

(** X4.  Every detected table region lies inside the document and is not
    empty: its start is before its end, its end is at most the length of the
    text, and its text has exactly [end_pos - start_pos] characters. *)
Theorem extract_tables_bounds (content : string) (t : Table) :
  In t (_extract_tables content) ->
  start_pos t < end_pos t
  /\ end_pos t <= String.length content
  /\ String.length (tbl_text t) = end_pos t - start_pos t.
Proof.
  unfold _extract_tables. intros H.
  apply in_flat_map in H as (pattern & Hp & H).
  apply in_map_iff in H as (span & <- & Hspan). cbn [start_pos end_pos tbl_text].
  destruct (finditer_from_ordered pattern (S (String.length content)) 0 content)
    as (_ & Hin & Hne).
  specialize (Hne (table_patterns_consume pattern Hp)).
  unfold Re.finditer in Hspan.
  rewrite List.Forall_forall in Hin, Hne.
  specialize (Hin span Hspan). specialize (Hne span Hspan). simpl in Hin.
  split; [exact Hne|]. split; [exact Hin|].
  unfold PyStr.slice. apply substring_length. lia.
Qed.

Lemma ordered_spans_tables (content : string) (from : nat)
  (spans : list (nat * nat)) :
  ordered_spans from spans ->
  ordered_tables from
    (map (fun m : nat * nat =>
            {| tbl_text := PyStr.slice content (fst m) (snd m);
               start_pos := fst m;
               end_pos := snd m;
               tbl_type := "structured_table" |})
       spans).
Proof.
  revert from. induction spans as [|span rest IH]; intros from; simpl; [auto|].
  intros (H1 & H2 & H3). repeat split; auto.
Qed.

Lemma ordered_tables_from (from : nat) (tables : list Table) :
  ordered_tables from tables ->
  forall t, In t tables -> from <= start_pos t.
Proof.
  revert from. induction tables as [|table rest IH]; intros from; [intros _ t []|].
  cbn [ordered_tables]. intros (Hfrom & Hspan & Hrest) t [<-|Hin]; [exact Hfrom|].
  specialize (IH _ Hrest t Hin). lia.
Qed.

Lemma ordered_tables_apart (from : nat) (tables : list Table) :
  ordered_tables from tables ->
  forall i j t t',
    i < j ->
    nth_error tables i = Some t ->
    nth_error tables j = Some t' ->
    end_pos t <= start_pos t'.
Proof.
  revert from. induction tables as [|table rest IH]; intros from.
  - intros _ [|i] j t t' _ Hi; discriminate Hi.
  - cbn [ordered_tables]. intros (_ & _ & Hrest) i j t t' Hlt Hi Hj.
    destruct j as [|j]; [lia|]. cbn [nth_error] in Hj.
    destruct i as [|i]; cbn [nth_error] in Hi.
    + injection Hi as <-.
      exact (ordered_tables_from _ _ Hrest t' (List.nth_error_In _ _ Hj)).
    + apply (IH _ Hrest i j t t'); [lia|exact Hi|exact Hj].
Qed.

(** X5.  The table list is made of three groups, one per pattern and in the
    order of the patterns: the matches of the Markdown pattern, then those of
    the space-aligned pattern, then those of the table-reference pattern.
    The matches of one pattern are listed from left to right and do not
    overlap: each ends where a later one starts, or before.  Two regions can
    therefore only overlap when different patterns found them. *)
Theorem extract_tables_groups (content : string) :
  _extract_tables content
  = regions_of markdown_table_pattern content
    ++ regions_of space_table_pattern content
    ++ regions_of table_reference_pattern content
  /\ (forall pattern,
        ordered_tables 0 (regions_of pattern content)
        /\ (forall i j t t',
              i < j ->
              nth_error (regions_of pattern content) i = Some t ->
              nth_error (regions_of pattern content) j = Some t' ->
              end_pos t <= start_pos t')).
Proof.
  split.
  - unfold _extract_tables, table_patterns, regions_of. cbn [flat_map].
    rewrite app_nil_r. reflexivity.
  - intros pattern.
    assert (Hordered : ordered_tables 0 (regions_of pattern content)).
    { unfold regions_of. apply ordered_spans_tables. unfold Re.finditer.
      apply finditer_from_ordered. }
    split; [exact Hordered|]. exact (ordered_tables_apart 0 _ Hordered).
Qed.

End RegionProperties.

(** ** Chunker: documents whose regions do not overlap *)

Lemma concat_empty_cons (x : string) (xs : list string) :
  String.concat "" (x :: xs) = x +:+ String.concat "" xs.
Proof.
  destruct xs as [|y ys]; [|reflexivity].
  simpl. symmetry. apply string_app_empty_r.
Qed.

Lemma concat_empty_app (xs ys : list string) :
  String.concat "" (xs ++ ys) = String.concat "" xs +:+ String.concat "" ys.
Proof.
  induction xs as [|x xs IH]; [reflexivity|].
  rewrite <- app_comm_cons, !concat_empty_cons, IH.
  symmetry. apply string_app_assoc.
Qed.

Lemma substring_beyond (s : string) (n : nat) :
  String.length s <= n -> substring 0 n s = s.
Proof.
  revert n. induction s as [|c s IH]; intros n H.
  - destruct n; reflexivity.
  - destruct n as [|n]; simpl in H; [lia|].
    cbn [substring]. f_equal. apply IH. lia.
Qed.

Section PartitionProperties.

Import DocumentProcessor.

Variable split_text : string -> list string.
Variable file_path : Path.
Variable upload_timestamp : string.

(** The splitter neither drops nor repeats a character that is not white
    space. *)
Hypothesis split_text_preserves :
  forall text,
    PyStr.non_whitespace (String.concat "" (split_text text))
    = PyStr.non_whitespace text.

Local Abbreviation content_of chunks :=
  (PyStr.non_whitespace (String.concat "" (map page_content chunks))).

Lemma append_text_chunks_texts doc pieces chunks :
  map page_content
    (append_text_chunks file_path upload_timestamp doc chunks pieces)
  = map page_content chunks ++ pieces.
Proof.
  unfold append_text_chunks. revert chunks.
  induction pieces as [|piece pieces IH]; intros chunks; simpl.
  - symmetry. apply app_nil_r.
  - rewrite IH, map_app, <- app_assoc. reflexivity.
Qed.

Lemma append_text_content doc chunks text :
  content_of (append_text split_text file_path upload_timestamp doc chunks text)
  = content_of chunks +:+ PyStr.non_whitespace text.
Proof.
  unfold append_text.
  destruct (PyStr.strip text) as [|c rest] eqn:E; cbn [PyStr.truthy].
  - rewrite <- (non_whitespace_strip text), E. simpl.
    symmetry. apply string_app_empty_r.
  - rewrite append_text_chunks_texts, concat_empty_app, non_whitespace_app.
    rewrite split_text_preserves, <- E, non_whitespace_strip. reflexivity.
Qed.

Lemma table_step_content doc chunks pos table :
  pos <= start_pos table ->
  start_pos table <= end_pos table ->
  tbl_text table
  = PyStr.slice (page_content doc) (start_pos table) (end_pos table) ->
  let st := table_step split_text file_path upload_timestamp doc (chunks, pos)
              table in
  snd st = end_pos table
  /\ content_of (fst st)
     = content_of chunks
       +:+ PyStr.non_whitespace (PyStr.slice (page_content doc) pos (end_pos table)).
Proof.
  intros Hps Hse Htext. unfold table_step. cbn [fst snd]. split; [reflexivity|].
  rewrite map_app, concat_empty_app, non_whitespace_app.
  cbn [map page_content table_chunk]. rewrite concat_empty_cons.
  cbn [String.concat]. rewrite string_app_empty_r, Htext.
  rewrite <- (slice_adjacent (page_content doc) pos (start_pos table)
                (end_pos table) Hps Hse).
  rewrite non_whitespace_app, <- string_app_assoc. f_equal.
  destruct (pos <? start_pos table) eqn:E.
  - apply append_text_content.
  - apply Nat.ltb_ge in E. assert (pos = start_pos table) as -> by lia.
    unfold PyStr.slice. rewrite Nat.sub_diag, substring_zero_length.
    simpl. symmetry. apply string_app_empty_r.
Qed.

Lemma fold_table_step_content doc tables :
  forall chunks pos,
    ordered_tables pos tables ->
    (forall t, In t tables ->
       tbl_text t = PyStr.slice (page_content doc) (start_pos t) (end_pos t)) ->
    let st := fold_left (table_step split_text file_path upload_timestamp doc)
                tables (chunks, pos) in
    pos <= snd st
    /\ content_of (fst st)
       = content_of chunks
         +:+ PyStr.non_whitespace (PyStr.slice (page_content doc) pos (snd st)).
Proof.
  induction tables as [|table tables IH]; intros chunks pos Hord Htext;
    cbn [fold_left].
  - cbn [fst snd]. split; [lia|].
    unfold PyStr.slice. rewrite Nat.sub_diag, substring_zero_length.
    simpl. symmetry. apply string_app_empty_r.
  - destruct Hord as (Hps & Hse & Hrest).
    destruct (table_step_content doc chunks pos table Hps Hse
                (Htext table (or_introl eq_refl))) as (Hpos & Hcontent).
    destruct (table_step split_text file_path upload_timestamp doc (chunks, pos)
                table) as [chunks1 pos1].
    cbn [fst snd] in Hpos, Hcontent. subst pos1.
    destruct (IH chunks1 (end_pos table) Hrest
                (fun t Ht => Htext t (or_intror Ht))) as (Hle & Hc).
    cbn zeta. split; [lia|].
    rewrite Hc, Hcontent, string_app_assoc, <- non_whitespace_app.
    rewrite slice_adjacent by lia. reflexivity.
Qed.

Lemma plain_chunks_texts doc total pieces i :
  map page_content
    (map (fun ic => plain_chunk file_path upload_timestamp doc total (fst ic) (snd ic))
       (enumerate_from i pieces))
  = pieces.
Proof.
  revert i. induction pieces as [|p ps IH]; intros i; simpl; [reflexivity|].
  f_equal. apply IH.
Qed.

(** X6.  With a splitter that neither drops nor repeats non-white-space
    characters, a document whose detected regions, sorted by start, do not
    overlap is chunked without loss: the chunk texts, put together in chunk
    order, have exactly the non-white-space content of the document. *)
Theorem disjoint_regions_preserve_content (doc : Document) :
  ordered_tables 0 (sort_tables (_extract_tables (page_content doc))) ->
  PyStr.non_whitespace
    (String.concat ""
       (map page_content
          (_process_documents split_text file_path upload_timestamp [doc])))
  = PyStr.non_whitespace (page_content doc).
Proof.
  intros Hord.
  unfold _process_documents. cbn [flat_map]. rewrite app_nil_r.
  unfold process_document.
  destruct (_extract_tables (page_content doc)) as [|t rest] eqn:E.
  - rewrite plain_chunks_texts. apply split_text_preserves.
  - rewrite <- E in *. unfold _chunk_with_tables.
    assert (Htext : forall u,
              In u (sort_tables (_extract_tables (page_content doc))) ->
              tbl_text u
              = PyStr.slice (page_content doc) (start_pos u) (end_pos u)).
    { intros u Hu. apply extract_tables_verbatim.
      eapply Permutation_in; [apply sort_tables_permutation|exact Hu]. }
    destruct (fold_table_step_content doc _ [] 0 Hord Htext) as (_ & Hc).
    destruct (fold_left (table_step split_text file_path upload_timestamp doc)
                (sort_tables (_extract_tables (page_content doc))) ([], 0))
      as [chunks pos].
    cbn [fst snd] in Hc.
    change (content_of chunks
            = PyStr.non_whitespace (PyStr.slice (page_content doc) 0 pos)) in Hc.
    destruct (pos <? String.length (page_content doc)) eqn:Epos.
    + apply Nat.ltb_lt in Epos.
      rewrite append_text_content, Hc, <- non_whitespace_app.
      unfold PyStr.slice, PyStr.slice_from.
      rewrite Nat.sub_0_r.
      rewrite (substring_adjacent (page_content doc) 0 pos).
      replace (pos + (String.length (page_content doc) - pos))
        with (String.length (page_content doc)) by lia.
      rewrite substring_whole. reflexivity.
    + apply Nat.ltb_ge in Epos. rewrite Hc.
      unfold PyStr.slice. rewrite Nat.sub_0_r, substring_beyond by exact Epos.
      reflexivity.
Qed.

End PartitionProperties.

Lemma disjoint_regions_preserve_content_witness :
  let whole := fun text : string => [text] in
  let doc :=
    {| page_content := "Rates" +:+ PyStr.nl +:+ "| a | b |" +:+ PyStr.nl +:+ "end";
       metadata := ∅ |} in
  ordered_tables 0
    (DocumentProcessor.sort_tables
       (DocumentProcessor._extract_tables (page_content doc)))
  /\ PyStr.non_whitespace
       (String.concat ""
          (map page_content
             (DocumentProcessor._process_documents whole
                (DocumentProcessor.mkPath "docs/rates.txt" "rates.txt")
                "2024-01-01T00:00:00" [doc])))
     = PyStr.non_whitespace (page_content doc).
Proof.
  intros whole doc.
  assert (Hord : ordered_tables 0
            (DocumentProcessor.sort_tables
               (DocumentProcessor._extract_tables (page_content doc)))).
  { vm_compute. repeat split; lia. }
  split; [exact Hord|].
  apply (disjoint_regions_preserve_content whole
           (DocumentProcessor.mkPath "docs/rates.txt" "rates.txt")
           "2024-01-01T00:00:00"
           (fun text => eq_refl)
           doc Hord).
Defined.

(** ** Index: listing, deleting and adding *)

Lemma collect_documents_firstn (limit i : nat)
  (entries : list (string * gmap string MVal)) :
  VectorStore.collect_documents limit i entries
  = firstn (limit - i) (map document_of_entry entries).
Proof.
  revert i. induction entries as [|[content meta] entries IH]; intros i; simpl.
  - destruct (limit - i); reflexivity.
  - destruct (limit <=? i) eqn:E.
    + apply Nat.leb_le in E. replace (limit - i) with 0 by lia. reflexivity.
    + apply Nat.leb_gt in E. rewrite IH.
      replace (limit - i) with (S (limit - S i)) by lia. reflexivity.
Qed.

Section IndexProperties.
Context {World : Type} (caps : Capabilities World).

Import VectorStore.

Lemma get_all_documents_ok (limit : nat) (st : St World) entries w :
  chroma_get caps (world st) = (Ok entries, w) ->
  get_all_documents caps limit st
  = (Ok (firstn limit (map document_of_entry entries)),
     {| world := w; trace := trace st ++ [EvGet] |}).
Proof.
  intros H. unfold get_all_documents, try_catch, bind, call, ret. rewrite H.
  rewrite collect_documents_firstn, Nat.sub_0_r. reflexivity.
Qed.

(** X7.  [get_all_documents(limit)] returns the first [limit] entries of the
    collection, in the order the collection lists them, and never more than
    [limit] documents. *)
Theorem get_all_documents_prefix (limit : nat) (st : St World) entries w :
  chroma_get caps (world st) = (Ok entries, w) ->
  exists documents,
    get_all_documents caps limit st
    = (Ok documents, {| world := w; trace := trace st ++ [EvGet] |})
    /\ documents = firstn limit (map document_of_entry entries)
    /\ length documents <= limit.
Proof.
  intros H. eexists. split; [apply (get_all_documents_ok limit st entries w H)|].
  split; [reflexivity|]. apply firstn_le_length.
Qed.

Lemma get_all_documents_raise (limit : nat) (st : St World) e w :
  chroma_get caps (world st) = (Raise e, w) ->
  get_all_documents caps limit st
  = (Raise ("Failed to get all documents: " +:+ e),
     {| world := w; trace := trace st ++ [EvGet] |}).
Proof.
  intros H. unfold get_all_documents, try_catch, bind, call, raise.
  rewrite H. reflexivity.
Qed.

Lemma delete_none_selected (source_path : string) (st : St World) entries w :
  chroma_get caps (world st) = (Ok entries, w) ->
  List.filter (has_source source_path)
    (firstn 1000 (map document_of_entry entries)) = [] ->
  delete_documents_by_source caps source_path st
  = (Ok VNone,
     {| world := w;
        trace := (trace st ++ [EvGet])
                 ++ [EvPrint ("No documents found for source: " +:+ source_path)] |}).
Proof.
  intros Hget Hnone. unfold delete_documents_by_source, try_catch, bind.
  rewrite (get_all_documents_ok 1000 st entries w Hget), Hnone. reflexivity.
Qed.

Lemma delete_unlisted (source_path : string) (st : St World) e w :
  chroma_get caps (world st) = (Raise e, w) ->
  delete_documents_by_source caps source_path st
  = (Raise ("Failed to delete documents by source: "
            +:+ ("Failed to get all documents: " +:+ e)),
     {| world := w; trace := trace st ++ [EvGet] |}).
Proof.
  intros H. unfold delete_documents_by_source, try_catch, bind.
  rewrite (get_all_documents_raise 1000 st e w H). reflexivity.
Qed.

(** X8.  [delete_documents_by_source p] looks at the first 1000 entries only.
    When none of them has [file_path] equal to [p], it prints that nothing
    was found and returns without calling [delete].  Otherwise it hands to
    [delete] exactly those of the first 1000 entries whose [file_path] is
    [p], in order, in one call; a failure of that call is raised again as
    "Failed to delete documents by source: ...". *)
Theorem delete_documents_by_source_selection (source_path : string)
  (st : St World) entries w :
  chroma_get caps (world st) = (Ok entries, w) ->
  let selected :=
    List.filter (has_source source_path)
      (firstn 1000 (map document_of_entry entries)) in
  (selected = [] ->
   delete_documents_by_source caps source_path st
   = (Ok VNone,
      {| world := w;
         trace := (trace st ++ [EvGet])
                  ++ [EvPrint ("No documents found for source: " +:+ source_path)] |}))
  /\ (selected <> [] ->
      forall w',
        (chroma_delete caps selected w = (Ok tt, w') ->
         delete_documents_by_source caps source_path st
         = (Ok VNone,
            {| world := w';
               trace := ((trace st ++ [EvGet]) ++ [EvDelete selected])
                        ++ [EvPrint ("Deleted " +:+ PyStr.str_of_nat (length selected)
                                     +:+ " chunks from " +:+ source_path)] |}))
        /\ (forall e,
              chroma_delete caps selected w = (Raise e, w') ->
              delete_documents_by_source caps source_path st
              = (Raise ("Failed to delete documents by source: " +:+ e),
                 {| world := w';
                    trace := (trace st ++ [EvGet]) ++ [EvDelete selected] |}))).
Proof.
  intros Hget selected. split.
  - intros Hnone. apply (delete_none_selected source_path st entries w Hget Hnone).
  - intros Hsome w'. split.
    + intros Hdel. unfold delete_documents_by_source, try_catch, bind.
      rewrite (get_all_documents_ok 1000 st entries w Hget).
      fold selected. destruct selected as [|d ds] eqn:E; [congruence|].
      unfold call, print, ret. cbn [world trace]. rewrite Hdel. reflexivity.
    + intros e Hdel. unfold delete_documents_by_source, try_catch, bind.
      rewrite (get_all_documents_ok 1000 st entries w Hget).
      fold selected. destruct selected as [|d ds] eqn:E; [congruence|].
      unfold call, print, ret, raise. cbn [world trace]. rewrite Hdel.
      reflexivity.
Qed.

(** X9.  When the collection cannot be listed, [delete_documents_by_source]
    raises "Failed to delete documents by source: Failed to get all
    documents: ..." and has not called [delete]. *)
Theorem delete_documents_by_source_unlisted (source_path : string)
  (st : St World) e w :
  chroma_get caps (world st) = (Raise e, w) ->
  delete_documents_by_source caps source_path st
  = (Raise ("Failed to delete documents by source: "
            +:+ ("Failed to get all documents: " +:+ e)),
     {| world := w; trace := trace st ++ [EvGet] |}).
Proof.
  intros H. apply (delete_unlisted source_path st e w H).
Qed.

End IndexProperties.

(** ** Index: deletion by source on Chroma *)

Section DeletionProperties.
Context {World : Type} (caps : Capabilities World).

Import VectorStore.

(** C7.  On a collection whose [delete] rejects the keyword [documents], as
    Chroma's does, [delete_documents_by_source p] deletes nothing when chunks
    of [p] are stored: it lists the collection, hands the chunks of [p] to
    [delete], and raises "Failed to delete documents by source: ..." with
    the collection as the listing left it.  No count is returned. *)
Theorem delete_documents_by_source_rejected (source_path : string)
  (st : St World) entries w e :
  chroma_get caps (world st) = (Ok entries, w) ->
  (forall documents w0, chroma_delete caps documents w0 = (Raise e, w0)) ->
  let selected :=
    List.filter (has_source source_path)
      (firstn 1000 (map document_of_entry entries)) in
  selected <> [] ->
  delete_documents_by_source caps source_path st
  = (Raise ("Failed to delete documents by source: " +:+ e),
     {| world := w; trace := (trace st ++ [EvGet]) ++ [EvDelete selected] |}).
Proof.
  intros Hget Hdelete selected Hselected.
  unfold delete_documents_by_source, try_catch, bind.
  rewrite (get_all_documents_ok caps 1000 st entries w Hget).
  fold selected. destruct selected as [|doc rest] eqn:Es; [congruence|].
  unfold call. cbn [world trace]. rewrite Hdelete. reflexivity.
Qed.

End DeletionProperties.

Lemma delete_documents_by_source_rejected_witness :
  let caps := ListStore.chroma ListStore.score_of ListStore.llm_echo
                ListStore.loads_fail in
  let stored := [ListStore.rates_chunk; ListStore.audit_chunk; ListStore.rates_chunk] in
  let st' :=
    {| world := stored;
       trace := [EvGet; EvDelete [ListStore.rates_chunk; ListStore.rates_chunk]] |} in
  VectorStore.delete_documents_by_source caps "docs/rates.txt"
    (ListStore.start stored)
  = (Raise ("Failed to delete documents by source: "
            +:+ ListStore.delete_type_error), st')
  /\ fst (VectorStore.similarity_search caps "What is the APR?" 4 None st')
     = Ok stored
  /\ VectorStore.has_source "docs/rates.txt" ListStore.rates_chunk = true
  /\ fst (VectorStore.get_collection_stats caps (ListStore.start stored))
     = fst (VectorStore.get_collection_stats caps st').
Proof.
  intros caps stored st'.
  split; [|split; [|split]]; [|vm_compute; reflexivity..].
  apply (delete_documents_by_source_rejected caps "docs/rates.txt"
           (ListStore.start stored) (map entry_of stored) stored
           ListStore.delete_type_error eq_refl (fun _ _ => eq_refl)).
  vm_compute. discriminate.
Defined.

Section IndexWriteProperties.
Context {World : Type} (ext : Collaborators World).

Import VectorStoreWrites.

(** X10.  [add_documents] with an empty list does nothing at all.  With
    documents it adds them, then persists, then prints the count; if adding
    fails nothing is persisted, and a failure of either step is raised again
    as "Failed to add documents to vector store: ...". *)
Theorem add_documents_outcomes (st : St World) :
  add_documents ext [] st = (Ok tt, st)
  /\ (forall d ds e w,
        chroma_add_documents ext (d :: ds) (world st) = (Raise e, w) ->
        add_documents ext (d :: ds) st
        = (Raise ("Failed to add documents to vector store: " +:+ e),
           {| world := w; trace := trace st |}))
  /\ (forall d ds w r w',
        chroma_add_documents ext (d :: ds) (world st) = (Ok tt, w) ->
        chroma_persist ext w = (r, w') ->
        add_documents ext (d :: ds) st
        = match r with
          | Ok _ =>
              (Ok tt,
               {| world := w';
                  trace := trace st
                           ++ [EvPrint ("Successfully added "
                                        +:+ PyStr.str_of_nat (length (d :: ds))
                                        +:+ " documents to vector store")] |})
          | Raise e =>
              (Raise ("Failed to add documents to vector store: " +:+ e),
               {| world := w'; trace := trace st |})
          end).
Proof.
  split; [reflexivity|]. split.
  - intros d ds e w H. unfold add_documents, try_catch, bind, call_quiet, raise.
    rewrite H. reflexivity.
  - intros d ds w r w' Hadd Hpersist.
    unfold add_documents, try_catch, bind, call_quiet, print, raise.
    rewrite Hadd. cbn [world trace]. rewrite Hpersist.
    destruct r as [[]|e]; reflexivity.
Qed.

End IndexWriteProperties.

(** ** Prompts *)

Lemma substring_app_skip (a x : string) (m k : nat) :
  substring (String.length a + m) k (a +:+ x) = substring m k x.
Proof.
  induction a as [|c a IH]; [reflexivity|].
  rewrite string_app_cons. cbn [String.length Nat.add substring]. exact IH.
Qed.

Lemma substring_app_prefix (n post : string) :
  substring 0 (String.length n) (n +:+ post) = n.
Proof.
  induction n as [|c n IH].
  - apply substring_zero_length.
  - rewrite string_app_cons. cbn [String.length substring]. f_equal. exact IH.
Qed.

Lemma contains_found (needle hay : string) (m : nat) :
  substring m (String.length needle) hay = needle ->
  PyStr.contains needle hay = true.
Proof.
  intros H. unfold PyStr.contains.
  destruct (String.index 0 needle hay) as [i|] eqn:E; [reflexivity|].
  exfalso. destruct needle as [|c needle].
  - apply index_correct4 in E. lia.
  - apply (index_correct3 0 m _ _ E); [discriminate|lia|exact H].
Qed.

Lemma contains_here (needle post : string) :
  PyStr.contains needle (needle +:+ post) = true.
Proof. apply (contains_found _ _ 0). apply substring_app_prefix. Qed.

Lemma contains_skip (needle a x : string) :
  PyStr.contains needle x = true -> PyStr.contains needle (a +:+ x) = true.
Proof.
  unfold PyStr.contains at 1.
  destruct (String.index 0 needle x) as [m|] eqn:E; [|discriminate].
  intros _. apply (contains_found _ _ (String.length a + m)).
  rewrite substring_app_skip. apply (index_correct1 0). exact E.
Qed.

Lemma contains_last (needle : string) : PyStr.contains needle needle = true.
Proof.
  rewrite <- (string_app_empty_r needle) at 2. apply contains_here.
Qed.

Ltac find_embedded :=
  first [ apply contains_here
        | apply contains_last
        | apply contains_skip; find_embedded ].

(** X11.  Every prompt sent to the language model embeds its inputs verbatim:
    the answering prompt of each policy contains the composed context and the
    question, the structured prompt contains the context, the question and
    the rendered format, and the validation prompt contains the answer under
    validation and the context. *)
Theorem prompts_embed_inputs (prompt_type context question format response : string) :
  PyStr.contains context (LLMManager.select_prompt prompt_type context question)
  = true
  /\ PyStr.contains question
       (LLMManager.select_prompt prompt_type context question) = true
  /\ PyStr.contains context (LLMManager.structured_prompt context question format)
     = true
  /\ PyStr.contains question (LLMManager.structured_prompt context question format)
     = true
  /\ PyStr.contains format (LLMManager.structured_prompt context question format)
     = true
  /\ PyStr.contains response (LLMManager.validation_prompt response context) = true
  /\ PyStr.contains context (LLMManager.validation_prompt response context) = true.
Proof.
  unfold LLMManager.select_prompt.
  repeat split.
  - destruct (String.eqb prompt_type "table");
      [|destruct (String.eqb prompt_type "compliance")];
      unfold LLMManager.table_prompt, LLMManager.compliance_prompt,
        LLMManager.banking_prompt; find_embedded.
  - destruct (String.eqb prompt_type "table");
      [|destruct (String.eqb prompt_type "compliance")];
      unfold LLMManager.table_prompt, LLMManager.compliance_prompt,
        LLMManager.banking_prompt; find_embedded.
  - unfold LLMManager.structured_prompt. cbv zeta. find_embedded.
  - unfold LLMManager.structured_prompt. cbv zeta. find_embedded.
  - unfold LLMManager.structured_prompt. cbv zeta. find_embedded.
  - unfold LLMManager.validation_prompt. find_embedded.
  - unfold LLMManager.validation_prompt. find_embedded.
Qed.

(** The answering prompt depends on the policy: "table" and "compliance" have
    their own templates and every other policy name gets the general one. *)
Lemma select_prompt_default (prompt_type context question : string) :
  prompt_type <> "table" -> prompt_type <> "compliance" ->
  LLMManager.select_prompt prompt_type context question
  = LLMManager.banking_prompt context question.
Proof.
  intros Ht Hc. unfold LLMManager.select_prompt.
  destruct (String.eqb_spec prompt_type "table"); [contradiction|].
  destruct (String.eqb_spec prompt_type "compliance"); [contradiction|].
  reflexivity.
Qed.

(** ** Language model wrappers *)

Section WrapperProperties.
Context {World : Type} (caps : Capabilities World).

Import LLMManager LLMExtraction.

(** X12.  [extract_key_information] never raises and invokes the model once.
    A model failure gives [{"error": "Extraction failed: ..."}]; an answer
    that [json.loads] accepts is returned parsed; any other answer is returned
    raw under "extracted_info" with "format_error": True. *)
Theorem extract_key_information_outcomes (text : string) (st : St World) r w :
  llm_invoke caps (extraction_prompt text) (world st) = (r, w) ->
  extract_key_information caps text st
  = (Ok match r with
        | Raise e => VDict [("error", VStr ("Extraction failed: " +:+ e))]
        | Ok content =>
            match json_loads caps content with
            | Ok parsed => parsed
            | Raise _ =>
                VDict [("extracted_info", VStr content);
                       ("format_error", VBool true)]
            end
        end,
     {| world := w; trace := trace st ++ [EvInvoke (extraction_prompt text)] |}).
Proof.
  intros H. unfold extract_key_information, try_catch, bind, invoke, call.
  rewrite H. destruct r as [content|e]; [|reflexivity].
  destruct (json_loads caps content); reflexivity.
Qed.

Lemma generate_structured_response_run question context response_format
  (st : St World) r w :
  llm_invoke caps
    (structured_prompt context question (py_str caps response_format)) (world st)
  = (r, w) ->
  generate_structured_response caps question context response_format st
  = (Ok match r with
        | Raise e => VDict [("error", VStr e)]
        | Ok content =>
            match json_loads caps content with
            | Ok parsed => parsed
            | Raise _ =>
                VDict [("response", VStr content); ("format_error", VBool true)]
            end
        end,
     {| world := w;
        trace := trace st
                 ++ [EvInvoke (structured_prompt context question
                                 (py_str caps response_format))] |}).
Proof.
  intros H. unfold generate_structured_response, try_catch, bind, invoke, call.
  rewrite H. destruct r as [content|e]; [|reflexivity].
  destruct (json_loads caps content); reflexivity.
Qed.

Lemma validate_banking_response_run response context (st : St World) r w :
  llm_invoke caps (validation_prompt response context) (world st) = (r, w) ->
  validate_banking_response caps response context st
  = (Ok match r with
        | Ok report => ValidationReport report response
        | Raise e => ValidationError ("Validation failed: " +:+ e)
        end,
     {| world := w;
        trace := trace st ++ [EvInvoke (validation_prompt response context)] |}).
Proof.
  intros H. unfold validate_banking_response, try_catch, bind, invoke, call.
  rewrite H. destruct r; reflexivity.
Qed.

End WrapperProperties.

(** ** Grounded Answerer: the answering path *)

Section AnsweringProperties.
Context {World : Type} (caps : Capabilities World).

Import LLMManager RetrievalChain.

(** X13.  A query that finds chunks makes its external calls in this order:
    the retrieval, the model with the answering prompt of the selected
    policy, the model with the validation prompt, the scored retrieval of the
    answer with k the number of chunks found.  Its result carries the model's
    text as answer, the chunks' metadata in retrieval order as sources, the
    composed context, and the validation outcome; a failed validation is
    recorded in the result and does not change the answer. *)
Theorem query_call_sequence question filter_dict k (st : St World)
  d ds w1 context text w2 v w3 :
  chroma_similarity_search caps question k filter_dict (world st)
  = (Ok (d :: ds), w1) ->
  _combine_context (d :: ds) = Ok context ->
  let prompt := select_prompt (_determine_prompt_type (d :: ds)) context question in
  llm_invoke caps prompt w1 = (Ok text, w2) ->
  llm_invoke caps (validation_prompt text context) w2 = (v, w3) ->
  exists label w4,
    query caps question filter_dict k st
    = (Ok {| answer := text;
             sources := map metadata (d :: ds);
             context := Some context;
             validation :=
               Some match v with
                    | Ok report => ValidationReport report text
                    | Raise e => ValidationError ("Validation failed: " +:+ e)
                    end;
             confidence := label |},
       {| world := w4;
          trace := trace st
                   ++ [EvSimilaritySearch question k filter_dict;
                       EvInvoke prompt;
                       EvInvoke (validation_prompt text context);
                       EvSimilaritySearchWithScore text (length (d :: ds)) None] |})
    /\ (label = "high" \/ label = "medium" \/ label = "low").
Proof.
  intros Hs Hc prompt Hi Hv.
  pose (st1 := {| world := w1;
                  trace := trace st ++ [EvSimilaritySearch question k filter_dict] |}).
  pose (st2 := {| world := w2; trace := trace st1 ++ [EvInvoke prompt] |}).
  pose (st3 := {| world := w3;
                  trace := trace st2 ++ [EvInvoke (validation_prompt text context)] |}).
  assert (Hconf : exists label w4,
            _calculate_confidence caps (d :: ds) text st3
            = (Ok label,
               {| world := w4;
                  trace := trace st3
                           ++ [EvSimilaritySearchWithScore text (length (d :: ds))
                                 None] |})
            /\ (label = "high" \/ label = "medium" \/ label = "low")).
  { destruct (chroma_similarity_search_with_score caps text (length (d :: ds))
                None (world st3)) as [[[|x xs]|e] w4] eqn:E.
    - exists "medium", w4.
      split; [apply (calculate_confidence_unscored caps _ _ _ _ E)|auto].
    - destruct (calculate_confidence_scored caps _ _ _ _ _ _ E)
        as (label & Hl & Hrest).
      exists label, w4. split; [exact Hl|tauto].
    - exists "medium", w4.
      split; [apply (calculate_confidence_failure caps _ _ _ _ _ E)|auto]. }
  destruct Hconf as (label & w4 & Hl & Hlabel).
  exists label, w4. split; [|exact Hlabel].
  subst st3 st2 st1 prompt.
  unfold query, try_catch, bind.
  rewrite (similarity_search_ok caps _ _ _ _ _ _ Hs).
  unfold lift. rewrite Hc.
  rewrite (generate_response_ok caps question context _
             {| world := w1;
                trace := trace st ++ [EvSimilaritySearch question k filter_dict] |}
             text w2 Hi).
  cbn [trace world] in *.
  rewrite (validate_banking_response_run caps text context
             {| world := w2;
                trace := (trace st ++ [EvSimilaritySearch question k filter_dict])
                         ++ [EvInvoke
                               (select_prompt (_determine_prompt_type (d :: ds))
                                  context question)] |}
             v w3 Hv).
  cbn [trace world]. rewrite Hl. unfold ret.
  rewrite <- !app_assoc. reflexivity.
Qed.

Lemma query_uncomposed question filter_dict k (st : St World) d ds w e :
  chroma_similarity_search caps question k filter_dict (world st)
  = (Ok (d :: ds), w) ->
  _combine_context (d :: ds) = Raise e ->
  query caps question filter_dict k st
  = (Ok {| answer := "Error processing query: " +:+ e; sources := [];
           context := None; validation := None; confidence := "error" |},
     {| world := w;
        trace := trace st ++ [EvSimilaritySearch question k filter_dict] |}).
Proof.
  intros Hs Hc. unfold query, try_catch, bind.
  rewrite (similarity_search_ok caps _ _ _ _ _ _ Hs).
  unfold lift. rewrite Hc. reflexivity.
Qed.

(** X14.  When the context cannot be composed (a chunk whose [file_path] is
    not a string), [query] reports "Error processing query: ..." with
    confidence "error" and no sources, and the model is never invoked. *)
Theorem query_context_failure question filter_dict k (st : St World) d ds w e :
  chroma_similarity_search caps question k filter_dict (world st)
  = (Ok (d :: ds), w) ->
  _combine_context (d :: ds) = Raise e ->
  query caps question filter_dict k st
  = (Ok {| answer := "Error processing query: " +:+ e; sources := [];
           context := None; validation := None; confidence := "error" |},
     {| world := w;
        trace := trace st ++ [EvSimilaritySearch question k filter_dict] |}).
Proof. apply query_uncomposed. Qed.

(** A chunk whose [file_path] is an integer stops the composition at that
    chunk when the chunks before it are well formed. *)
Lemma combine_context_int_path (d : Document) (ds : list Document) (z : Z) :
  metadata d !! "file_path" = Some (MInt z) ->
  _combine_context (d :: ds) = Raise "argument of type 'int' is not iterable".
Proof.
  intros H. unfold _combine_context. cbn [context_parts_from].
  unfold format_document, source_name. rewrite H. reflexivity.
Qed.

Lemma query_total question filter_dict k (st : St World) :
  exists result st', query caps question filter_dict k st = (Ok result, st').
Proof.
  destruct (chroma_similarity_search caps question k filter_dict (world st))
    as [[[|d ds]|e] w] eqn:Hs.
  - eexists _, _. unfold query, try_catch, bind.
    rewrite (similarity_search_ok caps _ _ _ _ _ _ Hs). reflexivity.
  - destruct (_combine_context (d :: ds)) as [context|e] eqn:Hc.
    + destruct (generate_response_total caps question context
                  (_determine_prompt_type (d :: ds))
                  {| world := w;
                     trace := trace st
                              ++ [EvSimilaritySearch question k filter_dict] |})
        as (text & st1 & Hg).
      destruct (query_with_evidence caps _ _ _ _ _ _ _ _ _ _ Hs Hc Hg)
        as (result & st' & Hq & _).
      eexists _, _. exact Hq.
    + eexists _, _. apply (query_uncomposed _ _ _ _ _ _ _ _ Hs Hc).
  - eexists _, _. unfold query, try_catch, bind.
    rewrite (similarity_search_raise caps _ _ _ _ _ _ Hs). reflexivity.
Qed.

Lemma structured_query_empty question response_format filter_dict
  (st : St World) w :
  chroma_similarity_search caps question 4 filter_dict (world st) = (Ok [], w) ->
  structured_query caps question response_format filter_dict st
  = (Ok {| sq_error := Some "No relevant documents found"; sq_data := VNone;
           sq_sources := None; sq_context := None |},
     {| world := w;
        trace := trace st ++ [EvSimilaritySearch question 4 filter_dict] |}).
Proof.
  intros Hs. unfold structured_query, try_catch, bind.
  rewrite (similarity_search_ok caps _ _ _ _ _ _ Hs). reflexivity.
Qed.

Lemma structured_query_raise question response_format filter_dict
  (st : St World) e w :
  chroma_similarity_search caps question 4 filter_dict (world st) = (Raise e, w) ->
  structured_query caps question response_format filter_dict st
  = (Ok {| sq_error :=
             Some ("Structured query failed: "
                   +:+ ("Failed to perform similarity search: " +:+ e));
           sq_data := VNone; sq_sources := None; sq_context := None |},
     {| world := w;
        trace := trace st ++ [EvSimilaritySearch question 4 filter_dict] |}).
Proof.
  intros Hs. unfold structured_query, try_catch, bind.
  rewrite (similarity_search_raise caps _ _ _ _ _ _ Hs). reflexivity.
Qed.

Lemma structured_query_model_failure question response_format filter_dict
  (st : St World) d ds w context e w' :
  chroma_similarity_search caps question 4 filter_dict (world st)
  = (Ok (d :: ds), w) ->
  _combine_context (d :: ds) = Ok context ->
  llm_invoke caps
    (structured_prompt context question (py_str caps response_format)) w
  = (Raise e, w') ->
  structured_query caps question response_format filter_dict st
  = (Ok {| sq_error := None; sq_data := VDict [("error", VStr e)];
           sq_sources := Some (map metadata (d :: ds));
           sq_context := Some context |},
     {| world := w';
        trace := (trace st ++ [EvSimilaritySearch question 4 filter_dict])
                 ++ [EvInvoke (structured_prompt context question
                                 (py_str caps response_format))] |}).
Proof.
  intros Hs Hc Hi. unfold structured_query, try_catch, bind.
  rewrite (similarity_search_ok caps _ _ _ _ _ _ Hs).
  unfold lift. rewrite Hc.
  rewrite (generate_structured_response_run caps question context
             response_format
             {| world := w;
                trace := trace st
                         ++ [EvSimilaritySearch question 4 filter_dict] |}
             (Raise e) w' Hi).
  reflexivity.
Qed.

(** X15.  [structured_query] never raises.  Without a retrieved chunk it
    returns the error "No relevant documents found" with data [None] and does
    not invoke the model; a failed retrieval is returned as the error
    "Structured query failed: Failed to perform similarity search: ...".
    When the model itself fails the result is not an error result: its data
    is [{"error": ...}] and it still lists the sources. *)
Theorem structured_query_outcomes question response_format filter_dict
  (st : St World) :
  (exists result st',
     structured_query caps question response_format filter_dict st
     = (Ok result, st'))
  /\ (forall w,
        chroma_similarity_search caps question 4 filter_dict (world st)
        = (Ok [], w) ->
        structured_query caps question response_format filter_dict st
        = (Ok {| sq_error := Some "No relevant documents found"; sq_data := VNone;
                 sq_sources := None; sq_context := None |},
           {| world := w;
              trace := trace st ++ [EvSimilaritySearch question 4 filter_dict] |}))
  /\ (forall e w,
        chroma_similarity_search caps question 4 filter_dict (world st)
        = (Raise e, w) ->
        structured_query caps question response_format filter_dict st
        = (Ok {| sq_error :=
                   Some ("Structured query failed: "
                         +:+ ("Failed to perform similarity search: " +:+ e));
                 sq_data := VNone; sq_sources := None; sq_context := None |},
           {| world := w;
              trace := trace st ++ [EvSimilaritySearch question 4 filter_dict] |}))
  /\ (forall d ds w context e w',
        chroma_similarity_search caps question 4 filter_dict (world st)
        = (Ok (d :: ds), w) ->
        _combine_context (d :: ds) = Ok context ->
        llm_invoke caps
          (structured_prompt context question (py_str caps response_format)) w
        = (Raise e, w') ->
        fst (structured_query caps question response_format filter_dict st)
        = Ok {| sq_error := None; sq_data := VDict [("error", VStr e)];
                sq_sources := Some (map metadata (d :: ds));
                sq_context := Some context |}).
Proof.
  split; [|split; [|split]].
  - destruct (chroma_similarity_search caps question 4 filter_dict (world st))
      as [[[|d ds]|e] w] eqn:Hs.
    + eexists _, _. unfold structured_query, try_catch, bind.
      rewrite (similarity_search_ok caps _ _ _ _ _ _ Hs). reflexivity.
    + destruct (_combine_context (d :: ds)) as [context|e] eqn:Hc.
      * destruct (llm_invoke caps
                    (structured_prompt context question
                       (py_str caps response_format)) w) as [r w'] eqn:Hi.
        eexists _, _. unfold structured_query, try_catch, bind.
        rewrite (similarity_search_ok caps _ _ _ _ _ _ Hs).
        unfold lift. rewrite Hc.
        rewrite (generate_structured_response_run caps question context
                   response_format
                   {| world := w;
                      trace := trace st
                               ++ [EvSimilaritySearch question 4 filter_dict] |}
                   r w' Hi).
        reflexivity.
      * eexists _, _. unfold structured_query, try_catch, bind.
        rewrite (similarity_search_ok caps _ _ _ _ _ _ Hs).
        unfold lift. rewrite Hc. reflexivity.
    + eexists _, _. unfold structured_query, try_catch, bind.
      rewrite (similarity_search_raise caps _ _ _ _ _ _ Hs). reflexivity.
  - intros w Hs. apply structured_query_empty. exact Hs.
  - intros e w Hs. apply structured_query_raise. exact Hs.
  - intros d ds w context e w' Hs Hc Hi.
    rewrite (structured_query_model_failure _ _ _ _ _ _ _ _ _ _ Hs Hc Hi).
    reflexivity.
Qed.

End AnsweringProperties.

(** ** Conversation *)

Section ConversationProperties.
Context {World : Type} (caps : Capabilities World) (ext : Collaborators World).

Import RetrievalChain Conversation BankingAssistant AssistantOperations.

(** The turns to save before the query: none for [None] and for []. *)
Lemma conversational_query_unfold question history (st : St World) :
  conversational_query caps ext question history st
  = try_catch
      (save_history ext (match history with Some turns => turns | None => [] end) ;;;
       result <- query caps question None 4 ;;
       save_context ext question (answer result) ;;;
       ret result)
      (fun e => ret (conversation_error e)) st.
Proof. destruct history as [[|turn rest]|]; reflexivity. Qed.

(** X16.  [conversational_query] first saves the turns of the given history,
    in order, then runs [query(question)] with k = 4 and no filter, then
    saves the question with the answer, and returns the result of the query.
    If saving a turn of the history fails, the query is not run; if the final
    save fails, the result of the query is dropped.  In both cases the
    outcome is "Error in conversational query: ..." with confidence "error":
    nothing is raised. *)
Theorem conversational_query_outcomes question history (st : St World) :
  let turns := match history with Some turns => turns | None => [] end in
  (forall e st0,
     save_history ext turns st = (Raise e, st0) ->
     conversational_query caps ext question history st
     = (Ok (conversation_error e), st0))
  /\ (forall st0 result st1 r w2,
        save_history ext turns st = (Ok tt, st0) ->
        query caps question None 4 st0 = (Ok result, st1) ->
        memory_save_context ext question (answer result) (world st1) = (r, w2) ->
        conversational_query caps ext question history st
        = (Ok match r with
              | Ok _ => result
              | Raise e => conversation_error e
              end,
           {| world := w2; trace := trace st1 |})).
Proof.
  intros turns. split.
  - intros e st0 H. rewrite conversational_query_unfold.
    unfold try_catch, bind. fold turns. rewrite H. reflexivity.
  - intros st0 result st1 r w2 Hh Hq Hs. rewrite conversational_query_unfold.
    unfold try_catch, bind. fold turns. rewrite Hh, Hq.
    unfold save_context, call_quiet. rewrite Hs.
    destruct r as [[]|e]; reflexivity.
Qed.

(** Saving a history: the turns are saved one after the other, a missing
    "question" or "answer" counting as the empty string, and the first
    failure stops the saving. *)
Lemma save_history_step turn rest (st : St World) r w :
  memory_save_context ext (turn_field turn "question") (turn_field turn "answer")
    (world st) = (r, w) ->
  save_history ext (turn :: rest) st
  = match r with
    | Ok _ => save_history ext rest {| world := w; trace := trace st |}
    | Raise e => (Raise e, {| world := w; trace := trace st |})
    end.
Proof.
  intros H. cbn [save_history]. unfold bind, save_context, call_quiet.
  rewrite H. destruct r as [[]|e]; reflexivity.
Qed.

Lemma conversational_query_total question history (st : St World) :
  exists result st',
    conversational_query caps ext question history st = (Ok result, st').
Proof.
  rewrite conversational_query_unfold. unfold try_catch.
  destruct ((save_history ext _ ;;; _) st) as [[result|e] st'];
    eexists _, _; reflexivity.
Qed.

(** X17.  [conversational_ask] always reports success: whatever
    [conversational_query] returns, also its error outcome with confidence
    "error", is copied under [success = True]. *)
Theorem conversational_ask_always_succeeds question history (st : St World) :
  exists result st',
    conversational_query caps ext question history st = (Ok result, st')
    /\ conversational_ask caps ext question history st
       = (Ok (ask_result_of result), st').
Proof.
  destruct (conversational_query_total question history st)
    as (result & st' & H).
  exists result, st'. split; [exact H|].
  unfold conversational_ask, try_catch, bind. rewrite H. reflexivity.
Qed.

(** X18.  A question that is not blank is always answered with
    [success = True]: [ask_question] copies answer, sources and confidence
    from [query(question)] (k = 4, no filter), which never raises, and gives
    the empty dictionary as validation when the result has none.  A failed
    retrieval therefore comes out as success with confidence "error". *)
Theorem ask_question_always_succeeds question (st : St World) :
  PyStr.truthy (PyStr.strip question) = true ->
  exists result st',
    query caps question None 4 st = (Ok result, st')
    /\ ask_question caps question st = (Ok (ask_result_of result), st').
Proof.
  intros Hq. destruct (query_total caps question None 4 st) as (result & st' & H).
  exists result, st'. split; [exact H|].
  unfold ask_question, try_catch, bind. rewrite Hq. cbn [negb].
  rewrite H. reflexivity.
Qed.

(** X19.  [clear_conversation_history] reports success whether or not the
    memory could be cleared: a failure of the memory is printed by
    [clear_memory] and goes no further. *)
Theorem clear_conversation_history_always_succeeds (st : St World) r w :
  memory_clear ext (world st) = (r, w) ->
  clear_conversation_history ext st
  = (Ok {| outcome_success := true;
           outcome_message := Some "Conversation history cleared successfully";
           outcome_error := None |},
     {| world := w;
        trace := match r with
                 | Ok _ => trace st
                 | Raise e => trace st ++ [EvPrint ("Error clearing memory: " +:+ e)]
                 end |}).
Proof.
  intros H.
  unfold clear_conversation_history, clear_memory, try_catch, bind, call_quiet,
    print.
  rewrite H. destruct r as [[]|e]; reflexivity.
Qed.

(** The history is read from the memory; when the memory cannot be read the
    history is empty. *)
Lemma get_conversation_history_fallback (st : St World) r w :
  memory_messages ext (world st) = (r, w) ->
  get_conversation_history ext st
  = (Ok match r with Ok messages => messages | Raise _ => [] end,
     {| world := w; trace := trace st |}).
Proof.
  intros H. unfold get_conversation_history, try_catch, call_quiet.
  rewrite H. destruct r; reflexivity.
Qed.

End ConversationProperties.

(** ** Assistant: structured information, search, listing and deletion *)

Lemma py_eqb_key (a b : MVal) : py_eqb a b = true <-> py_key a = py_key b.
Proof.
  destruct a as [s|z|x], b as [s'|z'|y]; simpl.
  - rewrite String.eqb_eq. split; congruence.
  - split; discriminate.
  - split; discriminate.
  - split; discriminate.
  - rewrite Z.eqb_eq. split; congruence.
  - rewrite Z.eqb_eq. split; congruence.
  - split; discriminate.
  - rewrite Z.eqb_eq. split; congruence.
  - destruct x, y; simpl; split; congruence.
Qed.

Section AssistantProperties.
Context {World : Type} (caps : Capabilities World).

Import LLMManager RetrievalChain BankingAssistant AssistantOperations.

Lemma structured_info_without_sources question response_format error_prefix
  (st : St World) result st' :
  structured_query caps question response_format None st = (Ok result, st') ->
  sq_sources result = None ->
  structured_info caps question response_format error_prefix st
  = (Ok {| info_success := false; info_data := None; info_sources := None;
           info_error := Some (error_prefix +:+ "'sources'") |},
     st').
Proof.
  intros H Hnone. unfold structured_info, try_catch, bind.
  rewrite H. unfold lift, sources_of. rewrite Hnone. reflexivity.
Qed.

(** X20.  [get_loan_information] loses the reason of a failed structured
    query.  When no chunk is retrieved, and also when the retrieval fails,
    [structured_query] returns a dictionary without "sources", and the
    lookup of that key makes the outcome [success = False] with the error
    "Error getting loan information: 'sources'".  When chunks are retrieved
    and the model fails, the outcome is [success = True] with the data
    [{"error": ...}]. *)
Theorem get_loan_information_outcomes (loan_type : option string) (st : St World) :
  let question := loan_question loan_type in
  let lost :=
    {| info_success := false; info_data := None; info_sources := None;
       info_error := Some ("Error getting loan information: " +:+ "'sources'") |} in
  (forall w,
     chroma_similarity_search caps question 4 None (world st) = (Ok [], w) ->
     fst (get_loan_information caps loan_type st) = Ok lost)
  /\ (forall e w,
        chroma_similarity_search caps question 4 None (world st) = (Raise e, w) ->
        fst (get_loan_information caps loan_type st) = Ok lost)
  /\ (forall d ds w context e w',
        chroma_similarity_search caps question 4 None (world st)
        = (Ok (d :: ds), w) ->
        _combine_context (d :: ds) = Ok context ->
        llm_invoke caps
          (structured_prompt context question (py_str caps loan_response_format)) w
        = (Raise e, w') ->
        fst (get_loan_information caps loan_type st)
        = Ok {| info_success := true;
                info_data := Some (VDict [("error", VStr e)]);
                info_sources := Some (map metadata (d :: ds));
                info_error := None |}).
Proof.
  intros question lost. split; [|split].
  - intros w Hs. unfold get_loan_information. fold question.
    rewrite (structured_info_without_sources _ _ _ _ _ _
               (structured_query_empty caps _ _ _ _ _ Hs) eq_refl).
    reflexivity.
  - intros e w Hs. unfold get_loan_information. fold question.
    rewrite (structured_info_without_sources _ _ _ _ _ _
               (structured_query_raise caps _ _ _ _ _ _ Hs) eq_refl).
    reflexivity.
  - intros d ds w context e w' Hs Hc Hi.
    unfold get_loan_information, structured_info, try_catch, bind.
    fold question.
    rewrite (structured_query_model_failure caps _ _ _ _ _ _ _ _ _ _ Hs Hc Hi).
    reflexivity.
Qed.

(** The same holds for [get_compliance_requirements], with its own prefix. *)
Lemma get_compliance_requirements_without_chunks
  (regulation_type : option string) (st : St World) w :
  chroma_similarity_search caps (compliance_question regulation_type) 4 None
    (world st) = (Ok [], w) ->
  fst (get_compliance_requirements caps regulation_type st)
  = Ok {| info_success := false; info_data := None; info_sources := None;
          info_error :=
            Some ("Error getting compliance requirements: " +:+ "'sources'") |}.
Proof.
  intros Hs. unfold get_compliance_requirements.
  rewrite (structured_info_without_sources _ _ _ _ _ _
             (structured_query_empty caps _ _ _ _ _ Hs) eq_refl).
  reflexivity.
Qed.



(** X22.  [delete_document] reports success with "Document ... deleted
    successfully" also when no stored chunk has the given source and nothing
    was deleted; when the collection cannot be listed it reports
    [success = False] with the nested error text. *)
Theorem delete_document_outcomes (document_id : string) (st : St World) :
  (forall entries w,
     chroma_get caps (world st) = (Ok entries, w) ->
     List.filter (VectorStore.has_source document_id)
       (firstn 1000 (map document_of_entry entries)) = [] ->
     delete_document caps document_id st
     = (Ok {| outcome_success := true;
              outcome_message :=
                Some ("Document " +:+ document_id +:+ " deleted successfully");
              outcome_error := None |},
        {| world := w;
           trace := (trace st ++ [EvGet])
                    ++ [EvPrint ("No documents found for source: "
                                 +:+ document_id)] |}))
  /\ (forall e w,
        chroma_get caps (world st) = (Raise e, w) ->
        fst (delete_document caps document_id st)
        = Ok {| outcome_success := false; outcome_message := None;
                outcome_error :=
                  Some ("Error deleting document: "
                        +:+ ("Failed to delete documents by source: "
                             +:+ ("Failed to get all documents: " +:+ e))) |}).
Proof.
  split.
  - intros entries w Hget Hnone.
    unfold delete_document, try_catch, bind.
    rewrite (delete_none_selected caps document_id st entries w Hget Hnone).
    reflexivity.
  - intros e w Hget. unfold delete_document, try_catch, bind.
    rewrite (delete_unlisted caps document_id st e w Hget).
    reflexivity.
Qed.

End AssistantProperties.

(** ** Assistant: the list of documents *)

Section ListingProperties.

Import AssistantOperations.

Local Abbreviation key_of info := (py_key (info_file_path info)).
Local Abbreviation counted infos := (list_sum (map chunk_count infos)).

Lemma bump_key doc info : info_file_path (bump doc info) = info_file_path info.
Proof.
  unfold bump. destruct (py_eqb _ _); reflexivity.
Qed.

Lemma bump_keys doc infos :
  map (fun info => key_of info) (map (bump doc) infos)
  = map (fun info => key_of info) infos.
Proof.
  rewrite map_map. apply map_ext. intros info. rewrite bump_key. reflexivity.
Qed.

Lemma bump_counted doc infos :
  counted (map (bump doc) infos)
  = counted infos
    + length (List.filter
                (fun info => py_eqb (info_file_path info)
                               (get_or_unknown (metadata doc) "file_path"))
                infos).
Proof.
  induction infos as [|info infos IH]; [reflexivity|].
  cbn [map list_sum fold_right List.filter]. 
  change (fold_right Nat.add 0 (map chunk_count (map (bump doc) infos)))
    with (counted (map (bump doc) infos)).
  change (fold_right Nat.add 0 (map chunk_count infos)) with (counted infos).
  rewrite IH. unfold bump at 1.
  destruct (py_eqb (info_file_path info) _); cbn [chunk_count length]; lia.
Qed.

Lemma one_match (source : MVal) (infos : list DocumentInfo) :
  List.NoDup (map (fun info => key_of info) infos) ->
  existsb (fun info => py_eqb (info_file_path info) source) infos = true ->
  length (List.filter (fun info => py_eqb (info_file_path info) source) infos) = 1.
Proof.
  induction infos as [|info infos IH]; [discriminate|].
  cbn [map existsb List.filter]. intros Hnd Hex.
  apply List.NoDup_cons_iff in Hnd as [Hnotin Hnd].
  destruct (py_eqb (info_file_path info) source) eqn:E.
  - cbn [length]. f_equal.
    destruct (List.filter _ infos) as [|other rest] eqn:F; [reflexivity|].
    exfalso. apply Hnotin.
    assert (Hin : In other (List.filter
                              (fun i => py_eqb (info_file_path i) source) infos))
      by (rewrite F; left; reflexivity).
    apply List.filter_In in Hin as [Hin Hm].
    apply py_eqb_key in E. apply py_eqb_key in Hm.
    apply in_map_iff. exists other. split; [congruence|exact Hin].
  - simpl in Hex. apply IH; assumption.
Qed.

Lemma group_step_invariant (infos : list DocumentInfo) (doc : Document) :
  List.NoDup (map (fun info => key_of info) infos) ->
  Forall (fun info => 1 <= chunk_count info) infos ->
  List.NoDup (map (fun info => key_of info) (group_step infos doc))
  /\ Forall (fun info => 1 <= chunk_count info) (group_step infos doc)
  /\ counted (group_step infos doc) = counted infos + 1.
Proof.
  intros Hnd Hpos. unfold group_step.
  set (source := get_or_unknown (metadata doc) "file_path").
  change (fun info => if py_eqb (info_file_path info) source then _ else info)
    with (bump doc).
  destruct (existsb (fun info => py_eqb (info_file_path info) source) infos) eqn:Ex.
  - rewrite bump_keys, bump_counted. fold source.
    rewrite (one_match source infos Hnd Ex).
    split; [exact Hnd|]. split; [|reflexivity].
    apply List.Forall_forall. intros info Hin.
    apply in_map_iff in Hin as (old & <- & Hold).
    rewrite List.Forall_forall in Hpos. specialize (Hpos old Hold).
    unfold bump. destruct (py_eqb _ _); cbn [chunk_count]; lia.
  - set (fresh := {| info_file_path := source; chunk_count := 0;
                     content_types := [];
                     info_upload_date :=
                       get_or_unknown (metadata doc) "upload_date" |}).
    assert (Hfresh : ~ In (py_key source) (map (fun info => key_of info) infos)).
    { intros Hin. apply in_map_iff in Hin as (old & Hk & Hold).
      assert (existsb (fun info => py_eqb (info_file_path info) source) infos
              = true); [|congruence].
      apply existsb_exists. exists old. split; [exact Hold|].
      apply py_eqb_key. exact Hk. }
    assert (Hnd' : List.NoDup (map (fun info => key_of info) (infos ++ [fresh]))).
    { rewrite map_app. cbn [map]. apply List.NoDup_app; [exact Hnd| |].
      - apply List.NoDup_cons; [intros []|apply List.NoDup_nil].
      - intros k Hk [<-|[]]. apply Hfresh. exact Hk. }
    assert (Hex' : existsb (fun info => py_eqb (info_file_path info) source)
                     (infos ++ [fresh]) = true).
    { rewrite existsb_app. cbn [existsb info_file_path fresh].
      assert (py_eqb source source = true) as -> by (apply py_eqb_key; reflexivity).
      apply orb_true_r. }
    rewrite bump_keys, bump_counted. fold source.
    rewrite (one_match source _ Hnd' Hex').
    split; [exact Hnd'|]. split.
    + apply List.Forall_forall. intros info Hin.
      apply in_map_iff in Hin as (old & <- & Hold).
      apply in_app_or in Hold as [Hold|[<-|[]]].
      * rewrite List.Forall_forall in Hpos. specialize (Hpos old Hold).
        unfold bump. destruct (py_eqb _ _); cbn [chunk_count]; lia.
      * unfold bump. cbn [info_file_path fresh]. fold source.
        assert (py_eqb source source = true) as -> by (apply py_eqb_key; reflexivity).
        cbn [chunk_count]. lia.
    + rewrite map_app, list_sum_app. cbn [map chunk_count fresh list_sum fold_right].
      lia.
Qed.

Lemma group_by_source_invariant (all_docs : list Document) :
  List.NoDup (map (fun info => key_of info) (group_by_source all_docs))
  /\ Forall (fun info => 1 <= chunk_count info) (group_by_source all_docs)
  /\ counted (group_by_source all_docs) = length all_docs.
Proof.
  unfold group_by_source.
  assert (H : forall docs infos,
            List.NoDup (map (fun info => key_of info) infos) ->
            Forall (fun info => 1 <= chunk_count info) infos ->
            List.NoDup (map (fun info => key_of info) (fold_left group_step docs infos))
            /\ Forall (fun info => 1 <= chunk_count info)
                 (fold_left group_step docs infos)
            /\ counted (fold_left group_step docs infos)
               = counted infos + length docs).
  { induction docs as [|doc docs IH]; intros infos Hnd Hpos; cbn [fold_left].
    - repeat split; [exact Hnd|exact Hpos|simpl; lia].
    - destruct (group_step_invariant infos doc Hnd Hpos) as (Hnd' & Hpos' & Hc).
      destruct (IH _ Hnd' Hpos') as (H1 & H2 & H3).
      repeat split; [exact H1|exact H2|]. rewrite H3, Hc. simpl. lia. }
  destruct (H all_docs [] (List.NoDup_nil _) (List.Forall_nil _)) as (H1 & H2 & H3).
  repeat split; [exact H1|exact H2|exact H3].
Qed.

Context {World : Type} (caps : Capabilities World).

(** X23.  [get_documents_list] counts every listed chunk exactly once.  It
    looks at the first 1000 entries of the collection: [total_chunks] is
    their number, the [chunk_count]s of the listed documents add up to it,
    every listed document has at least one chunk, no two listed documents
    have the same source (as Python compares keys), and [total_documents] is
    the number of listed documents. *)
Theorem get_documents_list_counts (st : St World) entries w :
  chroma_get caps (world st) = (Ok entries, w) ->
  exists listing,
    fst (get_documents_list caps st) = Ok listing
    /\ list_success listing = true
    /\ total_chunks listing = Nat.min 1000 (length entries)
    /\ list_sum (map chunk_count (list_documents listing)) = total_chunks listing
    /\ total_documents listing = length (list_documents listing)
    /\ Forall (fun info => 1 <= chunk_count info) (list_documents listing)
    /\ List.NoDup (map (fun info => py_key (info_file_path info))
                (list_documents listing)).
Proof.
  intros Hget. eexists. split.
  - unfold get_documents_list, try_catch, bind.
    rewrite (get_all_documents_ok caps 1000 st entries w Hget). reflexivity.
  - cbn [list_success total_chunks list_documents total_documents].
    destruct (group_by_source_invariant
                (firstn 1000 (map document_of_entry entries)))
      as (Hnd & Hpos & Hc).
    repeat split; try assumption.
    rewrite length_firstn, length_map. reflexivity.
Qed.

End ListingProperties.

(** ** Loading documents *)

Section LoadingProperties.

Import Loading.

Context {World : Type} (fs : FileSystem World) (ext : Collaborators World).

Lemma load_document_missing (file_path : string) (st : St World) :
  fs_exists fs (path_normal fs file_path) (world st) = false ->
  load_document fs file_path st
  = (Raise ("Document not found: " +:+ path_normal fs file_path), st).
Proof.
  intros Hmissing. unfold load_document, bind, observe. rewrite Hmissing.
  reflexivity.
Qed.

(** X24.  [load_document] reports a missing file as it is and every later
    failure under its own prefix.  When the path does not exist it raises
    "Document not found: <path>" and touches nothing; when the loader fails
    with [e] it raises "Error loading document <path>: e"; when the loader
    returns documents the result is their chunks, stamped with the time read
    after loading. *)
Theorem load_document_outcomes (file_path : string) (st : St World) :
  let path := path_normal fs file_path in
  let kind := loader_for (PyStr.lower (path_suffix fs path)) in
  (fs_exists fs path (world st) = false ->
   load_document fs file_path st
   = (Raise ("Document not found: " +:+ path), st))
  /\ (fs_exists fs path (world st) = true ->
      forall e w,
        loader_load fs kind path (world st) = (Raise e, w) ->
        load_document fs file_path st
        = (Raise ("Error loading document " +:+ path +:+ ": " +:+ e),
           {| world := w; trace := trace st |}))
  /\ (fs_exists fs path (world st) = true ->
      forall documents w upload_timestamp w',
        loader_load fs kind path (world st) = (Ok documents, w) ->
        clock_now fs w = (upload_timestamp, w') ->
        load_document fs file_path st
        = (Ok (DocumentProcessor._process_documents (split_text fs)
                 {| DocumentProcessor.path_str := path;
                    DocumentProcessor.path_name := path_file_name fs path |}
                 upload_timestamp documents),
           {| world := w'; trace := trace st |})).
Proof.
  intros path kind. split; [|split].
  - apply load_document_missing.
  - intros Hfound e w Hload.
    unfold load_document, bind, observe, try_catch, call_quiet.
    fold path. rewrite Hfound. cbn [negb]. fold kind. rewrite Hload.
    reflexivity.
  - intros Hfound documents w upload_timestamp w' Hload Hnow.
    unfold load_document, bind, observe, try_catch, call_quiet, process_loaded,
      now, bind, ret.
    fold path. rewrite Hfound. cbn [negb]. fold kind. rewrite Hload.
    cbn [world trace]. rewrite Hnow. reflexivity.
Qed.

Lemma load_files_total (files : list string) :
  forall all_documents (st : St World),
    exists documents st',
      load_files fs files all_documents st = (Ok documents, st')
      /\ firstn (length all_documents) documents = all_documents.
Proof.
  induction files as [|file_path rest IH]; intros all_documents st.
  - exists all_documents, st. split; [reflexivity|]. apply firstn_all.
  - cbn [load_files]. unfold bind at 1. unfold observe at 1.
    destruct (fs_is_file fs file_path (world st)
              && is_supported (PyStr.lower (path_suffix fs file_path))).
    + unfold bind at 1. unfold try_catch at 1. unfold bind at 1.
      destruct (load_document fs file_path st) as [[documents|e] st1].
      * cbn [ret]. destruct (IH (all_documents ++ documents) st1)
          as (result & st' & Hrun & Hprefix).
        exists result, st'. split; [exact Hrun|].
        assert (H : firstn (length all_documents)
                      (firstn (length (all_documents ++ documents)) result)
                    = firstn (length all_documents) result).
        { rewrite List.firstn_firstn. f_equal. rewrite length_app. lia. }
        rewrite <- H, Hprefix.
        rewrite List.firstn_app, Nat.sub_diag, List.firstn_all.
        cbn [firstn]. apply app_nil_r.
      * unfold bind at 1. unfold print at 1. cbn [ret].
        apply IH.
    + apply IH.
Qed.

(** X25.  A directory that exists is always loaded: whatever the files do,
    [load_documents_from_directory] returns a list of chunks and does not
    raise. *)
Theorem load_documents_from_directory_total (directory_path : string)
  (st : St World) :
  fs_exists fs (path_normal fs directory_path) (world st) = true ->
  exists documents st',
    load_documents_from_directory fs directory_path st = (Ok documents, st').
Proof.
  intros Hfound. unfold load_documents_from_directory, bind, observe.
  rewrite Hfound. cbn [negb].
  destruct (load_files_total
              (fs_rglob fs (path_normal fs directory_path) (world st)) [] st)
    as (documents & st' & Hrun & _).
  exists documents, st'. exact Hrun.
Qed.

(** X26.  A file that cannot be loaded is skipped with a warning and the
    walk goes on: the remaining files are loaded from the state the failure
    left, with the chunks collected so far, after the line
    "Warning: Could not load <file>: <error>" is printed.  A file that is
    not regular or whose suffix is not supported is passed over without a
    trace. *)
Theorem load_files_skips_failure (file_path : string) (rest : list string)
  (all_documents : list Document) (st : St World) :
  (fs_is_file fs file_path (world st) = true ->
   is_supported (PyStr.lower (path_suffix fs file_path)) = true ->
   forall e st1,
     load_document fs file_path st = (Raise e, st1) ->
     load_files fs (file_path :: rest) all_documents st
     = load_files fs rest all_documents
         {| world := world st1;
            trace := trace st1
                     ++ [EvPrint ("Warning: Could not load " +:+ file_path
                                  +:+ ": " +:+ e)] |})
  /\ (fs_is_file fs file_path (world st)
      && is_supported (PyStr.lower (path_suffix fs file_path)) = false ->
      load_files fs (file_path :: rest) all_documents st
      = load_files fs rest all_documents st).
Proof.
  split.
  - intros Hregular Hsupported e st1 Hload.
    cbn [load_files]. unfold bind at 1. unfold observe at 1.
    rewrite Hregular, Hsupported. cbn [andb].
    unfold bind at 1. unfold try_catch at 1. unfold bind at 1.
    rewrite Hload. reflexivity.
  - intros Hskip. cbn [load_files]. unfold bind at 1. unfold observe at 1.
    rewrite Hskip. reflexivity.
Qed.

Lemma load_documents_shape (document_path : string) (st : St World) :
  exists result st',
    load_documents fs ext document_path st = (Ok result, st')
    /\ load_message result <> None
    /\ load_error result = None
    /\ (load_success result = false ->
        load_document_count result = Some 0
        /\ load_documents_metadata result = None)
    /\ (load_success result = true ->
        exists n records,
          1 <= n
          /\ load_document_count result = Some n
          /\ load_documents_metadata result = Some records
          /\ length records = n).
Proof.
  unfold load_documents. unfold try_catch. unfold bind at 1. unfold observe at 1.
  unfold bind at 1.
  destruct ((if fs_is_file fs (path_normal fs document_path) (world st)
             then load_document fs (path_normal fs document_path)
             else
               bind (observe (fs_is_dir fs (path_normal fs document_path)))
                 (fun directory : bool =>
                    if directory
                    then load_documents_from_directory fs
                           (path_normal fs document_path)
                    else raise ("Path not found: "
                                +:+ path_normal fs document_path))) st)
    as [[documents|e] st1] eqn:Hload.
  - destruct documents as [|doc documents].
    + eexists _, _. split; [reflexivity|]. cbn.
      repeat split; try discriminate.
    + unfold bind.
      destruct (VectorStoreWrites.add_documents ext (doc :: documents) st1)
        as [[[]|e] st2].
      * eexists _, _. split; [reflexivity|]. cbn.
        repeat split; try discriminate.
        intros _. exists (length (doc :: documents)), (map metadata (doc :: documents)).
        repeat split; [cbn [length]; lia|apply length_map].
      * eexists _, _. split; [reflexivity|]. cbn.
        repeat split; try discriminate.
  - eexists _, _. split; [reflexivity|]. cbn.
    repeat split; try discriminate.
Qed.

(** X27.  [load_documents] never raises and its dictionary is consistent:
    it always has a message; with success False the count is 0 and no
    metadata is listed; with success True the count is at least 1 and is the
    number of metadata records listed. *)
Theorem load_documents_consistent (document_path : string) (st : St World) :
  exists result st',
    load_documents fs ext document_path st = (Ok result, st')
    /\ load_message result <> None
    /\ (load_success result = false ->
        load_document_count result = Some 0
        /\ load_documents_metadata result = None)
    /\ (load_success result = true ->
        exists n records,
          1 <= n
          /\ load_document_count result = Some n
          /\ load_documents_metadata result = Some records
          /\ length records = n).
Proof.
  destruct (load_documents_shape document_path st)
    as (result & st' & Hrun & Hmessage & _ & Hfailure & Hsuccess).
  exists result, st'. repeat split; try assumption; apply Hfailure; assumption.
Qed.

(** X28.  A path that is neither a file nor a directory is reported, not
    raised: [load_documents] returns success False with the message
    "Error loading documents: Path not found: <path>" and count 0, and
    nothing is loaded or stored. *)
Theorem load_documents_path_not_found (document_path : string) (st : St World) :
  fs_is_file fs (path_normal fs document_path) (world st) = false ->
  fs_is_dir fs (path_normal fs document_path) (world st) = false ->
  load_documents fs ext document_path st
  = (Ok (load_failure ("Error loading documents: Path not found: "
                       +:+ path_normal fs document_path)), st).
Proof.
  intros Hfile Hdir.
  unfold load_documents, try_catch, bind, observe.
  rewrite Hfile, Hdir. reflexivity.
Qed.

(** X29.  Nothing is stored when nothing was loaded: when the path is a
    directory whose walk yields no chunk, [load_documents] answers
    "No documents found or processed" with success False, and the state is
    the one the walk left: [add_documents] is not reached. *)
Theorem load_documents_nothing_loaded (document_path : string) (st st1 : St World) :
  fs_is_file fs (path_normal fs document_path) (world st) = false ->
  fs_is_dir fs (path_normal fs document_path) (world st) = true ->
  load_documents_from_directory fs (path_normal fs document_path) st
  = (Ok [], st1) ->
  load_documents fs ext document_path st
  = (Ok (load_failure "No documents found or processed"), st1).
Proof.
  intros Hfile Hdir Hwalk.
  unfold load_documents, try_catch, bind, observe.
  rewrite Hfile, Hdir, Hwalk. reflexivity.
Qed.

(** X30.  [load_sample_documents] reports success whenever the sample
    directory exists, whatever [load_documents] reported: its result has
    success True, the message "Sample documents loaded: " followed by the
    message of [load_documents], and the count of [load_documents], also
    when [load_documents] answered success False. *)
Theorem load_sample_documents_reports_success (st : St World) :
  fs_exists fs (path_normal fs "sample_documents") (world st) = true ->
  exists inner message document_count st',
    load_documents fs ext (path_normal fs "sample_documents") st = (Ok inner, st')
    /\ load_message inner = Some message
    /\ load_document_count inner = Some document_count
    /\ load_sample_documents fs ext st
       = (Ok {| load_success := true;
                load_message := Some ("Sample documents loaded: " +:+ message);
                load_document_count := Some document_count;
                load_documents_metadata := None;
                load_error := None |}, st').
Proof.
  intros Hfound.
  destruct (load_documents_shape (path_normal fs "sample_documents") st)
    as (inner & st' & Hrun & Hmessage & _ & Hfailure & Hsuccess).
  destruct (load_message inner) as [message|] eqn:Em; [|congruence].
  assert (Hcount : exists n, load_document_count inner = Some n).
  { destruct (load_success inner).
    - destruct (Hsuccess eq_refl) as (n & _ & _ & Hn & _). exists n. exact Hn.
    - destruct (Hfailure eq_refl) as [Hn _]. exists 0. exact Hn. }
  destruct Hcount as [n Hn].
  exists inner, message, n, st'. repeat split; try assumption.
  unfold load_sample_documents, try_catch, bind, observe.
  rewrite Hfound. cbn [negb]. rewrite Hrun, Em, Hn. reflexivity.
Qed.

End LoadingProperties.

(** ** The further properties on the reference instances *)

Lemma plain_document_chunks_witness :
  let whole := fun text : string => [text] in
  let path := DocumentProcessor.mkPath "docs/rates.txt" "rates.txt" in
  let chunks :=
    DocumentProcessor._process_documents whole path "2024-01-01T00:00:00"
      [ListStore.rates_chunk] in
  DocumentProcessor._extract_tables (page_content ListStore.rates_chunk) = []
  /\ map page_content chunks = ["Personal Loan APR: 8.5% - 12.5%"]
  /\ Forall (fun chunk => metadata chunk !! "total_chunks" = Some (MInt 1)) chunks.
Proof.
  intros whole path chunks.
  assert (Hplain : DocumentProcessor._extract_tables
                     (page_content ListStore.rates_chunk) = [])
    by (vm_compute; reflexivity).
  destruct (plain_document_chunks whole path "2024-01-01T00:00:00"
              ListStore.rates_chunk Hplain) as [Htexts Hlabels].
  split; [exact Hplain|]. split; [exact Htexts|].
  apply List.Forall_forall. intros chunk Hin.
  exact (proj1 (Hlabels chunk Hin)).
Defined.

Lemma table_document_total_chunks_witness :
  let whole := fun text : string => [text] in
  let path := DocumentProcessor.mkPath "docs/rates.txt" "rates.txt" in
  let doc :=
    {| page_content := "Rates" +:+ PyStr.nl +:+ "| a | b |" +:+ PyStr.nl +:+ "end";
       metadata := {[ "total_chunks" := MInt 7 ]} |} in
  let chunks :=
    DocumentProcessor._process_documents whole path "2024-01-01T00:00:00" [doc] in
  DocumentProcessor._extract_tables (page_content doc) <> []
  /\ length chunks = 3
  /\ Forall (fun chunk => metadata chunk !! "total_chunks" = Some (MInt 7)) chunks.
Proof.
  intros whole path doc chunks.
  assert (Htables : DocumentProcessor._extract_tables (page_content doc) <> [])
    by (vm_compute; discriminate).
  split; [exact Htables|]. split; [vm_compute; reflexivity|].
  apply List.Forall_forall. intros chunk Hin.
  exact (table_document_total_chunks whole path "2024-01-01T00:00:00" doc
           Htables chunk Hin).
Defined.

Lemma extract_tables_bounds_witness :
  let content := "Rates" +:+ PyStr.nl +:+ "| a | b |" +:+ PyStr.nl +:+ "end" in
  let t := DocumentProcessor.mkTable ("| a | b |" +:+ PyStr.nl) 6 16
             "structured_table" in
  In t (DocumentProcessor._extract_tables content)
  /\ DocumentProcessor.start_pos t < DocumentProcessor.end_pos t
  /\ DocumentProcessor.end_pos t <= String.length content
  /\ String.length (DocumentProcessor.tbl_text t)
     = DocumentProcessor.end_pos t - DocumentProcessor.start_pos t.
Proof.
  intros content t.
  assert (Hin : In t (DocumentProcessor._extract_tables content))
    by (vm_compute; left; reflexivity).
  split; [exact Hin|].
  exact (extract_tables_bounds content t Hin).
Defined.

Lemma get_all_documents_prefix_witness :
  let caps := ListStore.caps ListStore.score_of ListStore.llm_echo
                ListStore.loads_fail in
  let stored := [ListStore.rates_chunk; ListStore.audit_chunk; ListStore.rates_chunk] in
  exists documents,
    VectorStore.get_all_documents caps 2 (ListStore.start stored)
    = (Ok documents, {| world := stored; trace := [EvGet] |})
    /\ documents = firstn 2 (map document_of_entry (map entry_of stored))
    /\ length documents <= 2.
Proof.
  intros caps stored.
  exact (get_all_documents_prefix caps 2 (ListStore.start stored)
           (map entry_of stored) stored eq_refl).
Defined.

Lemma delete_documents_by_source_selection_witness :
  let caps := ListStore.caps ListStore.score_of ListStore.llm_echo
                ListStore.loads_fail in
  let stored := [ListStore.rates_chunk; ListStore.audit_chunk; ListStore.rates_chunk] in
  VectorStore.delete_documents_by_source caps "docs/fees.txt" (ListStore.start stored)
  = (Ok VNone,
     {| world := stored;
        trace := [EvGet; EvPrint "No documents found for source: docs/fees.txt"] |})
  /\ VectorStore.delete_documents_by_source caps "docs/audit.txt"
       (ListStore.start stored)
     = (Ok VNone,
        {| world := [ListStore.rates_chunk; ListStore.rates_chunk];
           trace := [EvGet; EvDelete [ListStore.audit_chunk];
                     EvPrint "Deleted 1 chunks from docs/audit.txt"] |}).
Proof.
  intros caps stored. split.
  - apply (proj1 (delete_documents_by_source_selection caps "docs/fees.txt"
                    (ListStore.start stored) (map entry_of stored) stored eq_refl)).
    vm_compute. reflexivity.
  - apply (proj1 (proj2 (delete_documents_by_source_selection caps "docs/audit.txt"
                           (ListStore.start stored) (map entry_of stored) stored
                           eq_refl)
                    ltac:(vm_compute; discriminate)
                    [ListStore.rates_chunk; ListStore.rates_chunk])).
    vm_compute. reflexivity.
Defined.

Lemma delete_documents_by_source_unlisted_witness :
  VectorStore.delete_documents_by_source
    (ListStore.unreachable "connection refused") "docs/rates.txt" (ListStore.start tt)
  = (Raise ("Failed to delete documents by source: "
            +:+ ("Failed to get all documents: " +:+ "connection refused")),
     {| world := tt; trace := [EvGet] |}).
Proof.
  exact (delete_documents_by_source_unlisted
           (ListStore.unreachable "connection refused") "docs/rates.txt"
           (ListStore.start tt) "connection refused" tt eq_refl).
Defined.

Lemma add_documents_outcomes_witness :
  let st := ListStore.start ([] : list Document, [] : list Message) in
  VectorStoreWrites.add_documents (ListMemory.ext_down "disk full")
    [ListStore.rates_chunk] st
  = (Raise ("Failed to add documents to vector store: " +:+ "disk full"), st)
  /\ VectorStoreWrites.add_documents ListMemory.ext [ListStore.rates_chunk] st
     = (Ok tt,
        {| world := ([ListStore.rates_chunk], []);
           trace := [EvPrint "Successfully added 1 documents to vector store"] |}).
Proof.
  intros st. split.
  - exact (proj1 (proj2 (add_documents_outcomes (ListMemory.ext_down "disk full") st))
             ListStore.rates_chunk [] "disk full" ([], []) eq_refl).
  - exact (proj2 (proj2 (add_documents_outcomes ListMemory.ext st))
             ListStore.rates_chunk [] ([ListStore.rates_chunk], []) (Ok tt)
             ([ListStore.rates_chunk], []) eq_refl eq_refl).
Defined.

Lemma extract_key_information_outcomes_witness :
  let caps := ListStore.caps ListStore.score_of ListStore.llm_down
                ListStore.loads_fail in
  let text := "Personal Loan APR: 8.5%" in
  LLMExtraction.extract_key_information caps text (ListStore.start [])
  = (Ok (VDict [("error", VStr ("Extraction failed: " +:+ "503 model unavailable"))]),
     {| world := [];
        trace := [EvInvoke (LLMExtraction.extraction_prompt text)] |}).
Proof.
  intros caps text.
  exact (extract_key_information_outcomes caps text (ListStore.start [])
           (Raise "503 model unavailable") [] eq_refl).
Defined.

Lemma query_call_sequence_witness :
  let caps := ListStore.caps ListStore.score_of ListStore.llm_echo
                ListStore.loads_fail in
  let question := "What is the APR?" in
  let context := "DOCUMENT 1: rates.txt" +:+ PyStr.nl
                 +:+ "Personal Loan APR: 8.5% - 12.5%" in
  let text := "Personal Loan APR is 8.5%" in
  let prompt :=
    LLMManager.select_prompt
      (RetrievalChain._determine_prompt_type [ListStore.rates_chunk])
      context question in
  exists label w4,
    RetrievalChain.query caps question None 4
      (ListStore.start [ListStore.rates_chunk])
    = (Ok {| RetrievalChain.answer := text;
             RetrievalChain.sources := map metadata [ListStore.rates_chunk];
             RetrievalChain.context := Some context;
             RetrievalChain.validation :=
               Some (LLMManager.ValidationReport text text);
             RetrievalChain.confidence := label |},
       {| world := w4;
          trace := [EvSimilaritySearch question 4 None;
                    EvInvoke prompt;
                    EvInvoke (LLMManager.validation_prompt text context);
                    EvSimilaritySearchWithScore text 1 None] |})
    /\ (label = "high" \/ label = "medium" \/ label = "low").
Proof.
  intros caps question context text prompt.
  assert (Hcontext : RetrievalChain._combine_context [ListStore.rates_chunk]
                     = Ok context) by (vm_compute; reflexivity).
  exact (query_call_sequence caps question None 4
           (ListStore.start [ListStore.rates_chunk])
           ListStore.rates_chunk [] [ListStore.rates_chunk] context text
           [ListStore.rates_chunk] (Ok text) [ListStore.rates_chunk]
           eq_refl Hcontext eq_refl eq_refl).
Defined.

Lemma query_context_failure_witness :
  let caps := ListStore.caps ListStore.score_of ListStore.llm_echo
                ListStore.loads_fail in
  let numbered :=
    {| page_content := "APR 8.5%"; metadata := {[ "file_path" := MInt 7 ]} |} in
  RetrievalChain.query caps "What is the APR?" None 4 (ListStore.start [numbered])
  = (Ok {| RetrievalChain.answer :=
             "Error processing query: "
             +:+ "argument of type 'int' is not iterable";
           RetrievalChain.sources := [];
           RetrievalChain.context := None;
           RetrievalChain.validation := None;
           RetrievalChain.confidence := "error" |},
     {| world := [numbered];
        trace := [EvSimilaritySearch "What is the APR?" 4 None] |}).
Proof.
  intros caps numbered.
  assert (Hcontext : RetrievalChain._combine_context [numbered]
                     = Raise "argument of type 'int' is not iterable")
    by (vm_compute; reflexivity).
  exact (query_context_failure caps "What is the APR?" None 4
           (ListStore.start [numbered]) numbered [] [numbered]
           "argument of type 'int' is not iterable" eq_refl Hcontext).
Defined.

Lemma structured_query_outcomes_witness :
  let caps := ListStore.caps ListStore.score_of ListStore.llm_down
                ListStore.loads_fail in
  RetrievalChain.structured_query caps "What is the APR?" VNone None
    (ListStore.start [])
  = (Ok {| RetrievalChain.sq_error := Some "No relevant documents found";
           RetrievalChain.sq_data := VNone;
           RetrievalChain.sq_sources := None;
           RetrievalChain.sq_context := None |},
     {| world := [];
        trace := [EvSimilaritySearch "What is the APR?" 4 None] |})
  /\ fst (RetrievalChain.structured_query caps "What is the APR?" VNone None
            (ListStore.start [ListStore.rates_chunk]))
     = Ok {| RetrievalChain.sq_error := None;
             RetrievalChain.sq_data :=
               VDict [("error", VStr "503 model unavailable")];
             RetrievalChain.sq_sources :=
               Some (map metadata [ListStore.rates_chunk]);
             RetrievalChain.sq_context :=
               Some ("DOCUMENT 1: rates.txt" +:+ PyStr.nl
                     +:+ "Personal Loan APR: 8.5% - 12.5%") |}.
Proof.
  intros caps. split.
  - exact (proj1 (proj2 (structured_query_outcomes caps "What is the APR?" VNone
                           None (ListStore.start [])))
             [] eq_refl).
  - assert (Hcontext : RetrievalChain._combine_context [ListStore.rates_chunk]
                       = Ok ("DOCUMENT 1: rates.txt" +:+ PyStr.nl
                             +:+ "Personal Loan APR: 8.5% - 12.5%"))
      by (vm_compute; reflexivity).
    exact (proj2 (proj2 (proj2 (structured_query_outcomes caps "What is the APR?"
                                  VNone None
                                  (ListStore.start [ListStore.rates_chunk]))))
             ListStore.rates_chunk [] [ListStore.rates_chunk] _
             "503 model unavailable" [ListStore.rates_chunk]
             eq_refl Hcontext eq_refl).
Defined.

Lemma conversational_query_outcomes_witness :
  let caps := ListMemory.caps ListStore.score_of ListStore.llm_echo
                ListStore.loads_fail in
  let st := ListStore.start ([] : list Document, [] : list Message) in
  let turn : gmap string string :=
    <["answer" := "8.5%"]> {[ "question" := "What is the APR?" ]} in
  Conversation.conversational_query caps (ListMemory.ext_down "memory offline")
    "And the fees?" (Some [turn]) st
  = (Ok (conversation_error "memory offline"), st)
  /\ Conversation.conversational_query caps (ListMemory.ext_down "memory offline")
       "And the fees?" None st
     = (Ok (conversation_error "memory offline"),
        {| world := ([], []);
           trace := [EvSimilaritySearch "And the fees?" 4 None] |}).
Proof.
  intros caps st turn. split.
  - apply (proj1 (conversational_query_outcomes caps
                    (ListMemory.ext_down "memory offline")
                    "And the fees?" (Some [turn]) st)
             "memory offline" st).
    vm_compute. reflexivity.
  - apply (proj2 (conversational_query_outcomes caps
                    (ListMemory.ext_down "memory offline")
                    "And the fees?" None st)
             st
             {| RetrievalChain.answer := RetrievalChain.refusal_message;
                RetrievalChain.sources := [];
                RetrievalChain.context := None;
                RetrievalChain.validation := None;
                RetrievalChain.confidence := "low" |}
             {| world := ([], []);
                trace := [EvSimilaritySearch "And the fees?" 4 None] |}
             (Raise "memory offline") ([], []));
      vm_compute; reflexivity.
Defined.

Lemma ask_question_always_succeeds_witness :
  let down := ListStore.unreachable "connection refused" in
  PyStr.truthy (PyStr.strip "What is the APR?") = true
  /\ exists result st',
       RetrievalChain.query down "What is the APR?" None 4 (ListStore.start tt)
       = (Ok result, st')
       /\ BankingAssistant.ask_question down "What is the APR?" (ListStore.start tt)
          = (Ok (ask_result_of result), st').
Proof.
  intros down.
  assert (Hasked : PyStr.truthy (PyStr.strip "What is the APR?") = true)
    by (vm_compute; reflexivity).
  split; [exact Hasked|].
  exact (ask_question_always_succeeds down "What is the APR?" (ListStore.start tt)
           Hasked).
Defined.

Lemma clear_conversation_history_always_succeeds_witness :
  let st := ListStore.start ([] : list Document, [HumanMessage "What is the APR?"]) in
  AssistantOperations.clear_conversation_history
    (ListMemory.ext_down "memory offline") st
  = (Ok {| AssistantOperations.outcome_success := true;
           AssistantOperations.outcome_message :=
             Some "Conversation history cleared successfully";
           AssistantOperations.outcome_error := None |},
     {| world := world st;
        trace := [EvPrint ("Error clearing memory: " +:+ "memory offline")] |}).
Proof.
  intros st.
  exact (clear_conversation_history_always_succeeds
           (ListMemory.ext_down "memory offline") st
           (Raise "memory offline") (world st) eq_refl).
Defined.

Lemma get_loan_information_outcomes_witness :
  let caps := ListStore.caps ListStore.score_of ListStore.llm_echo
                ListStore.loads_fail in
  fst (AssistantOperations.get_loan_information caps (Some "personal")
         (ListStore.start []))
  = Ok {| AssistantOperations.info_success := false;
          AssistantOperations.info_data := None;
          AssistantOperations.info_sources := None;
          AssistantOperations.info_error :=
            Some ("Error getting loan information: " +:+ "'sources'") |}.
Proof.
  intros caps.
  exact (proj1 (get_loan_information_outcomes caps (Some "personal")
                  (ListStore.start []))
           [] eq_refl).
Defined.


Lemma delete_document_outcomes_witness :
  let caps := ListStore.caps ListStore.score_of ListStore.llm_echo
                ListStore.loads_fail in
  AssistantOperations.delete_document caps "docs/fees.txt"
    (ListStore.start [ListStore.rates_chunk])
  = (Ok {| AssistantOperations.outcome_success := true;
           AssistantOperations.outcome_message :=
             Some ("Document " +:+ "docs/fees.txt" +:+ " deleted successfully");
           AssistantOperations.outcome_error := None |},
     {| world := [ListStore.rates_chunk];
        trace := [EvGet; EvPrint "No documents found for source: docs/fees.txt"] |})
  /\ fst (AssistantOperations.delete_document
            (ListStore.unreachable "connection refused") "docs/rates.txt"
            (ListStore.start tt))
     = Ok {| AssistantOperations.outcome_success := false;
             AssistantOperations.outcome_message := None;
             AssistantOperations.outcome_error :=
               Some ("Error deleting document: "
                     +:+ ("Failed to delete documents by source: "
                          +:+ ("Failed to get all documents: "
                               +:+ "connection refused"))) |}.
Proof.
  intros caps. split.
  - apply (proj1 (delete_document_outcomes caps "docs/fees.txt"
                    (ListStore.start [ListStore.rates_chunk]))
             (map entry_of [ListStore.rates_chunk]) [ListStore.rates_chunk] eq_refl).
    vm_compute. reflexivity.
  - exact (proj2 (delete_document_outcomes
                    (ListStore.unreachable "connection refused") "docs/rates.txt"
                    (ListStore.start tt))
             "connection refused" tt eq_refl).
Defined.

Lemma get_documents_list_counts_witness :
  let caps := ListStore.caps ListStore.score_of ListStore.llm_echo
                ListStore.loads_fail in
  let stored := [ListStore.rates_chunk; ListStore.audit_chunk; ListStore.rates_chunk] in
  exists listing,
    fst (AssistantOperations.get_documents_list caps (ListStore.start stored))
    = Ok listing
    /\ AssistantOperations.total_chunks listing = 3
    /\ list_sum (map AssistantOperations.chunk_count
                   (AssistantOperations.list_documents listing)) = 3.
Proof.
  intros caps stored.
  destruct (get_documents_list_counts caps (ListStore.start stored)
              (map entry_of stored) stored eq_refl)
    as (listing & Hrun & _ & Hchunks & Hsum & _).
  exists listing. split; [exact Hrun|].
  assert (Hthree : AssistantOperations.total_chunks listing = 3)
    by (rewrite Hchunks; reflexivity).
  split; [exact Hthree|]. rewrite Hsum. exact Hthree.
Defined.

Lemma load_document_outcomes_witness :
  let files := [("docs/broken.pdf", Raise "bad xref table");
                ("docs/rates.txt", Ok [ListStore.rates_chunk])] in
  let fs := ListFiles.fs "docs" files in
  let st := ListStore.start ([] : list Document, [] : list Message) in
  Loading.load_document fs "docs/fees.txt" st
  = (Raise ("Document not found: " +:+ "docs/fees.txt"), st)
  /\ Loading.load_document fs "docs/broken.pdf" st
     = (Raise ("Error loading document " +:+ "docs/broken.pdf" +:+ ": "
               +:+ "bad xref table"), st)
  /\ Loading.load_document fs "docs/rates.txt" st
     = (Ok (DocumentProcessor._process_documents (Loading.split_text fs)
              (DocumentProcessor.mkPath "docs/rates.txt" "rates.txt")
              "2024-01-01T00:00:00" [ListStore.rates_chunk]), st).
Proof.
  intros files fs st. split; [|split].
  - exact (proj1 (load_document_outcomes fs "docs/fees.txt" st) eq_refl).
  - exact (proj1 (proj2 (load_document_outcomes fs "docs/broken.pdf" st))
             eq_refl "bad xref table" ([], []) eq_refl).
  - exact (proj2 (proj2 (load_document_outcomes fs "docs/rates.txt" st))
             eq_refl [ListStore.rates_chunk] ([], []) "2024-01-01T00:00:00"
             ([], []) eq_refl eq_refl).
Defined.

Lemma load_documents_from_directory_total_witness :
  let files := [("docs/broken.pdf", Raise "bad xref table");
                ("docs/rates.txt", Ok [ListStore.rates_chunk])] in
  let fs := ListFiles.fs "docs" files in
  let st := ListStore.start ([] : list Document, [] : list Message) in
  Loading.fs_exists fs (Loading.path_normal fs "docs") (world st) = true
  /\ exists documents st',
       Loading.load_documents_from_directory fs "docs" st = (Ok documents, st').
Proof.
  intros files fs st. split; [reflexivity|].
  exact (load_documents_from_directory_total fs "docs" st eq_refl).
Defined.

Lemma load_files_skips_failure_witness :
  let files := [("docs/broken.pdf", Raise "bad xref table");
                ("docs/rates.txt", Ok [ListStore.rates_chunk])] in
  let fs := ListFiles.fs "docs" files in
  let st := ListStore.start ([] : list Document, [] : list Message) in
  Loading.load_files fs ["docs/broken.pdf"; "docs/rates.txt"] [] st
  = Loading.load_files fs ["docs/rates.txt"] []
      {| world := ([], []);
         trace := [EvPrint ("Warning: Could not load " +:+ "docs/broken.pdf"
                            +:+ ": "
                            +:+ ("Error loading document " +:+ "docs/broken.pdf"
                                 +:+ ": " +:+ "bad xref table"))] |}
  /\ Loading.load_files fs ["docs/notes.log"; "docs/rates.txt"] [] st
     = Loading.load_files fs ["docs/rates.txt"] [] st.
Proof.
  intros files fs st. split.
  - exact (proj1 (load_files_skips_failure fs "docs/broken.pdf" ["docs/rates.txt"]
                    [] st)
             eq_refl eq_refl
             ("Error loading document " +:+ "docs/broken.pdf" +:+ ": "
              +:+ "bad xref table")
             st eq_refl).
  - exact (proj2 (load_files_skips_failure fs "docs/notes.log" ["docs/rates.txt"]
                    [] st)
             eq_refl).
Defined.

Lemma load_documents_path_not_found_witness :
  let fs := ListFiles.fs "docs" [("docs/rates.txt", Ok [ListStore.rates_chunk])] in
  let st := ListStore.start ([] : list Document, [] : list Message) in
  Loading.load_documents fs ListMemory.ext "reports" st
  = (Ok (Loading.load_failure
           ("Error loading documents: Path not found: " +:+ "reports")), st).
Proof.
  intros fs st.
  exact (load_documents_path_not_found fs ListMemory.ext "reports" st
           eq_refl eq_refl).
Defined.

Lemma load_documents_nothing_loaded_witness :
  let fs := ListFiles.fs "docs" [("docs/broken.pdf", Raise "bad xref table")] in
  let st := ListStore.start ([] : list Document, [] : list Message) in
  let st1 :=
    {| world := world st;
       trace := [EvPrint ("Warning: Could not load " +:+ "docs/broken.pdf"
                          +:+ ": "
                          +:+ ("Error loading document " +:+ "docs/broken.pdf"
                               +:+ ": " +:+ "bad xref table"))] |} in
  Loading.load_documents fs ListMemory.ext "docs" st
  = (Ok (Loading.load_failure "No documents found or processed"), st1).
Proof.
  intros fs st st1.
  exact (load_documents_nothing_loaded fs ListMemory.ext "docs" st st1
           eq_refl eq_refl eq_refl).
Defined.

Lemma load_sample_documents_reports_success_witness :
  let fs := ListFiles.fs "sample_documents"
              [("sample_documents/broken.pdf", Raise "bad xref table")] in
  let st := ListStore.start ([] : list Document, [] : list Message) in
  let st1 :=
    {| world := world st;
       trace := [EvPrint ("Warning: Could not load "
                          +:+ "sample_documents/broken.pdf" +:+ ": "
                          +:+ ("Error loading document "
                               +:+ "sample_documents/broken.pdf"
                               +:+ ": " +:+ "bad xref table"))] |} in
  Loading.load_documents fs ListMemory.ext "sample_documents" st
  = (Ok (Loading.load_failure "No documents found or processed"), st1)
  /\ Loading.load_sample_documents fs ListMemory.ext st
     = (Ok {| Loading.load_success := true;
              Loading.load_message :=
                Some ("Sample documents loaded: "
                      +:+ "No documents found or processed");
              Loading.load_document_count := Some 0;
              Loading.load_documents_metadata := None;
              Loading.load_error := None |}, st1).
Proof.
  intros fs st st1.
  assert (Hinner : Loading.load_documents fs ListMemory.ext "sample_documents" st
                   = (Ok (Loading.load_failure "No documents found or processed"),
                      st1))
    by (vm_compute; reflexivity).
  split; [exact Hinner|].
  destruct (load_sample_documents_reports_success fs ListMemory.ext st eq_refl)
    as (inner & message & document_count & st' & Hrun & Hmessage & Hcount & Hresult).
  change (Loading.path_normal fs "sample_documents") with "sample_documents" in Hrun.
  rewrite Hinner in Hrun. injection Hrun as <- <-.
  injection Hmessage as <-. injection Hcount as <-.
  exact Hresult.
Defined.
